(** * ida-headless-mcp: session, worker, cache and transport orchestration

    A shallow embedding of the Go gateway (packages [session], [worker] and
    [server]) together with the properties its specification states.

    Conventions of the embedding:
    - Go [int] / [int64] values are [Z]; a conversion to [int32] is written
      out with its wrap-around ([int32]).
    - A Go slice is a [slice A]: [None] is the nil slice, [Some l] a non-nil
      slice holding [l].  The cache distinguishes the two.
    - A Go map is a stdpp [gmap]; a nil map and an empty map read alike.
    - [*Session] pointers are addresses into an explicit heap, so that the
      two registry indices alias one object as they do in Go.
    - Everything the process obtains from outside (clock, uuid, process
      spawning, worker RPC answers) is an explicit input of the operation
      that consumes it. *)

From Stdlib Require Import ZArith Lia List Ascii String.
From stdpp Require Import base option list strings pretty gmap fin_maps.

Local Open Scope string_scope.
Local Open Scope list_scope.
Local Open Scope Z_scope.
Local Set Warnings "-register-all".

(** ** Go values *)

Module Go.

(** [nil] or a non-nil slice. *)
Definition slice (A : Type) : Type := option (list A).

Definition nil_slice {A} : slice A := None.

(** [len(s)] *)
Definition len {A} (s : slice A) : Z :=
  match s with None => 0 | Some l => Z.of_nat (length l) end.

(** The elements ranged over by [for _, x := range s]. *)
Definition elems {A} (s : slice A) : list A :=
  match s with None => [] | Some l => l end.

(** [s == nil] *)
Definition is_nil {A} (s : slice A) : bool :=
  match s with None => true | Some _ => false end.

(** [append(s, t...)]: appending nothing to nil leaves nil. *)
Definition append {A} (s : slice A) (t : list A) : slice A :=
  match s, t with
  | None, [] => None
  | None, _ :: _ => Some t
  | Some l, _ => Some (l ++ t)
  end.

(** [make([]T, 0, n)]: empty but not nil. *)
Definition make_empty {A} : slice A := Some [].

(** [s[lo:hi]] for [0 <= lo <= hi <= len(s)]; Go panics otherwise, which
    is [None] here.  Reslicing nil at [0:0] is nil. *)
Definition reslice {A} (s : slice A) (lo hi : Z) : option (slice A) :=
  if bool_decide (0 <= lo /\ lo <= hi /\ hi <= len s) then
    Some (match s with
          | None => None
          | Some l => Some (take (Z.to_nat (hi - lo)) (drop (Z.to_nat lo) l))
          end)
  else None.

(** A repeated protobuf field as it reaches the gateway.  The field is
    decoded from the wire into a fresh message, so it stays nil unless at
    least one element arrived. *)
Definition repeated {A} (wire : list A) : slice A :=
  match wire with [] => None | _ :: _ => Some wire end.

(** [int32(x)] for an [int] x. *)
Definition int32 (x : Z) : Z := (x + 2147483648) mod 4294967296 - 2147483648.

(** (value, error) results. *)
Inductive result (A : Type) : Type :=
| Err (e : string)
| Ok (a : A).
Arguments Err {A} e.
Arguments Ok {A} a.

End Go.
Export Go.

(** ** JSON values

    [encoding/json] is used through [Marshal]/[Unmarshal] only; payloads are
    kept as values, the text codec is the library's. *)

Inductive json : Type :=
| JNull
| JBool (b : bool)
| JNum (z : Z)
| JStr (s : string)
| JArr (l : list json)
| JObj (fields : list (string * json)).

(** ** Worker messages (package [pb]) *)

Record Function := { fn_Address : Z; fn_Name : string }.
Record Import := { imp_Module : string; imp_Address : Z; imp_Name : string; imp_Ordinal : Z }.
Record Export := { exp_Index : Z; exp_Ordinal : Z; exp_Address : Z; exp_Name : string }.
Record StringItem := { str_Address : Z; str_Value : string }.

Record GetStringsResponse := {
  gs_Strings : list StringItem;   (* as sent on the wire *)
  gs_Total : Z;
  gs_Error : string }.

Record GetFunctionsResponse := { gf_Functions : list Function; gf_Error : string }.
Record GetImportsResponse := { gi_Imports : list Import; gi_Error : string }.
Record GetExportsResponse := { ge_Exports : list Export; ge_Error : string }.

Record OpenBinaryResponse := { ob_Success : bool; ob_HasDecompiler : bool; ob_Error : string }.
Record GetSessionInfoResponse := { si_AutoState : string; si_AutoRunning : bool }.
Record PlanAndWaitResponse := { pw_Success : bool; pw_DurationSeconds : Z; pw_Error : string }.
Record MakeFunctionResponse := { mf_Success : bool; mf_Error : string }.
Record SaveDatabaseResponse := { sd_Success : bool; sd_Timestamp : Z; sd_Dirty : bool }.

(** ** server.go: constants and pagination *)

Definition defaultPageLimit : Z := 1000.
Definition maxPageLimit : Z := 10000.

Definition normalizePagination (offset limit : Z) : result (Z * Z) :=
  if offset <? 0 then Err "offset must be >= 0"
  else
    let limit := if limit <=? 0 then defaultPageLimit else limit in
    if limit >? maxPageLimit then Err "limit must be <= 10000"
    else Ok (offset, limit).

Definition string_item (item : StringItem) : json :=
  JObj [("address", JNum (str_Address item)); ("value", JStr (str_Value item))].

Definition function_item (fn : Function) : json :=
  JObj [("address", JNum (fn_Address fn)); ("name", JStr (fn_Name fn))].

Definition import_item (imp : Import) : json :=
  JObj [("module", JStr (imp_Module imp)); ("address", JNum (imp_Address imp));
        ("name", JStr (imp_Name imp)); ("ordinal", JNum (imp_Ordinal imp))].

Definition export_item (e : Export) : json :=
  JObj [("index", JNum (exp_Index e)); ("ordinal", JNum (exp_Ordinal e));
        ("address", JNum (exp_Address e)); ("name", JStr (exp_Name e))].

Definition mapStringItems (items : list StringItem) : list json := map string_item items.
Definition mapFunctionItems (items : list Function) : list json := map function_item items.
Definition mapImportItems (items : list Import) : list json := map import_item items.
Definition mapExportItems (items : list Export) : list json := map export_item items.

(** ** path/filepath.Clean (Unix)

    The Go standard library's lexical path normalisation, by its documented
    rules: collapse separators, drop [.] elements, resolve inner [..]
    elements, drop [..] at the root; the empty result is [.]. *)

Module filepath.

Fixpoint components (s : string) : list string :=
  match s with
  | EmptyString => [EmptyString]
  | String c rest =>
      if Ascii.eqb c "/" then EmptyString :: components rest
      else match components rest with
           | x :: xs => String c x :: xs
           | [] => [String c EmptyString]
           end
  end.

(** One path element against the elements kept so far (innermost first). *)
Definition clean_step (rooted : bool) (kept : list string) (elem : string) : list string :=
  if String.eqb elem "" || String.eqb elem "." then kept
  else if String.eqb elem ".." then
    match kept with
    | top :: below => if String.eqb top ".." then ".." :: kept else below
    | [] => if rooted then [] else [".."]
    end
  else elem :: kept.

Fixpoint join (elems : list string) : string :=
  match elems with
  | [] => ""
  | [x] => x
  | x :: rest => String.append x (String "/" (join rest))
  end.

Definition Clean (path : string) : string :=
  match path with
  | EmptyString => "."
  | String c rest =>
      let rooted := Ascii.eqb c "/" in
      let kept := rev (fold_left (clean_step rooted) (components (if rooted then rest else path)) []) in
      if rooted then String "/" (join kept)
      else match kept with [] => "." | _ => join kept end
  end.

End filepath.

(** ** package session (registry.go) *)

Module session.

Record Session := {
  ID : string;
  BinaryPath : string;
  CreatedAt : Z;
  LastActivity : Z;
  Timeout : Z;
  SocketPath : string;
  WorkerPID : Z }.

Record Metadata := {
  m_ID : string;
  m_BinaryPath : string;
  m_CreatedAt : Z;
  m_LastActivity : Z;
  m_Timeout : Z;
  m_HasDecompiler : bool }.

(** The Go heap of [Session] objects; a [*Session] is an address in it. *)
Record Heap := { objs : gmap nat Session; next_addr : nat }.

Definition empty_heap : Heap := {| objs := ∅; next_addr := 0 |}.

Definition alloc (h : Heap) (v : Session) : nat * Heap :=
  (next_addr h, {| objs := <[next_addr h := v]> (objs h); next_addr := S (next_addr h) |}).

Definition deref (h : Heap) (p : nat) : option Session := objs h !! p.

Definition with_LastActivity (t : Z) (s : Session) : Session :=
  {| ID := ID s; BinaryPath := BinaryPath s; CreatedAt := CreatedAt s; LastActivity := t;
     Timeout := Timeout s; SocketPath := SocketPath s; WorkerPID := WorkerPID s |}.

Definition with_WorkerPID (pid : Z) (s : Session) : Session :=
  {| ID := ID s; BinaryPath := BinaryPath s; CreatedAt := CreatedAt s; LastActivity := LastActivity s;
     Timeout := Timeout s; SocketPath := SocketPath s; WorkerPID := pid |}.

(** [(s *Session) Touch()], with the clock reading [now]. *)
Definition Touch (h : Heap) (p : nat) (now : Z) : Heap :=
  {| objs := alter (with_LastActivity now) p (objs h); next_addr := next_addr h |}.

(** [(s *Session) IsExpired()]: [time.Since(LastActivity) > Timeout]. *)
Definition IsExpired (s : Session) (now : Z) : bool := now - LastActivity s >? Timeout s.

Definition Metadata_of (s : Session) : Metadata :=
  {| m_ID := ID s; m_BinaryPath := BinaryPath s; m_CreatedAt := CreatedAt s;
     m_LastActivity := LastActivity s; m_Timeout := Timeout s; m_HasDecompiler := false |}.

Record Registry := {
  sessions : gmap string nat;
  binaryIndex : gmap string nat;
  maxSessions : Z }.

Definition NewRegistry (maxSessions : Z) : Registry :=
  {| sessions := ∅; binaryIndex := ∅; maxSessions := maxSessions |}.

(** What [Create] draws from outside: the two uuid prefixes and the clock. *)
Record Fresh := {
  uuid_id : string;        (* uuid.New().String()[:8], the session id *)
  uuid_sock : string;      (* uuid.New().String()[:8], the socket name *)
  now_created : Z;
  now_activity : Z }.

Definition socket_path (tok : string) : string :=
  String.append "/tmp/ida-worker-" (String.append tok ".sock").

Definition Create (h : Heap) (r : Registry) (binaryPath : string) (timeout : Z) (f : Fresh)
  : result nat * Heap * Registry :=
  if Z.of_nat (size (sessions r)) >=? maxSessions r then
    (Err "max sessions reached", h, r)
  else
    let normPath := filepath.Clean binaryPath in
    let sess := {| ID := uuid_id f; BinaryPath := normPath; CreatedAt := now_created f;
                   LastActivity := now_activity f; Timeout := timeout;
                   SocketPath := socket_path (uuid_sock f); WorkerPID := 0 |} in
    let '(p, h') := alloc h sess in
    (Ok p, h', {| sessions := <[ID sess := p]> (sessions r);
                  binaryIndex := <[normPath := p]> (binaryIndex r);
                  maxSessions := maxSessions r |}).

Definition Restore (h : Heap) (r : Registry) (meta : Metadata) (sock : string)
  : result nat * Heap * Registry :=
  if Z.of_nat (size (sessions r)) >=? maxSessions r then
    (Err "max sessions reached", h, r)
  else if bool_decide (is_Some (sessions r !! m_ID meta)) then
    (Err "session already exists", h, r)
  else
    let normPath := filepath.Clean (m_BinaryPath meta) in
    let sess := {| ID := m_ID meta; BinaryPath := normPath; CreatedAt := m_CreatedAt meta;
                   LastActivity := m_LastActivity meta; Timeout := m_Timeout meta;
                   SocketPath := socket_path sock; WorkerPID := 0 |} in
    let '(p, h') := alloc h sess in
    (Ok p, h', {| sessions := <[ID sess := p]> (sessions r);
                  binaryIndex := <[normPath := p]> (binaryIndex r);
                  maxSessions := maxSessions r |}).

Definition FindByBinaryPath (r : Registry) (path : string) : option nat :=
  binaryIndex r !! filepath.Clean path.

Definition Get (r : Registry) (id : string) : option nat := sessions r !! id.

Definition Delete (h : Heap) (r : Registry) (id : string) : Registry :=
  match sessions r !! id with
  | Some p =>
      match deref h p with
      | Some sess =>
          {| sessions := delete id (sessions r);
             binaryIndex := delete (BinaryPath sess) (binaryIndex r);
             maxSessions := maxSessions r |}
      | None => r   (* a stored pointer is never dangling *)
      end
  | None => r
  end.

(** [List]: the sessions in map-iteration order (unspecified in Go). *)
Definition List (h : Heap) (r : Registry) : list Session :=
  omap (fun kv => deref h (snd kv)) (map_to_list (sessions r)).

Definition Expired (h : Heap) (r : Registry) (now : Z) : list Session :=
  filter (fun s => IsExpired s now = true) (List h r).

End session.

(** ** package worker (manager.go) *)

Module worker.
Import session.

(** *** The [context] package, as far as the manager uses it

    Context 0 is [context.Background()]: it has no parent and no cancel
    function.  [WithCancel] derives a child; a context is done once it or
    one of its ancestors has been cancelled. *)

Record Contexts := {
  parent : gmap nat nat;
  cancelled : gset nat;
  next_ctx : nat }.

Definition Background : nat := 0%nat.

Definition no_contexts : Contexts := {| parent := ∅; cancelled := ∅; next_ctx := 1 |}.

Definition WithCancel (c : Contexts) (par : nat) : nat * Contexts :=
  (next_ctx c,
   {| parent := <[next_ctx c := par]> (parent c);
      cancelled := cancelled c;
      next_ctx := S (next_ctx c) |}).

(** Calling the cancel function of context [id]. *)
Definition cancel (c : Contexts) (id : nat) : Contexts :=
  if bool_decide (id = Background) then c
  else {| parent := parent c; cancelled := {[id]} ∪ cancelled c; next_ctx := next_ctx c |}.

Fixpoint done_upto (fuel : nat) (c : Contexts) (id : nat) : bool :=
  bool_decide (id ∈ cancelled c) ||
  match fuel with
  | O => false
  | S fuel' =>
      match parent c !! id with
      | Some par => done_upto fuel' c par
      | None => false
      end
  end.

(** [ctx.Err() != nil] *)
Definition Done (c : Contexts) (id : nat) : bool := done_upto (next_ctx c) c id.

(** *** Child processes started with [exec.CommandContext] *)

Record Proc := { proc_ctx : nat; proc_alive : bool }.

Record OS := { ctxs : Contexts; procs : gmap Z Proc }.

Definition boot : OS := {| ctxs := no_contexts; procs := ∅ |}.

Definition mark_dead (p : Proc) : Proc := {| proc_ctx := proc_ctx p; proc_alive := false |}.

Definition alive (os : OS) (pid : Z) : bool :=
  match procs os !! pid with Some p => proc_alive p | None => false end.


(** A process exiting by itself (crash, external kill). *)
Definition process_exit (os : OS) (pid : Z) : OS :=
  {| ctxs := ctxs os; procs := alter mark_dead pid (procs os) |}.

(** *** The manager *)

Record WorkerClient := {
  cmd : Z;                (* pid of cmd.Process *)
  ctx : nat;              (* workerCtx, cancelled by [cancel] *)
  w_session : nat;        (* *session.Session *)
  binaryPath : string }.

Record Manager := {
  pythonScript : string;
  sessions : gmap string WorkerClient;
  (** instrumentation: [Start] invocations per binary path, the counter
      the test double [fakeWorkerManager] keeps as [starts] *)
  starts : gmap string nat }.

Definition NewManager (script : string) : Manager :=
  {| pythonScript := script; sessions := ∅; starts := ∅ |}.

Definition StartCount (m : Manager) (path : string) : nat :=
  default 0%nat (starts m !! path).

Definition with_sessions (m : Manager) (ss : gmap string WorkerClient) : Manager :=
  {| pythonScript := pythonScript m; sessions := ss; starts := starts m |}.

Definition count_start (m : Manager) (path : string) : Manager :=
  {| pythonScript := pythonScript m; sessions := sessions m;
     starts := <[path := S (StartCount m path)]> (starts m) |}.

(** What the operating system answers during [Start]. *)
Record StartEnv := {
  remove_ok : bool;        (* os.RemoveAll(sess.SocketPath) *)
  spawn : option Z;        (* cmd.Start(): the pid, or failure *)
  socket_ready : bool }.   (* waitForSocket within 10s *)

(** [Start(ctx, sess, binaryPath)].  The request context [rctx] is
    received and never consulted: the worker context is derived from
    [Background]. *)
Definition Start (os : OS) (h : Heap) (m : Manager) (rctx : nat) (sess : nat)
    (path : string) (e : StartEnv) : option string * OS * Heap * Manager :=
  let m := count_start m path in
  match deref h sess with
  | None => (Some "nil session", os, h, m)   (* [sess] is never dangling *)
  | Some s =>
      if negb (remove_ok e) then (Some "failed to remove old socket", os, h, m)
      else
        let '(workerCtx, cs) := WithCancel (ctxs os) Background in
        match spawn e with
        | None =>
            (Some "failed to start worker",
             {| ctxs := cancel cs workerCtx; procs := procs os |}, h, m)
        | Some pid =>
            let h' := {| objs := alter (with_WorkerPID pid) sess (objs h);
                         next_addr := next_addr h |} in
            let running := <[pid := {| proc_ctx := workerCtx; proc_alive := true |}]> (procs os) in
            if negb (socket_ready e) then
              (Some "worker socket not ready",
               {| ctxs := cancel cs workerCtx; procs := alter mark_dead pid running |}, h', m)
            else
              let w := {| cmd := pid; ctx := workerCtx; w_session := sess; binaryPath := path |} in
              (None, {| ctxs := cs; procs := running |}, h',
               with_sessions m (<[ID s := w]> (sessions m)))
        end
  end.

(** [monitorWorker]: runs once the worker's process has exited. *)
Definition monitorWorker (m : Manager) (sessionID : string) : Manager :=
  with_sessions m (delete sessionID (sessions m)).


(** [Stop(sessionID)].  [kill_fails] is an error of the kill system call
    on a process that is still running; killing an exited process yields
    [os.ErrProcessDone], which is tolerated. *)
Definition Stop (os : OS) (m : Manager) (sessionID : string) (kill_fails : option string)
  : option string * OS * Manager :=
  match sessions m !! sessionID with
  | None => (Some (String.append "no worker for session " sessionID), os, m)
  | Some w =>
      let killErr := if alive os (cmd w) then kill_fails else None in
      let os' := {| ctxs := cancel (ctxs os) (ctx w);
                    procs := alter mark_dead (cmd w) (procs os) |} in
      let m' := with_sessions m (delete sessionID (sessions m)) in
      match killErr with
      | Some _ => (Some "failed to kill worker", os', m')
      | None => (None, os', m')
      end
  end.

Definition GetClient (m : Manager) (sessionID : string) : result WorkerClient :=
  match sessions m !! sessionID with
  | Some w => Ok w
  | None => Err (String.append "no worker for session " sessionID)
  end.

End worker.

(** ** package server: state, cache and progress (server.go, cache.go, progress.go) *)

Module server.
Import session worker.

Record sessionCache := {
  c_strings : slice StringItem;
  c_functions : slice Function;
  c_imports : slice Import;
  c_exports : slice Export }.

(** [&sessionCache{}] *)
Definition empty_cache : sessionCache :=
  {| c_strings := None; c_functions := None; c_imports := None; c_exports := None |}.

(** Progress values are [float64] in Go; every value the modelled paths
    pass is an integer (step numbers and element counts). *)
Record sessionProgress := {
  Stage : string;
  Message : string;
  Progress : Z;
  Total : Z;
  UpdatedAt : Z }.

(** The cache lines the server writes to its logger. *)
Inductive LogLine :=
| CacheHIT (kind sessionID : string)     (* "[Cache] <kind> HIT session=<id>" *)
| CacheMISS (kind sessionID : string)    (* "[Cache] <kind> MISS session=<id>" *)
| CacheClear (sessionID : string).       (* "[Cache] clear session=<id>" *)

Record Server := {
  mem : Heap;
  os : OS;
  registry : Registry;
  workers : Manager;
  sessionTimeout : Z;
  store : option (gmap string Metadata);   (* nil, or the files <id>.json *)
  cache : gmap string sessionCache;
  progress : gmap string sessionProgress;
  logger : list LogLine }.

Definition New (maxSessions : Z) (script : string) (timeout : Z)
    (st : option (gmap string Metadata)) : Server :=
  {| mem := empty_heap; os := boot; registry := NewRegistry maxSessions;
     workers := NewManager script; sessionTimeout := timeout; store := st;
     cache := ∅; progress := ∅; logger := [] |}.

Definition set_mem (s : Server) (h : Heap) : Server :=
  {| mem := h; os := os s; registry := registry s; workers := workers s;
     sessionTimeout := sessionTimeout s; store := store s; cache := cache s;
     progress := progress s; logger := logger s |}.
Definition set_os (s : Server) (o : OS) : Server :=
  {| mem := mem s; os := o; registry := registry s; workers := workers s;
     sessionTimeout := sessionTimeout s; store := store s; cache := cache s;
     progress := progress s; logger := logger s |}.
Definition set_registry (s : Server) (r : Registry) : Server :=
  {| mem := mem s; os := os s; registry := r; workers := workers s;
     sessionTimeout := sessionTimeout s; store := store s; cache := cache s;
     progress := progress s; logger := logger s |}.
Definition set_workers (s : Server) (m : Manager) : Server :=
  {| mem := mem s; os := os s; registry := registry s; workers := m;
     sessionTimeout := sessionTimeout s; store := store s; cache := cache s;
     progress := progress s; logger := logger s |}.
Definition set_store (s : Server) (st : option (gmap string Metadata)) : Server :=
  {| mem := mem s; os := os s; registry := registry s; workers := workers s;
     sessionTimeout := sessionTimeout s; store := st; cache := cache s;
     progress := progress s; logger := logger s |}.
Definition set_cache (s : Server) (c : gmap string sessionCache) : Server :=
  {| mem := mem s; os := os s; registry := registry s; workers := workers s;
     sessionTimeout := sessionTimeout s; store := store s; cache := c;
     progress := progress s; logger := logger s |}.
Definition set_progress (s : Server) (p : gmap string sessionProgress) : Server :=
  {| mem := mem s; os := os s; registry := registry s; workers := workers s;
     sessionTimeout := sessionTimeout s; store := store s; cache := cache s;
     progress := p; logger := logger s |}.
Definition printf (s : Server) (l : LogLine) : Server :=
  {| mem := mem s; os := os s; registry := registry s; workers := workers s;
     sessionTimeout := sessionTimeout s; store := store s; cache := cache s;
     progress := progress s; logger := logger s ++ [l] |}.

(** *** progress.go *)

Definition recordProgress (s : Server) (sessionID stage message : string)
    (prog total now : Z) : Server :=
  if String.eqb sessionID "" then s
  else set_progress s
         (<[sessionID := {| Stage := stage; Message := message; Progress := prog;
                            Total := total; UpdatedAt := now |}]> (progress s)).

Definition clearProgress (s : Server) (sessionID : string) : Server :=
  if String.eqb sessionID "" then s
  else set_progress s (delete sessionID (progress s)).

Definition getProgress (s : Server) (sessionID : string) : option sessionProgress :=
  progress s !! sessionID.

(** [emitProgress]: the reporter built by [s.progressReporter] is never
    nil and records through [recordProgress]; an empty [stage] falls back
    to the reporter's own.  The MCP notification pushed to the client when
    the call carries a progress token is not part of the server state. *)
Definition emitProgress (s : Server) (reporterStage sessionID stage message : string)
    (current total now : Z) : Server :=
  let stage := if String.eqb stage "" then reporterStage else stage in
  recordProgress s sessionID stage message current total now.

(** *** util.go *)

Definition logAndSanitizeError (context : string) : string :=
  String.append context " failed".

(** *** session.go: persistence helpers *)

Definition persistSession (s : Server) (sess : Session) : Server :=
  match store s with
  | None => s
  | Some files => set_store s (Some (<[ID sess := Metadata_of sess]> files))
  end.

Definition deleteSessionState (s : Server) (sessionID : string) : Server :=
  match store s with
  | None => s
  | Some files => set_store s (Some (delete sessionID files))
  end.

(** *** cache.go *)

Definition getSessionCache (s : Server) (sessionID : string) : sessionCache * Server :=
  match cache s !! sessionID with
  | Some c => (c, s)
  | None => (empty_cache, set_cache s (<[sessionID := empty_cache]> (cache s)))
  end.

Definition deleteSessionCache (s : Server) (sessionID : string) : Server :=
  let s := if bool_decide (is_Some (cache s !! sessionID))
           then printf s (CacheClear sessionID) else s in
  set_cache s (delete sessionID (cache s)).

(** What a tool handler hands back to the MCP library. *)
Inductive ToolReturn :=
| ToolText (text : string)     (* a result whose text is not JSON *)
| ToolJson (payload : json)    (* a result whose text is the marshalled payload *)
| ToolErr (message : string)   (* the error value the handler returns *)
| ToolPanics                   (* a run-time panic *)
| ToolHangs.                   (* the handler does not return *)

(** The last [Emit] of a loader; each [Emit] overwrites the session's
    snapshot, so only the last one of a call stays in the state. *)
Record Emission := { em_stage : string; em_message : string; em_progress : Z; em_total : Z }.

Definition chunkSize : Z := defaultPageLimit.

(** [fetchAllStrings]: the chunk loop, [fuel] iterations at most.  [None]
    means the loop is still running when the fuel is spent. *)
Fixpoint fetchAllStrings_from (fuel : nat) (GetStrings : Z -> Z -> result GetStringsResponse)
    (all : slice StringItem) (offset total : Z)
  : option (result (slice StringItem) * Emission) :=
  match fuel with
  | O => None
  | S fuel' =>
      match GetStrings (int32 offset) (int32 chunkSize) with
      | Err e =>
          Some (Err e, {| em_stage := "get_strings";
                          em_message := String.append "Failed to enumerate strings: " e;
                          em_progress := len all; em_total := total |})
      | Ok resp =>
          if negb (String.eqb (gs_Error resp) "") then
            Some (Err (gs_Error resp),
                  {| em_stage := "get_strings";
                     em_message := String.append "IDA error enumerating strings: " (gs_Error resp);
                     em_progress := len all; em_total := total |})
          else
            let chunk := repeated (gs_Strings resp) in
            let all := append all (elems chunk) in
            let total := if (total =? 0) && (gs_Total resp >? 0) then gs_Total resp else total in
            if len chunk <? chunkSize then
              Some (Ok all, {| em_stage := "get_strings";
                               em_message := "String enumeration complete";
                               em_progress := len all; em_total := total |})
            else fetchAllStrings_from fuel' GetStrings all (offset + len chunk) total
      end
  end.

Definition fetchAllStrings (fuel : nat) (GetStrings : Z -> Z -> result GetStringsResponse)
  : option (result (slice StringItem) * Emission) :=
  fetchAllStrings_from fuel GetStrings None 0 0.

Definition fetched (stage noun : string) (n : Z) : Emission :=
  {| em_stage := stage;
     em_message := String.append "Fetched " (String.append (pretty n) (String.append " " noun));
     em_progress := n; em_total := n |}.

Definition fetch_failed (stage message : string) : Emission :=
  {| em_stage := stage; em_message := message; em_progress := 0; em_total := 0 |}.

Definition fetchAllFunctions (rpc : result GetFunctionsResponse)
  : result (slice Function) * Emission :=
  match rpc with
  | Err e => (Err e, fetch_failed "get_functions" (String.append "Failed to fetch functions: " e))
  | Ok resp =>
      if negb (String.eqb (gf_Error resp) "") then
        (Err (gf_Error resp),
         fetch_failed "get_functions" (String.append "IDA error fetching functions: " (gf_Error resp)))
      else
        let functions := repeated (gf_Functions resp) in
        (Ok functions, fetched "get_functions" "functions" (len functions))
  end.

Definition fetchAllImports (rpc : result GetImportsResponse)
  : result (slice Import) * Emission :=
  match rpc with
  | Err e => (Err e, fetch_failed "get_imports" (String.append "Failed to fetch imports: " e))
  | Ok resp =>
      if negb (String.eqb (gi_Error resp) "") then
        (Err (gi_Error resp),
         fetch_failed "get_imports" (String.append "IDA error fetching imports: " (gi_Error resp)))
      else
        let imports := repeated (gi_Imports resp) in
        (Ok imports, fetched "get_imports" "imports" (len imports))
  end.

Definition fetchAllExports (rpc : result GetExportsResponse)
  : result (slice Export) * Emission :=
  match rpc with
  | Err e => (Err e, fetch_failed "get_exports" (String.append "Failed to fetch exports: " e))
  | Ok resp =>
      if negb (String.eqb (ge_Error resp) "") then
        (Err (ge_Error resp),
         fetch_failed "get_exports" (String.append "IDA error fetching exports: " (ge_Error resp)))
      else
        let exports := repeated (ge_Exports resp) in
        (Ok exports, fetched "get_exports" "exports" (len exports))
  end.

(** The four cache entries differ by field and by name only; [ListKind]
    collects what differs between [loadStrings], [loadFunctions],
    [loadImports], [loadExports] and between the four list tools. *)
Record ListKind (A : Type) := {
  k_tool : string;                       (* tool name, e.g. get_functions *)
  k_kind : string;                       (* cache line and result key, e.g. functions *)
  k_hit : string;                        (* progress message on a cache hit *)
  k_get : sessionCache -> slice A;       (* c.functions *)
  k_set : sessionCache -> slice A -> sessionCache;   (* c.functions = data *)
  k_text : A -> string;                  (* the field the regex is matched on *)
  k_module : option (A -> string);       (* imports only: the module filter field *)
  k_item : A -> json }.                  (* one entry of mapFunctionItems, ... *)
Arguments k_tool {A}.
Arguments k_kind {A}.
Arguments k_hit {A}.
Arguments k_get {A}.
Arguments k_set {A}.
Arguments k_text {A}.
Arguments k_module {A}.
Arguments k_item {A}.

Definition strings_kind : ListKind StringItem :=
  {| k_tool := "get_strings"; k_kind := "strings"; k_hit := "Strings served from cache";
     k_get := c_strings;
     k_set := fun c d => {| c_strings := d; c_functions := c_functions c;
                            c_imports := c_imports c; c_exports := c_exports c |};
     k_text := str_Value; k_module := None; k_item := string_item |}.

Definition functions_kind : ListKind Function :=
  {| k_tool := "get_functions"; k_kind := "functions"; k_hit := "Functions served from cache";
     k_get := c_functions;
     k_set := fun c d => {| c_strings := c_strings c; c_functions := d;
                            c_imports := c_imports c; c_exports := c_exports c |};
     k_text := fn_Name; k_module := None; k_item := function_item |}.

Definition imports_kind : ListKind Import :=
  {| k_tool := "get_imports"; k_kind := "imports"; k_hit := "Imports served from cache";
     k_get := c_imports;
     k_set := fun c d => {| c_strings := c_strings c; c_functions := c_functions c;
                            c_imports := d; c_exports := c_exports c |};
     k_text := imp_Name; k_module := Some imp_Module; k_item := import_item |}.

Definition exports_kind : ListKind Export :=
  {| k_tool := "get_exports"; k_kind := "exports"; k_hit := "Exports served from cache";
     k_get := c_exports;
     k_set := fun c d => {| c_strings := c_strings c; c_functions := c_functions c;
                            c_imports := c_imports c; c_exports := d |};
     k_text := exp_Name; k_module := None; k_item := export_item |}.

(** [(c *sessionCache) loadX(sessionID, logger, loader)].  The loader is
    consulted on a miss only; its progress emission lands in the server's
    progress table.  Result: the data and the [hit] flag, or the loader's
    error; [None] when the loader does not return. *)
Definition load {A} (k : ListKind A) (s : Server) (c : sessionCache) (sessionID : string)
    (loader : option (result (slice A) * Emission)) (now : Z)
  : option (Server * sessionCache * result (slice A * bool)) :=
  if negb (is_nil (k_get k c)) then
    Some (printf s (CacheHIT (k_kind k) sessionID), c, Ok (k_get k c, true))
  else
    let s := printf s (CacheMISS (k_kind k) sessionID) in
    match loader with
    | None => None
    | Some (r, em) =>
        let s := recordProgress s sessionID (em_stage em) (em_message em)
                   (em_progress em) (em_total em) now in
        match r with
        | Err e => Some (s, c, Err e)
        | Ok data => Some (s, k_set k c data, Ok (data, false))
        end
    end.

(** *** The list tools (read.go) *)

Record ListArgs := {
  a_SessionID : string;
  a_Offset : Z;
  a_Limit : Z;
  a_Regex : string;
  a_CaseSens : bool;
  a_Module : string }.     (* get_imports only *)

(** [strings.Contains] *)
Fixpoint Contains (s sub : string) : bool :=
  String.prefix sub s ||
  match s with
  | EmptyString => false
  | String _ rest => Contains rest sub
  end.

Section tools.

(** The standard library's [regexp.Compile] (the matcher of the compiled
    expression, or the compile error) and [strings.ToLower]. *)
Variable regexp_Compile : string -> result (string -> bool).
Variable strings_ToLower : string -> string.

Definition compileRegex (expr : string) (caseSensitive : bool)
  : result (option (string -> bool)) :=
  if String.eqb expr "" then Ok None
  else
    match (if caseSensitive then regexp_Compile expr
           else regexp_Compile (String.append "(?i)" expr)) with
    | Err e => Err e
    | Ok re => Ok (Some re)
    end.

Definition matchModule (module filter : string) (caseSensitive : bool) : bool :=
  if String.eqb filter "" then true
  else if caseSensitive then Contains module filter
  else Contains (strings_ToLower module) (strings_ToLower filter).

(** The four list tools share one body, line for line; it is written
    once, in three parts.  First the filters: the module filter
    (get_imports only), then the regex, each into a fresh slice. *)
Definition filterItems {A} (k : ListKind A) (args : ListArgs) (data : slice A)
  : result (option (slice A)) :=
  let filtered :=
    match k_module k with
    | Some module_of =>
        if negb (String.eqb (a_Module args) "") then
          Some (List.filter
                  (fun x => matchModule (module_of x) (a_Module args) (a_CaseSens args))
                  (elems data))
        else data
    | None => data
    end in
  if negb (String.eqb (a_Regex args) "") then
    match compileRegex (a_Regex args) (a_CaseSens args) with
    | Err e => Err e
    | Ok None => Ok None             (* a nil *Regexp would be dereferenced *)
    | Ok (Some re) =>
        Ok (Some (Some (List.filter (fun x => re (k_text k x)) (elems filtered))))
    end
  else Ok (Some filtered).

(** Then the page: normalise, clamp, reslice, map, marshal. *)
Definition pageResponse {A} (k : ListKind A) (args : ListArgs) (filtered : slice A)
  : ToolReturn :=
  let total := len filtered in
  match normalizePagination (a_Offset args) (a_Limit args) with
  | Err e => ToolErr e
  | Ok (offset, limit) =>
      let offset := if offset >? total then total else offset in
      let end_ := offset + limit in
      let end_ := if end_ >? total then total else end_ in
      match reslice filtered offset end_ with
      | None => ToolPanics
      | Some sel =>
          let items := map (k_item k) (elems sel) in
          ToolJson (JObj (
            [(k_kind k, JArr items);
             ("total", JNum total);
             ("offset", JNum offset);
             ("count", JNum (Z.of_nat (length items)));
             ("limit", JNum limit)]
            ++ (match k_module k with
                | Some _ => [("module", JStr (a_Module args))]
                | None => []
                end)
            ++ [("regex", JStr (a_Regex args))]))
      end
  end.

(** And before both, the session lookup and the cache read. *)
Definition listTool {A} (k : ListKind A) (s : Server) (args : ListArgs)
    (loader : option (result (slice A) * Emission)) (now : Z) : Server * ToolReturn :=
  match Get (registry s) (a_SessionID args) with
  | None => (s, ToolText (String.append "Session not found: " (a_SessionID args)))
  | Some p =>
      let s := set_mem s (Touch (mem s) p now) in
      match deref (mem s) p with
      | None => (s, ToolPanics)
      | Some sess =>
          match GetClient (workers s) (ID sess) with
          | Err _ =>
              (s, ToolErr (logAndSanitizeError (String.append (k_tool k) " worker client")))
          | Ok _ =>
              let '(c, s) := getSessionCache s (ID sess) in
              match load k s c (ID sess) loader now with
              | None =>
                  (* the miss is logged before the loader is entered *)
                  (printf s (CacheMISS (k_kind k) (ID sess)), ToolHangs)
              | Some (s, c', Err _) =>
                  (set_cache s (<[ID sess := c']> (cache s)),
                   ToolErr (logAndSanitizeError (String.append (k_tool k) " cache load")))
              | Some (s, c', Ok (data, hit)) =>
                  let s := set_cache s (<[ID sess := c']> (cache s)) in
                  let s := if hit : bool
                           then emitProgress s (k_tool k) (ID sess) (k_tool k) (k_hit k) 1 1 now
                           else s in
                  match filterItems k args data with
                  | Err e => (s, ToolErr e)
                  | Ok None => (s, ToolPanics)
                  | Ok (Some filtered) => (s, pageResponse k args filtered)
                  end
              end
          end
      end
  end.

Definition getFunctions (s : Server) (args : ListArgs)
    (rpc : result GetFunctionsResponse) (now : Z) : Server * ToolReturn :=
  listTool functions_kind s args (Some (fetchAllFunctions rpc)) now.

Definition getImports (s : Server) (args : ListArgs)
    (rpc : result GetImportsResponse) (now : Z) : Server * ToolReturn :=
  listTool imports_kind s args (Some (fetchAllImports rpc)) now.

Definition getExports (s : Server) (args : ListArgs)
    (rpc : result GetExportsResponse) (now : Z) : Server * ToolReturn :=
  listTool exports_kind s args (Some (fetchAllExports rpc)) now.

(** [fuel] bounds the chunk loop of the loader. *)
Definition getStrings (s : Server) (args : ListArgs) (fuel : nat)
    (GetStrings : Z -> Z -> result GetStringsResponse) (now : Z) : Server * ToolReturn :=
  listTool strings_kind s args (fetchAllStrings fuel GetStrings) now.

End tools.

(** *** Session tools (session.go) and make_function (write.go) *)

Record OpenEnv := {
  o_fresh : Fresh;                        (* uuids and clock read by Registry.Create *)
  o_now : Z;                              (* clock read by the progress records *)
  o_start : StartEnv;                     (* what the OS answers to Manager.Start *)
  o_open : result OpenBinaryResponse;     (* SessionCtrl.OpenBinary *)
  o_info : option GetSessionInfoResponse; (* SessionCtrl.GetSessionInfo, when it succeeds *)
  o_kill_fails : option string }.         (* for the Stop of a failed open *)

(** The teardown repeated in every failure branch of [openBinary]; the
    worker is stopped in all branches but the first. *)
Definition abandon (s : Server) (sessionID : string) (stop : bool)
    (kill_fails : option string) : Server :=
  let s := if stop then
             let '(_, os', m') := Stop (os s) (workers s) sessionID kill_fails in
             set_workers (set_os s os') m'
           else s in
  let s := set_registry s (Delete (mem s) (registry s) sessionID) in
  let s := deleteSessionCache s sessionID in
  clearProgress s sessionID.

Definition analysis_tip (autoRunning : bool) : string :=
  if autoRunning
  then "Auto-analysis is still running. Call run_auto_analysis to block until completion."
  else "Auto-analysis is disabled. You can now import_il2cpp, set_name, set_function_type, or make other changes, then call run_auto_analysis to refresh the database.".

Definition openBinary (s : Server) (rctx : nat) (path : string) (e : OpenEnv)
  : Server * ToolReturn :=
  match FindByBinaryPath (registry s) path with
  | Some p =>
      match deref (mem s) p with
      | None => (s, ToolPanics)
      | Some existing =>
          let s := recordProgress s (ID existing) "open_binary" "Session reused" 1 1 (o_now e) in
          (s, ToolJson (JObj [("session_id", JStr (ID existing));
                              ("binary_path", JStr (BinaryPath existing));
                              ("has_decompiler", JBool true);
                              ("created_at", JNum (CreatedAt existing));
                              ("reused", JBool true)]))
      end
  | None =>
      match Create (mem s) (registry s) path (sessionTimeout s) (o_fresh e) with
      | (Err _, _, _) => (s, ToolErr (logAndSanitizeError "open_binary session creation"))
      | (Ok p, h, r) =>
          let s := set_registry (set_mem s h) r in
          let id := uuid_id (o_fresh e) in
          let s := emitProgress s "open_binary" id "open_binary" "Session created" 0 5 (o_now e) in
          let s := emitProgress s "open_binary" id "open_binary" "Starting Python worker" 1 5 (o_now e) in
          match Start (os s) (mem s) (workers s) rctx p path (o_start e) with
          | (Some _, os', h', m') =>
              let s := set_workers (set_mem (set_os s os') h') m' in
              (abandon s id false None, ToolErr (logAndSanitizeError "open_binary worker start"))
          | (None, os', h', m') =>
              let s := set_workers (set_mem (set_os s os') h') m' in
              let s := emitProgress s "open_binary" id "open_binary" "Connecting to worker" 2 5 (o_now e) in
              match GetClient (workers s) id with
              | Err _ =>
                  (abandon s id true (o_kill_fails e),
                   ToolErr (logAndSanitizeError "open_binary worker client"))
              | Ok _ =>
                  let s := emitProgress s "open_binary" id "open_binary" "Opening binary in IDA" 3 5 (o_now e) in
                  match o_open e with
                  | Err _ =>
                      (abandon s id true (o_kill_fails e),
                       ToolErr (logAndSanitizeError "open_binary RPC call"))
                  | Ok resp =>
                      if negb (ob_Success resp) then
                        (abandon s id true (o_kill_fails e),
                         ToolErr (logAndSanitizeError "open_binary IDA analysis"))
                      else
                        let autoState := match o_info e with Some i => si_AutoState i | None => "" end in
                        let autoRunning := match o_info e with Some i => si_AutoRunning i | None => false end in
                        match deref (mem s) p with
                        | None => (s, ToolPanics)
                        | Some sess =>
                            let s := persistSession s sess in
                            let s := emitProgress s "open_binary" id "ready" "Session ready" 5 5 (o_now e) in
                            (s, ToolJson (JObj [("session_id", JStr (ID sess));
                                                ("binary_path", JStr path);
                                                ("has_decompiler", JBool (ob_HasDecompiler resp));
                                                ("created_at", JNum (CreatedAt sess));
                                                ("auto_state", JStr autoState);
                                                ("auto_running", JBool autoRunning);
                                                ("analysis_tip", JStr (analysis_tip autoRunning))]))
                        end
                  end
              end
          end
      end
  end.

Definition closeBinary (s : Server) (sessionID : string) (kill_fails : option string)
  : Server * ToolReturn :=
  match Get (registry s) sessionID with
  | None => (s, ToolErr (String.append "session not found: " sessionID))
  | Some p =>
      match deref (mem s) p with
      | None => (s, ToolPanics)
      | Some sess =>
          match Stop (os s) (workers s) (ID sess) kill_fails with
          | (Some _, os', m') =>
              (set_workers (set_os s os') m',
               ToolErr (logAndSanitizeError "close_binary worker stop"))
          | (None, os', m') =>
              let s := set_workers (set_os s os') m' in
              let s := set_registry s (Delete (mem s) (registry s) (ID sess)) in
              let s := deleteSessionState s (ID sess) in
              let s := deleteSessionCache s (ID sess) in
              let s := clearProgress s (ID sess) in
              (s, ToolJson (JObj [("success", JBool true)]))
          end
      end
  end.

(** What [listSessions] takes from the clock for one session: the values
    of [time.Since(sess.CreatedAt).Seconds()] and of
    [time.Since(sess.LastActivity).Seconds()].  Each is a [float64] that
    comes from a clock reading of its own; it enters the result as the
    JSON number [encoding/json] writes for it. *)
Record Elapsed := { age_seconds : json; idle_seconds : json }.

(** [since i] is what the clock yields in the [i]-th round of the loop. *)
Definition listSessions (s : Server) (since : nat -> Elapsed) : Server * ToolReturn :=
  let result :=
    imap (fun i sess => JObj [("session_id", JStr (ID sess));
                              ("binary_path", JStr (BinaryPath sess));
                              ("created_at", JNum (CreatedAt sess));
                              ("last_activity", JNum (LastActivity sess));
                              ("age_seconds", age_seconds (since i));
                              ("idle_seconds", idle_seconds (since i))])
         (List (mem s) (registry s)) in
  (s, ToolJson (JObj [("sessions", JArr result); ("count", JNum (Z.of_nat (length result)))])).

(** One watchdog tick (the body of the ticker loop). *)
Definition Watchdog_tick (s : Server) (now : Z) (kill_fails : option string) : Server :=
  fold_left
    (fun s sess =>
       let '(_, os', m') := Stop (os s) (workers s) (ID sess) kill_fails in
       let s := set_workers (set_os s os') m' in
       let s := set_registry s (Delete (mem s) (registry s) (ID sess)) in
       let s := deleteSessionState s (ID sess) in
       let s := deleteSessionCache s (ID sess) in
       clearProgress s (ID sess))
    (Expired (mem s) (registry s) now) s.

(** The head of every session-bound tool: [registry.Get], [Touch],
    [workers.GetClient]. *)
Definition saveDatabase (s : Server) (sessionID : string)
    (rpc : result SaveDatabaseResponse) (now : Z) : Server * ToolReturn :=
  match Get (registry s) sessionID with
  | None => (s, ToolErr (String.append "session not found: " sessionID))
  | Some p =>
      let s := set_mem s (Touch (mem s) p now) in
      match deref (mem s) p with
      | None => (s, ToolPanics)
      | Some sess =>
          match GetClient (workers s) (ID sess) with
          | Err _ => (s, ToolErr (logAndSanitizeError "save_database worker client"))
          | Ok _ =>
              match rpc with
              | Err _ => (s, ToolErr (logAndSanitizeError "save_database RPC call"))
              | Ok resp =>
                  (s, ToolJson (JObj [("success", JBool (sd_Success resp));
                                      ("timestamp", JNum (sd_Timestamp resp));
                                      ("dirty", JBool (sd_Dirty resp))]))
              end
          end
      end
  end.

Definition makeFunction (s : Server) (sessionID : string) (address : Z)
    (rpc : result MakeFunctionResponse) (now : Z) : Server * ToolReturn :=
  match Get (registry s) sessionID with
  | None => (s, ToolErr (String.append "session not found: " sessionID))
  | Some p =>
      let s := set_mem s (Touch (mem s) p now) in
      match deref (mem s) p with
      | None => (s, ToolPanics)
      | Some sess =>
          match GetClient (workers s) (ID sess) with
          | Err _ => (s, ToolErr (logAndSanitizeError "make_function worker client"))
          | Ok _ =>
              match rpc with
              | Err _ => (s, ToolErr (logAndSanitizeError "make_function RPC call"))
              | Ok resp =>
                  if negb (String.eqb (mf_Error resp) "") then
                    (s, ToolErr (logAndSanitizeError "make_function IDA operation"))
                  else
                    let s := if mf_Success resp then deleteSessionCache s (ID sess) else s in
                    (s, ToolJson (JObj [("success", JBool (mf_Success resp))]))
              end
          end
      end
  end.

(** [run_auto_analysis].  The select loop is driven by what arrives: the
    ticker firings that precede the end, each with the answer [fetchInfo]
    gets, and then either the request context ending or the result of
    PlanAndWait. *)
Record InfoTick := {
  t_time : Z;                                (* time.Now() *)
  t_elapsed : json;                          (* time.Since(start).Seconds(), a float64 *)
  t_info : option GetSessionInfoResponse }.

Inductive PlanOutcome :=
| CtxDone
| PlanFailed (e : string)
| PlanReturned (resp : PlanAndWaitResponse) (last : InfoTick).

Record AutoEnv := { ra_now : Z; ra_ticks : list InfoTick; ra_end : PlanOutcome }.

Record AutoLoop := {
  al_server : Server;
  al_updates : list json;
  al_lastState : string;
  al_lastRunning : bool }.

Definition show_bool (b : bool) : string := if b then "true" else "false".

Definition fetchInfo (sessionID : string) (start : Z) (st : AutoLoop) (t : InfoTick) : AutoLoop :=
  match t_info t with
  | None => st
  | Some i =>
      {| al_server :=
           emitProgress (al_server st) "auto_analysis" sessionID "auto_analysis"
             (String.append "auto_state="
                (String.append (si_AutoState i)
                   (String.append " running=" (show_bool (si_AutoRunning i)))))
             0 0 (t_time t);
         al_updates := al_updates st ++
           [JObj [("timestamp", JNum (t_time t));
                  ("auto_state", JStr (si_AutoState i));
                  ("auto_running", JBool (si_AutoRunning i));
                  ("session_id", JStr sessionID);
                  ("elapsed_seconds", t_elapsed t)]];
         al_lastState := si_AutoState i;
         al_lastRunning := si_AutoRunning i |}
  end.

Definition runAutoAnalysis (s : Server) (sessionID : string) (e : AutoEnv)
  : Server * ToolReturn :=
  match Get (registry s) sessionID with
  | None => (s, ToolErr (String.append "session not found: " sessionID))
  | Some p =>
      let s := set_mem s (Touch (mem s) p (ra_now e)) in
      match deref (mem s) p with
      | None => (s, ToolPanics)
      | Some sess =>
          match GetClient (workers s) (ID sess) with
          | Err _ => (s, ToolErr (logAndSanitizeError "run_auto_analysis worker client"))
          | Ok _ =>
              let s := emitProgress s "auto_analysis" (ID sess) "auto_analysis"
                         "Running plan_and_wait" 0 0 (ra_now e) in
              let st := fold_left (fetchInfo (ID sess) (ra_now e)) (ra_ticks e)
                          {| al_server := s; al_updates := [];
                             al_lastState := ""; al_lastRunning := false |} in
              match ra_end e with
              | CtxDone => (al_server st, ToolErr (logAndSanitizeError "run_auto_analysis"))
              | PlanFailed err =>
                  (emitProgress (al_server st) "auto_analysis" (ID sess) "auto_analysis"
                     (String.append "plan_and_wait failed: " err) 0 0 (ra_now e),
                   ToolErr (logAndSanitizeError "run_auto_analysis plan_and_wait"))
              | PlanReturned planResp last =>
                  let st := fetchInfo (ID sess) (ra_now e) st last in
                  let s := emitProgress (al_server st) "auto_analysis" (ID sess) "auto_analysis"
                             "Auto-analysis complete" 1 1 (t_time last) in
                  let s := deleteSessionCache s (ID sess) in
                  (s, ToolJson (JObj (
                     [("session_id", JStr (ID sess));
                      ("duration_seconds", JNum (pw_DurationSeconds planResp));
                      ("updates", JArr (al_updates st));
                      ("update_count", JNum (Z.of_nat (length (al_updates st))));
                      ("success", JBool (pw_Success planResp));
                      ("auto_state", JStr (al_lastState st));
                      ("auto_running", JBool (al_lastRunning st))]
                     ++ (if String.eqb (pw_Error planResp) "" then []
                         else [("error", JStr (pw_Error planResp))]))))
              end
          end
      end
  end.

(** *** Tool calls and what happens between them *)

Section dispatch.

Variable regexp_Compile : string -> result (string -> bool).
Variable strings_ToLower : string -> string.

Inductive Call :=
| open_binary (rctx : nat) (path : string) (e : OpenEnv)
| close_binary (sessionID : string) (kill_fails : option string)
| list_sessions (since : nat -> Elapsed)
| save_database (sessionID : string) (rpc : result SaveDatabaseResponse) (now : Z)
| run_auto_analysis (sessionID : string) (e : AutoEnv)
| make_function (sessionID : string) (address : Z) (rpc : result MakeFunctionResponse) (now : Z)
| get_functions (args : ListArgs) (rpc : result GetFunctionsResponse) (now : Z)
| get_imports (args : ListArgs) (rpc : result GetImportsResponse) (now : Z)
| get_exports (args : ListArgs) (rpc : result GetExportsResponse) (now : Z)
| get_strings (args : ListArgs) (fuel : nat)
    (GetStrings : Z -> Z -> result GetStringsResponse) (now : Z).

Definition callTool (s : Server) (c : Call) : Server * ToolReturn :=
  match c with
  | open_binary rctx path e => openBinary s rctx path e
  | close_binary id k => closeBinary s id k
  | list_sessions since => listSessions s since
  | save_database id rpc now => saveDatabase s id rpc now
  | run_auto_analysis id e => runAutoAnalysis s id e
  | make_function id a rpc now => makeFunction s id a rpc now
  | get_functions args rpc now => getFunctions regexp_Compile strings_ToLower s args rpc now
  | get_imports args rpc now => getImports regexp_Compile strings_ToLower s args rpc now
  | get_exports args rpc now => getExports regexp_Compile strings_ToLower s args rpc now
  | get_strings args fuel w now => getStrings regexp_Compile strings_ToLower s args fuel w now
  end.

Definition is_close (c : Call) : bool :=
  match c with close_binary _ _ => true | _ => false end.

(** Calls served one after the other. *)
Fixpoint serve (s : Server) (cs : list Call) : Server * list ToolReturn :=
  match cs with
  | [] => (s, [])
  | c :: rest =>
      let '(s1, r) := callTool s c in
      let '(s2, rs) := serve s1 rest in
      (s2, r :: rs)
  end.

End dispatch.

(** A worker process exits on its own; its monitor goroutine then drops
    the handle. *)
Definition worker_exits (s : Server) (sessionID : string) : Server :=
  match sessions (workers s) !! sessionID with
  | Some w =>
      set_workers (set_os s (process_exit (os s) (cmd w)))
                  (monitorWorker (workers s) sessionID)
  | None => s
  end.

End server.

(** ** package server: the WebSocket envelope layer (websocket.go) *)

Module websocket.

(** [json.RawMessage]: nil or empty (left out by [omitempty]), or the
    JSON subtree the bytes spell. *)
Definition RawMessage : Type := option json.

Record WebSocketMessageEnvelopeForModelContextProtocol := {
  MessageTypeIdentifierString : string;                       (* json:"type" *)
  MessageIdentifierForRequestResponseCorrelation : string;    (* json:"id,omitempty" *)
  ModelContextProtocolRequestPayload : RawMessage;            (* json:"request,omitempty" *)
  ModelContextProtocolResponsePayload : RawMessage;           (* json:"response,omitempty" *)
  ModelContextProtocolErrorPayload : RawMessage;              (* json:"error,omitempty" *)
  ModelContextProtocolNotificationPayload : RawMessage }.     (* json:"notification,omitempty" *)

Definition zero_envelope : WebSocketMessageEnvelopeForModelContextProtocol :=
  {| MessageTypeIdentifierString := "";
     MessageIdentifierForRequestResponseCorrelation := "";
     ModelContextProtocolRequestPayload := None;
     ModelContextProtocolResponsePayload := None;
     ModelContextProtocolErrorPayload := None;
     ModelContextProtocolNotificationPayload := None |}.

Definition omitempty_raw (key : string) (m : RawMessage) : list (string * json) :=
  match m with None => [] | Some v => [(key, v)] end.

(** [json.Marshal(envelope)], as the struct tags direct it. *)
Definition Marshal (e : WebSocketMessageEnvelopeForModelContextProtocol) : json :=
  JObj ([("type", JStr (MessageTypeIdentifierString e))]
        ++ (if String.eqb (MessageIdentifierForRequestResponseCorrelation e) "" then []
            else [("id", JStr (MessageIdentifierForRequestResponseCorrelation e))])
        ++ omitempty_raw "request" (ModelContextProtocolRequestPayload e)
        ++ omitempty_raw "response" (ModelContextProtocolResponsePayload e)
        ++ omitempty_raw "error" (ModelContextProtocolErrorPayload e)
        ++ omitempty_raw "notification" (ModelContextProtocolNotificationPayload e)).

Definition lower_ascii (c : ascii) : ascii :=
  let n := nat_of_ascii c in
  if (Nat.leb 65 n && Nat.leb n 90)%bool then ascii_of_nat (n + 32) else c.

Fixpoint lower (s : string) : string :=
  match s with
  | EmptyString => EmptyString
  | String c rest => String (lower_ascii c) (lower rest)
  end.

(** A key selects the field with that tag name, letter case ignored. *)
Definition names (key tag : string) : bool := String.eqb (lower key) tag.

Definition type_error (field : string) : string :=
  String.append "json: cannot unmarshal into Go struct field " field.

(** Storing one object member into the struct; a member of the wrong
    JSON type is reported and leaves the field alone, [null] leaves a
    string field alone, and a [RawMessage] field takes any value. *)
Definition store_member (acc : WebSocketMessageEnvelopeForModelContextProtocol * option string)
    (member : string * json) : WebSocketMessageEnvelopeForModelContextProtocol * option string :=
  let '(e, err) := acc in
  let '(key, v) := member in
  let first (msg : string) := match err with Some _ => err | None => Some msg end in
  if names key "type" then
    match v with
    | JStr t =>
        ({| MessageTypeIdentifierString := t;
            MessageIdentifierForRequestResponseCorrelation := MessageIdentifierForRequestResponseCorrelation e;
            ModelContextProtocolRequestPayload := ModelContextProtocolRequestPayload e;
            ModelContextProtocolResponsePayload := ModelContextProtocolResponsePayload e;
            ModelContextProtocolErrorPayload := ModelContextProtocolErrorPayload e;
            ModelContextProtocolNotificationPayload := ModelContextProtocolNotificationPayload e |}, err)
    | JNull => (e, err)
    | _ => (e, first (type_error "type"))
    end
  else if names key "id" then
    match v with
    | JStr i =>
        ({| MessageTypeIdentifierString := MessageTypeIdentifierString e;
            MessageIdentifierForRequestResponseCorrelation := i;
            ModelContextProtocolRequestPayload := ModelContextProtocolRequestPayload e;
            ModelContextProtocolResponsePayload := ModelContextProtocolResponsePayload e;
            ModelContextProtocolErrorPayload := ModelContextProtocolErrorPayload e;
            ModelContextProtocolNotificationPayload := ModelContextProtocolNotificationPayload e |}, err)
    | JNull => (e, err)
    | _ => (e, first (type_error "id"))
    end
  else if names key "request" then
    ({| MessageTypeIdentifierString := MessageTypeIdentifierString e;
        MessageIdentifierForRequestResponseCorrelation := MessageIdentifierForRequestResponseCorrelation e;
        ModelContextProtocolRequestPayload := Some v;
        ModelContextProtocolResponsePayload := ModelContextProtocolResponsePayload e;
        ModelContextProtocolErrorPayload := ModelContextProtocolErrorPayload e;
        ModelContextProtocolNotificationPayload := ModelContextProtocolNotificationPayload e |}, err)
  else if names key "response" then
    ({| MessageTypeIdentifierString := MessageTypeIdentifierString e;
        MessageIdentifierForRequestResponseCorrelation := MessageIdentifierForRequestResponseCorrelation e;
        ModelContextProtocolRequestPayload := ModelContextProtocolRequestPayload e;
        ModelContextProtocolResponsePayload := Some v;
        ModelContextProtocolErrorPayload := ModelContextProtocolErrorPayload e;
        ModelContextProtocolNotificationPayload := ModelContextProtocolNotificationPayload e |}, err)
  else if names key "error" then
    ({| MessageTypeIdentifierString := MessageTypeIdentifierString e;
        MessageIdentifierForRequestResponseCorrelation := MessageIdentifierForRequestResponseCorrelation e;
        ModelContextProtocolRequestPayload := ModelContextProtocolRequestPayload e;
        ModelContextProtocolResponsePayload := ModelContextProtocolResponsePayload e;
        ModelContextProtocolErrorPayload := Some v;
        ModelContextProtocolNotificationPayload := ModelContextProtocolNotificationPayload e |}, err)
  else if names key "notification" then
    ({| MessageTypeIdentifierString := MessageTypeIdentifierString e;
        MessageIdentifierForRequestResponseCorrelation := MessageIdentifierForRequestResponseCorrelation e;
        ModelContextProtocolRequestPayload := ModelContextProtocolRequestPayload e;
        ModelContextProtocolResponsePayload := ModelContextProtocolResponsePayload e;
        ModelContextProtocolErrorPayload := ModelContextProtocolErrorPayload e;
        ModelContextProtocolNotificationPayload := Some v |}, err)
  else (e, err).

(** Decoding a JSON value into a zero envelope ([json.Unmarshal] once the
    text is known to be valid JSON). *)
Definition decode (v : json) : result WebSocketMessageEnvelopeForModelContextProtocol :=
  match v with
  | JObj members =>
      match fold_left store_member members (zero_envelope, None) with
      | (e, None) => Ok e
      | (_, Some msg) => Err msg
      end
  | JNull => Ok zero_envelope
  | _ => Err (type_error "")
  end.

(** The MCP server instance behind the manager: its answer to a request
    payload, and (instrumentation) the payloads handed to it so far. *)
Record McpServer := {
  HandleMessage : RawMessage -> result RawMessage;
  handed : list RawMessage }.

Definition hand_over (m : McpServer) (req : RawMessage) : McpServer * result RawMessage :=
  ({| HandleMessage := HandleMessage m; handed := handed m ++ [req] |}, HandleMessage m req).

Definition queueCapacity : nat := 256.

Record WebSocketClientConnection := {
  uniqueConnectionIdentifierForThisClient : string;
  (** the buffered channel: marshalled envelopes waiting for the writer *)
  messageChannelForOutgoingMessagesToClient : list json;
  (** [contextForCancellationOfAllConnectionOperations] is done *)
  cancelled : bool;
  totalNumberOfMessagesReceivedFromClientDuringLifetime : Z;
  totalNumberOfErrorsEncounteredDuringConnectionLifetime : Z }.

Definition count_error (c : WebSocketClientConnection) : WebSocketClientConnection :=
  {| uniqueConnectionIdentifierForThisClient := uniqueConnectionIdentifierForThisClient c;
     messageChannelForOutgoingMessagesToClient := messageChannelForOutgoingMessagesToClient c;
     cancelled := cancelled c;
     totalNumberOfMessagesReceivedFromClientDuringLifetime :=
       totalNumberOfMessagesReceivedFromClientDuringLifetime c;
     totalNumberOfErrorsEncounteredDuringConnectionLifetime :=
       totalNumberOfErrorsEncounteredDuringConnectionLifetime c + 1 |}.

(** A cancelled connection takes nothing; a queue that stays full for the
    five seconds of the send timeout drops the message and counts an
    error. *)
Definition enqueueMessageForTransmissionToClient (c : WebSocketClientConnection)
    (message : json) : WebSocketClientConnection :=
  if cancelled c then c
  else if Nat.ltb (length (messageChannelForOutgoingMessagesToClient c)) queueCapacity then
    {| uniqueConnectionIdentifierForThisClient := uniqueConnectionIdentifierForThisClient c;
       messageChannelForOutgoingMessagesToClient :=
         messageChannelForOutgoingMessagesToClient c ++ [message];
       cancelled := cancelled c;
       totalNumberOfMessagesReceivedFromClientDuringLifetime :=
         totalNumberOfMessagesReceivedFromClientDuringLifetime c;
       totalNumberOfErrorsEncounteredDuringConnectionLifetime :=
         totalNumberOfErrorsEncounteredDuringConnectionLifetime c |}
  else count_error c.

Definition sendSuccessResponseToClient (c : WebSocketClientConnection)
    (requestIdentifierForCorrelation : string) (response : RawMessage)
  : WebSocketClientConnection :=
  enqueueMessageForTransmissionToClient c
    (Marshal {| MessageTypeIdentifierString := "response";
                MessageIdentifierForRequestResponseCorrelation := requestIdentifierForCorrelation;
                ModelContextProtocolRequestPayload := None;
                ModelContextProtocolResponsePayload := response;
                ModelContextProtocolErrorPayload := None;
                ModelContextProtocolNotificationPayload := None |}).

Definition sendErrorResponseToClient (c : WebSocketClientConnection)
    (requestIdentifierForCorrelation errorMessageDescription : string)
  : WebSocketClientConnection :=
  let errorPayload := JObj [("message", JStr errorMessageDescription)] in
  enqueueMessageForTransmissionToClient c
    (Marshal {| MessageTypeIdentifierString := "error";
                MessageIdentifierForRequestResponseCorrelation := requestIdentifierForCorrelation;
                ModelContextProtocolRequestPayload := None;
                ModelContextProtocolResponsePayload := None;
                ModelContextProtocolErrorPayload := Some errorPayload;
                ModelContextProtocolNotificationPayload := None |}).

Section frames.

(** The text decoder of [encoding/json]: the syntax error of a frame
    that is not valid JSON, or the value it spells. *)
Variable json_text : string -> result json.

(** [json.Unmarshal(data, &envelope)] *)
Definition Unmarshal (data : string)
  : result WebSocketMessageEnvelopeForModelContextProtocol :=
  match json_text data with
  | Err e => Err e
  | Ok v => decode v
  end.

Definition processReceivedMessageAndSendResponse (c : WebSocketClientConnection)
    (m : McpServer) (messageDataBytesFromClient : string)
  : WebSocketClientConnection * McpServer :=
  match Unmarshal messageDataBytesFromClient with
  | Err e =>
      (count_error
         (sendErrorResponseToClient c "" (String.append "Failed to parse message JSON: " e)),
       m)
  | Ok envelope =>
      if negb (String.eqb (MessageTypeIdentifierString envelope) "request") then (c, m)
      else
        let '(m', answer) := hand_over m (ModelContextProtocolRequestPayload envelope) in
        match answer with
        | Err e =>
            (count_error
               (sendErrorResponseToClient c
                  (MessageIdentifierForRequestResponseCorrelation envelope)
                  (String.append "MCP request processing error: " e)),
             m')
        | Ok response =>
            (sendSuccessResponseToClient c
               (MessageIdentifierForRequestResponseCorrelation envelope) response,
             m')
        end
  end.

End frames.

End websocket.

(** * Properties *)

Import session worker server.

(** ** Vocabulary of the statements *)

(** The enumeration a list tool works on: the cached slice when the entry is
    populated, else what the loader delivers. *)
Definition enumeration {A} (k : ListKind A) (s : Server) (sessionID : string)
    (loader : option (result (slice A) * Emission)) : option (slice A) :=
  let c := default empty_cache (cache s !! sessionID) in
  if negb (is_nil (k_get k c)) then Some (k_get k c)
  else match loader with
       | Some (Ok d, _) => Some d
       | _ => None
       end.

(** The limit a request asks for, after the default is filled in. *)
Definition effective_limit (limit : Z) : Z :=
  if limit <=? 0 then defaultPageLimit else limit.

(** A worker whose GetStrings pages correctly over [data]: asked for
    [limit] items from [offset], it answers without error with exactly that
    window of the enumeration. *)
Definition pages_correctly (data : list StringItem)
    (GetStrings : Z -> Z -> result GetStringsResponse) : Prop :=
  forall offset limit, 0 <= offset -> 0 <= limit ->
    exists resp, GetStrings offset limit = Ok resp /\ gs_Error resp = "" /\
                 gs_Strings resp = take (Z.to_nat limit) (drop (Z.to_nat offset) data).

(** The envelope the server queues for a frame it could not decode. *)
Definition parse_error_envelope (detail : string) : json :=
  JObj [("type", JStr "error");
        ("error", JObj [("message", JStr (String.append "Failed to parse message JSON: " detail))])].

(** The message text the specification quotes for that envelope. *)
Definition quoted_parse_error_envelope : json :=
  JObj [("type", JStr "error");
        ("error", JObj [("message", JStr "Failed to parse message JSON")])].

(** The four artifact kinds of the session cache. *)
Inductive list_kind : forall A, ListKind A -> Prop :=
| kind_strings : list_kind StringItem strings_kind
| kind_functions : list_kind Function functions_kind
| kind_imports : list_kind Import imports_kind
| kind_exports : list_kind Export exports_kind.

(** Two server states with the same sessions, workers and processes: they
    may differ in cache, progress, store and log. *)
Definition same_sessions (s s' : Server) : Prop :=
  mem s' = mem s /\ registry s' = registry s /\ workers s' = workers s /\ os s' = os s.

(** Contexts as the [context] package keeps them: [Background] is never
    cancelled and has no parent, and only contexts that exist are cancelled. *)
Definition contexts_wf (c : Contexts) : Prop :=
  (0 < next_ctx c)%nat
  /\ (forall id, id ∈ cancelled c -> (0 < id < next_ctx c)%nat)
  /\ (forall id par, parent c !! id = Some par -> (0 < id)%nat).

(** The registry's two indices describe the same sessions: every id
    points to a session that carries that id and is indexed under its path,
    every indexed path points to a session that carries that path and is
    registered under its id. *)
Definition reg_inv (h : Heap) (r : Registry) : Prop :=
  (forall id p, session.sessions r !! id = Some p ->
     exists sess, deref h p = Some sess /\ ID sess = id /\
                  binaryIndex r !! BinaryPath sess = Some p)
  /\ (forall path p, binaryIndex r !! path = Some p ->
       exists sess, deref h p = Some sess /\ BinaryPath sess = path /\
                    session.sessions r !! ID sess = Some p)
  /\ (forall p, is_Some (deref h p) -> (p < next_addr h)%nat).

(** At most one live session per (normalized) binary path. *)
Definition one_session_per_path (h : Heap) (r : Registry) : Prop :=
  forall id1 id2 p1 p2 s1 s2,
    session.sessions r !! id1 = Some p1 -> session.sessions r !! id2 = Some p2 ->
    deref h p1 = Some s1 -> deref h p2 = Some s2 ->
    BinaryPath s1 = BinaryPath s2 -> id1 = id2.

(** Two heaps holding the same sessions up to their mutable fields. *)
Definition identity_of (s : Session) : string * string * Z := (ID s, BinaryPath s, CreatedAt s).

Definition same_identity (h h' : Heap) : Prop :=
  next_addr h' = next_addr h /\
  forall p, identity_of <$> deref h' p = identity_of <$> deref h p.

(** The uuid drawn by an [open_binary] call is not the id of a live session. *)
Definition uuid_fresh (s : Server) (c : Call) : Prop :=
  match c with
  | open_binary _ _ e => session.sessions (registry s) !! uuid_id (o_fresh e) = None
  | _ => True
  end.

(** A step that neither registers nor removes a session nor touches the
    worker manager; session objects keep their identity. *)
Definition quiet (s s' : Server) : Prop :=
  registry s' = registry s /\ workers s' = workers s /\ same_identity (mem s) (mem s').

(** The session object [Create] allocates, and the registry with it. *)
Definition created_session (path : string) (timeout : Z) (f : Fresh) : Session :=
  {| ID := uuid_id f; BinaryPath := filepath.Clean path; CreatedAt := now_created f;
     LastActivity := now_activity f; Timeout := timeout;
     SocketPath := socket_path (uuid_sock f); WorkerPID := 0 |}.

Definition registered (r : Registry) (p : nat) (sess : Session) : Registry :=
  {| session.sessions := <[ID sess := p]> (session.sessions r);
     binaryIndex := <[BinaryPath sess := p]> (binaryIndex r);
     maxSessions := maxSessions r |}.

(** Path [P] is served by the session with id [id], created at [created],
    and [n] worker starts have been counted for [P]. *)
Definition tracks (s : Server) (P id : string) (created : Z) (n : nat) : Prop :=
  (exists p sess, FindByBinaryPath (registry s) P = Some p /\ deref (mem s) p = Some sess /\
                  ID sess = id /\ CreatedAt sess = created)
  /\ StartCount (workers s) P = n.

(** Every [open_binary] of a run draws a uuid that is fresh when drawn. *)
Fixpoint uuids_fresh (R : string -> result (string -> bool)) (L : string -> string)
    (s : Server) (cs : list Call) : Prop :=
  match cs with
  | [] => True
  | c :: rest => uuid_fresh s c /\ uuids_fresh R L (fst (callTool R L s c)) rest
  end.

(** Nothing is left of session [id]: no registry entry, no worker handle,
    no cache entry, no progress snapshot. *)
Definition forgotten (s : Server) (id : string) : Prop :=
  Get (registry s) id = None
  /\ worker.sessions (workers s) !! id = None
  /\ cache s !! id = None
  /\ (id <> "" -> progress s !! id = None).

(** What the watchdog does with one expired session (the body of its
    inner loop). *)
Definition reap (kill_fails : option string) (s : Server) (sess : Session) : Server :=
  let '(_, os', m') := Stop (os s) (workers s) (ID sess) kill_fails in
  let s := set_workers (set_os s os') m' in
  let s := set_registry s (Delete (mem s) (registry s) (ID sess)) in
  let s := deleteSessionState s (ID sess) in
  let s := deleteSessionCache s (ID sess) in
  clearProgress s (ID sess).

(** The expression a list tool hands to the regex compiler: the request's
    own, behind [(?i)] unless the request is case-sensitive. *)
Definition regex_source (args : ListArgs) : string :=
  if a_CaseSens args then a_Regex args else String.append "(?i)" (a_Regex args).

(** The items a request selects from the enumeration [data], whatever page
    it asks for.  For a tool with a module filter (get_imports) and a
    non-empty [module]: the items whose module contains it, letter case
    ignored unless the request is case-sensitive.  Then, for a non-empty
    [regex]: the items whose text the compiled expression [re] matches.
    The order of [data] is kept. *)
Definition selected {A} (k : ListKind A) (ToLower : string -> string) (args : ListArgs)
    (re : string -> bool) (data : list A) : list A :=
  let by_module :=
    match k_module k with
    | Some module_of =>
        if String.eqb (a_Module args) "" then data
        else List.filter
               (fun x => if a_CaseSens args
                         then Contains (module_of x) (a_Module args)
                         else Contains (ToLower (module_of x)) (ToLower (a_Module args)))
               data
    | None => data
    end in
  if String.eqb (a_Regex args) "" then by_module
  else List.filter (fun x => re (k_text k x)) by_module.

(** Two requests that differ at most in the page they ask for. *)
Definition same_selection (args args' : ListArgs) : Prop :=
  a_SessionID args' = a_SessionID args /\ a_Regex args' = a_Regex args /\
  a_CaseSens args' = a_CaseSens args /\ a_Module args' = a_Module args.

(** The session a tool call is bound to and the clock reading of its
    [Touch]; [None] for the calls that are not bound to a session or do
    not touch it. *)
Definition call_session (c : Call) : option (string * Z) :=
  match c with
  | save_database id _ now => Some (id, now)
  | run_auto_analysis id e => Some (id, ra_now e)
  | make_function id _ _ now => Some (id, now)
  | get_functions args _ now => Some (a_SessionID args, now)
  | get_imports args _ now => Some (a_SessionID args, now)
  | get_exports args _ now => Some (a_SessionID args, now)
  | get_strings args _ _ now => Some (a_SessionID args, now)
  | _ => None
  end.

(** ** Sample inputs

    A server with room for four sessions, one binary opened on it, and the
    worker answers used to exercise the statements. *)

Definition no_regexp : string -> result (string -> bool) :=
  fun _ => Err "error parsing regexp".

Definition sample_open (id : string) (pid : Z) (decompiler : bool) : OpenEnv :=
  {| o_fresh := {| uuid_id := id; uuid_sock := id; now_created := 100; now_activity := 100 |};
     o_now := 100;
     o_start := {| remove_ok := true; spawn := Some pid; socket_ready := true |};
     o_open := Ok {| ob_Success := true; ob_HasDecompiler := decompiler; ob_Error := "" |};
     o_info := None;
     o_kill_fails := None |}.

Definition fresh_server : Server := New 4 "python/worker/server.py" 60 (Some ∅).

Definition opened_server : Server :=
  fst (openBinary fresh_server 1 "/tmp/x" (sample_open "1f0c9a2e" 4242 false)).

Definition two_functions : GetFunctionsResponse :=
  {| gf_Functions := [ {| fn_Address := 4096; fn_Name := "start" |};
                       {| fn_Address := 8192; fn_Name := "helper" |} ];
     gf_Error := "" |}.

Definition first_page : ListArgs :=
  {| a_SessionID := "1f0c9a2e"; a_Offset := 0; a_Limit := 1; a_Regex := "";
     a_CaseSens := false; a_Module := "" |}.

Definition paging_worker (data : list StringItem) : Z -> Z -> result GetStringsResponse :=
  fun offset limit =>
    Ok {| gs_Strings := take (Z.to_nat limit) (drop (Z.to_nat offset) data);
          gs_Total := Z.of_nat (length data);
          gs_Error := "" |}.

Definition three_strings : list StringItem :=
  [ {| str_Address := 256; str_Value := "alpha_http" |};
    {| str_Address := 512; str_Value := "beta" |};
    {| str_Address := 768; str_Value := "gamma" |} ].

Definition open_connection : websocket.WebSocketClientConnection :=
  {| websocket.uniqueConnectionIdentifierForThisClient := "ws-connection-1";
     websocket.messageChannelForOutgoingMessagesToClient := [];
     websocket.cancelled := false;
     websocket.totalNumberOfMessagesReceivedFromClientDuringLifetime := 1;
     websocket.totalNumberOfErrorsEncounteredDuringConnectionLifetime := 0 |}.

Definition echo_mcp : websocket.McpServer :=
  {| websocket.HandleMessage := fun req => Ok req; websocket.handed := [] |}.

(** The decoder's verdict on the frame used below, an object that is opened
    and never closed; frames not used below are not judged. *)
Definition truncated_object_decoder (frame : string) : result json :=
  if String.eqb frame "{" then Err "unexpected end of JSON input" else Ok JNull.

Definition request_envelope : websocket.WebSocketMessageEnvelopeForModelContextProtocol :=
  {| websocket.MessageTypeIdentifierString := "request";
     websocket.MessageIdentifierForRequestResponseCorrelation := "t1";
     websocket.ModelContextProtocolRequestPayload :=
       Some (JObj [("method", JStr "tools/list"); ("params", JObj [])]);
     websocket.ModelContextProtocolResponsePayload := None;
     websocket.ModelContextProtocolErrorPayload := None;
     websocket.ModelContextProtocolNotificationPayload := None |}.

Definition plan_done : AutoEnv :=
  {| ra_now := 200;
     ra_ticks := [ {| t_time := 201; t_elapsed := JNum 1; t_info := Some {| si_AutoState := "AU_USED"; si_AutoRunning := true |} |} ];
     ra_end := PlanReturned {| pw_Success := true; pw_DurationSeconds := 2; pw_Error := "" |}
                 {| t_time := 202; t_elapsed := JNum 2; t_info := Some {| si_AutoState := "AU_NONE"; si_AutoRunning := false |} |} |}.

Definition made_function : MakeFunctionResponse := {| mf_Success := true; mf_Error := "" |}.


(** [opened_server] after one [get_functions], which fills the entry. *)
Definition cached_server : Server :=
  fst (getFunctions no_regexp (fun x => x) opened_server first_page (Ok two_functions) 120).

(** [cached_server] after its worker process has died and the monitor
    goroutine has dropped the handle. *)
Definition orphaned_server : Server := worker_exits cached_server "1f0c9a2e".

Definition start_ok : StartEnv := {| remove_ok := true; spawn := Some 4242; socket_ready := true |}.

Definition sample_session : Session :=
  {| ID := "test-session"; BinaryPath := "/bin/ls"; CreatedAt := 0; LastActivity := 0;
     Timeout := 60; SocketPath := "/tmp/ida-worker-test.sock"; WorkerPID := 0 |}.

(** An operating system in which one request context (context 1) exists. *)
Definition one_request : OS :=
  {| ctxs := snd (WithCancel no_contexts Background); procs := ∅ |}.

Definition first_uuid : Fresh :=
  {| uuid_id := "1f0c9a2e"; uuid_sock := "52cc0d11"; now_created := 100; now_activity := 100 |}.

Definition second_uuid : Fresh :=
  {| uuid_id := "7b1d44c0"; uuid_sock := "e09a3f5b"; now_created := 101; now_activity := 101 |}.

(** [Registry.Create] called twice for one path on an empty registry. *)
Definition created_twice : Heap * Registry :=
  let '(_, h1, r1) := Create empty_heap (NewRegistry 4) "/tmp/x" 60 first_uuid in
  let '(_, h2, r2) := Create h1 r1 "/tmp/x" 60 second_uuid in
  (h2, r2).

(** Calls between two opens of one binary: a listing, a read, a mutation,
    and the open of another binary. *)
Definition busy_calls : list Call :=
  [ list_sessions (fun _ => {| age_seconds := JNum 10; idle_seconds := JNum 10 |});
    get_functions first_page (Ok two_functions) 120;
    make_function "1f0c9a2e" 12288 (Ok made_function) 130;
    open_binary 3 "/tmp/y" (sample_open "7b1d44c0" 4243 true);
    open_binary 4 "/tmp/./x" (sample_open "c3a0e6d2" 4244 true) ].

(** [Registry.Create] called once on an empty registry. *)
Definition one_created : result nat * Heap * Registry :=
  Create empty_heap (NewRegistry 4) "/tmp/x" 60 first_uuid.

(** The metadata file of a session with id 1f0c9a2e. *)
Definition sample_metadata : Metadata :=
  {| m_ID := "1f0c9a2e"; m_BinaryPath := "/tmp/x"; m_CreatedAt := 100; m_LastActivity := 150;
     m_Timeout := 60; m_HasDecompiler := true |}.

(** A regex compiler that knows one expression, [(?i)alpha], and rejects
    every other one. *)
Definition sample_regexp (expr : string) : result (string -> bool) :=
  if String.eqb expr "(?i)alpha" then Ok (fun s => Contains (websocket.lower s) "alpha")
  else Err "error parsing regexp".

Definition alpha_page : ListArgs :=
  {| a_SessionID := "1f0c9a2e"; a_Offset := 0; a_Limit := 0; a_Regex := "alpha";
     a_CaseSens := false; a_Module := "" |}.

Definition two_imports : GetImportsResponse :=
  {| gi_Imports := [ {| imp_Module := "KERNEL32.dll"; imp_Address := 4096;
                        imp_Name := "CreateFileW"; imp_Ordinal := 0 |};
                     {| imp_Module := "libc.so.6"; imp_Address := 8192;
                        imp_Name := "open"; imp_Ordinal := 0 |} ];
     gi_Error := "" |}.

Definition kernel_page : ListArgs :=
  {| a_SessionID := "1f0c9a2e"; a_Offset := 0; a_Limit := 10; a_Regex := "";
     a_CaseSens := false; a_Module := "kernel32" |}.

(** A request for a page that starts before the first item. *)
Definition negative_page : ListArgs :=
  {| a_SessionID := "1f0c9a2e"; a_Offset := -1; a_Limit := 1; a_Regex := "";
     a_CaseSens := false; a_Module := "" |}.

(** The same with an expression the compiler rejects. *)
Definition negative_page_bad_regex : ListArgs :=
  {| a_SessionID := "1f0c9a2e"; a_Offset := -1; a_Limit := 1; a_Regex := "(";
     a_CaseSens := false; a_Module := "" |}.

Definition oversized_page : ListArgs :=
  {| a_SessionID := "1f0c9a2e"; a_Offset := 0; a_Limit := 10001; a_Regex := "";
     a_CaseSens := false; a_Module := "" |}.



(** An [open_binary] whose worker is spawned but never opens its socket. *)
Definition socket_never_ready : OpenEnv :=
  {| o_fresh := first_uuid;
     o_now := 100;
     o_start := {| remove_ok := true; spawn := Some 4242; socket_ready := false |};
     o_open := Ok {| ob_Success := true; ob_HasDecompiler := true; ob_Error := "" |};
     o_info := None;
     o_kill_fails := None |}.

(** A worker that answers every GetStrings request with a full chunk. *)
Definition endless_worker : Z -> Z -> result GetStringsResponse :=
  fun _ _ => Ok {| gs_Strings := replicate 1000 {| str_Address := 0; str_Value := "x" |};
                   gs_Total := 0; gs_Error := "" |}.

(** A text decoder that knows the frame of [request_envelope]. *)
Definition request_frame_decoder (frame : string) : result json :=
  if String.eqb frame "request-frame" then Ok (websocket.Marshal request_envelope)
  else Err "invalid character".

(** ** Heap and lookup facts *)

Lemma deref_Touch h p now sess :
  deref h p = Some sess ->
  deref (Touch h p now) p = Some (with_LastActivity now sess).
Proof.
  unfold deref, Touch. simpl. intros H.
  rewrite lookup_alter_eq, H. reflexivity.
Qed.

Lemma deref_Touch_ne h p q now : p <> q -> deref (Touch h p now) q = deref h q.
Proof.
  unfold deref, Touch. simpl. intros H. by rewrite lookup_alter_ne.
Qed.

(** ** Pagination *)

Lemma take_drop_window {A} (E : list A) (o L : Z) :
  0 <= o -> 0 < L ->
  let N := Z.of_nat (length E) in
  let off := if o >? N then N else o in
  let en := if off + L >? N then N else off + L in
  0 <= off /\ off <= en /\ en <= N /\
  take (Z.to_nat (en - off)) (drop (Z.to_nat off) E) = take (Z.to_nat L) (drop (Z.to_nat o) E).
Proof.
  intros Ho HL N off en. subst off en.
  destruct (Z.gtb_spec o N) as [Hgt | Hle].
  - destruct (Z.gtb_spec (N + L) N); [|lia].
    repeat split; try lia.
    rewrite !drop_ge by (subst N; lia). by rewrite !take_nil.
  - destruct (Z.gtb_spec (o + L) N) as [Hov | Hin].
    + repeat split; try lia.
      rewrite !take_ge; [done | |]; rewrite length_drop; subst N; lia.
    + repeat split; try lia. f_equal. lia.
Qed.

Section pagination.

Variable regexp_Compile : string -> result (string -> bool).
Variable strings_ToLower : string -> string.

Lemma pageResponse_law {A} (k : ListKind A) (args : ListArgs) (filtered : slice A) :
  let E := elems filtered in
  let N := Z.of_nat (length E) in
  let o := a_Offset args in
  let L := effective_limit (a_Limit args) in
  let page := take (Z.to_nat L) (drop (Z.to_nat o) E) in
  pageResponse k args filtered =
    if o <? 0 then ToolErr "offset must be >= 0"
    else if L >? maxPageLimit then ToolErr "limit must be <= 10000"
    else ToolJson (JObj (
           [(k_kind k, JArr (map (k_item k) page));
            ("total", JNum N);
            ("offset", JNum (Z.min o N));
            ("count", JNum (Z.of_nat (length page)));
            ("limit", JNum L)]
           ++ (match k_module k with
               | Some _ => [("module", JStr (a_Module args))]
               | None => []
               end)
           ++ [("regex", JStr (a_Regex args))])).
Proof.
  intros E N o L page. unfold pageResponse, normalizePagination.
  fold o. destruct (Z.ltb_spec o 0) as [Hneg | Hpos]; [reflexivity|].
  fold (effective_limit (a_Limit args)). fold L.
  destruct (Z.gtb_spec L maxPageLimit) as [Hbig | Hok]; [reflexivity|].
  assert (HL : 0 < L).
  { subst L. unfold effective_limit, defaultPageLimit.
    destruct (Z.leb_spec (a_Limit args) 0); lia. }
  assert (Hlen : len filtered = N) by (by destruct filtered).
  rewrite Hlen.
  destruct (take_drop_window E o L Hpos HL) as (H1 & H2 & H3 & Heq).
  fold N in H1, H2, H3, Heq.
  set (off := if o >? N then N else o) in *.
  set (en := if off + L >? N then N else off + L) in *.
  assert (Hoff : off = Z.min o N).
  { subst off. destruct (Z.gtb_spec o N); lia. }
  unfold reslice. rewrite Hlen.
  rewrite bool_decide_eq_true_2 by lia.
  rewrite length_map, <- Hoff.
  subst page. clear Hlen. subst N E.
  destruct filtered as [l|]; simpl in *.
  - rewrite Heq. reflexivity.
  - rewrite drop_nil, take_nil. reflexivity.
Qed.

End pagination.


Lemma getSessionCache_load {A} (k : ListKind A) s sid loader now data :
  enumeration k s sid loader = Some data ->
  exists s2 c' hit,
    (let '(c, s1) := getSessionCache s sid in load k s1 c sid loader now)
    = Some (s2, c', Ok (data, hit)).
Proof.
  unfold enumeration, getSessionCache, load. intros H.
  destruct (cache s !! sid) as [c|] eqn:Hc; simpl in *.
  - destruct (is_nil (k_get k c)); simpl in *.
    + destruct loader as [[[e|d] em]|]; try discriminate.
      injection H as ->. eauto.
    + injection H as <-. eauto.
  - destruct (is_nil (k_get k empty_cache)); simpl in *.
    + destruct loader as [[[e|d] em]|]; try discriminate.
      injection H as ->. eauto.
    + injection H as <-. eauto.
Qed.

Section list_tools.

Variable regexp_Compile : string -> result (string -> bool).
Variable strings_ToLower : string -> string.

(** The filters of the list tools select exactly [selected]. *)
Lemma filterItems_selected {A} (k : ListKind A) (args : ListArgs) (data : slice A)
    (re : string -> bool) :
  (a_Regex args <> "" -> regexp_Compile (regex_source args) = Ok re) ->
  exists filtered,
    filterItems regexp_Compile strings_ToLower k args data = Ok (Some filtered)
    /\ elems filtered = selected k strings_ToLower args re (elems data).
Proof.
  intros Hre. unfold filterItems, selected.
  set (by_module := match k_module k with
                    | Some module_of =>
                        if negb (String.eqb (a_Module args) "")
                        then Some (List.filter (fun x => matchModule strings_ToLower (module_of x)
                                                   (a_Module args) (a_CaseSens args)) (elems data))
                        else data
                    | None => data
                    end).
  assert (Hmod : elems by_module
                 = match k_module k with
                   | Some module_of =>
                       if String.eqb (a_Module args) "" then elems data
                       else List.filter
                              (fun x => if a_CaseSens args
                                        then Contains (module_of x) (a_Module args)
                                        else Contains (strings_ToLower (module_of x))
                                                      (strings_ToLower (a_Module args)))
                              (elems data)
                   | None => elems data
                   end).
  { subst by_module. destruct (k_module k) as [module_of|]; [|reflexivity].
    destruct (String.eqb (a_Module args) "") eqn:Em; simpl; [reflexivity|].
    apply List.filter_ext. intros x. unfold matchModule. by rewrite Em. }
  destruct (String.eqb_spec (a_Regex args) "") as [Hempty|Hgiven]; simpl.
  - exists by_module. split; [reflexivity|]. rewrite Hmod.
    destruct (k_module k); [|reflexivity]. by destruct (String.eqb (a_Module args) "").
  - specialize (Hre Hgiven). unfold compileRegex.
    destruct (String.eqb_spec (a_Regex args) "") as [|_]; [contradiction|].
    assert (Hc : (if a_CaseSens args then regexp_Compile (a_Regex args)
                  else regexp_Compile (String.append "(?i)" (a_Regex args))) = Ok re).
    { rewrite <- Hre. unfold regex_source. by destruct (a_CaseSens args). }
    rewrite Hc. eexists. split; [reflexivity|]. simpl. rewrite Hmod.
    destruct (k_module k); [|reflexivity]. by destruct (String.eqb (a_Module args) "").
Qed.

Lemma selected_same_selection {A} (k : ListKind A) (args args' : ListArgs) re (data : list A) :
  same_selection args args' ->
  selected k strings_ToLower args' re data = selected k strings_ToLower args re data.
Proof. intros (_ & Hr & Hc & Hm). unfold selected. by rewrite Hr, Hc, Hm. Qed.

(** C3 (pagination law, as the code has it).  For every list tool
    ([getFunctions], [getImports], [getExports], [getStrings] are
    [listTool] at their kind), on a live session whose enumeration [data]
    is available from the cache or the loader.  The request's filters
    select E, the items of [data] that pass the module filter (imports) and
    that the compiled [regex] matches, in the order of [data]; the
    expression is compiled behind [(?i)] unless the request is
    case-sensitive.  For every request with these filters, whatever its
    page: a negative offset is refused, a limit that is not positive counts
    as 1000, a limit above 10000 is refused, and otherwise the answer
    carries the items of E from [offset] up to [min (offset + limit) N] in
    their order, [count] is their number and at most the limit, and [total]
    is N, the length of E.  An expression the compiler rejects is answered
    with the compiler's error, whatever the page asked for. *)
Theorem list_tools_pagination_law {A} (k : ListKind A) (s : Server) (args : ListArgs)
    (loader : option (result (slice A) * Emission)) (now : Z)
    (p : nat) (sess : Session) (w : WorkerClient) (data : slice A) :
  Get (registry s) (a_SessionID args) = Some p ->
  deref (mem s) p = Some sess ->
  GetClient (workers s) (ID sess) = Ok w ->
  enumeration k s (ID sess) loader = Some data ->
  (forall re, (a_Regex args <> "" -> regexp_Compile (regex_source args) = Ok re) ->
   forall args', same_selection args args' ->
     let E := selected k strings_ToLower args re (elems data) in
     let N := Z.of_nat (length E) in
     let o := a_Offset args' in
     let L := effective_limit (a_Limit args') in
     let page := take (Z.to_nat L) (drop (Z.to_nat o) E) in
     snd (listTool regexp_Compile strings_ToLower k s args' loader now) =
       (if o <? 0 then ToolErr "offset must be >= 0"
        else if L >? maxPageLimit then ToolErr "limit must be <= 10000"
        else ToolJson (JObj (
               [(k_kind k, JArr (map (k_item k) page));
                ("total", JNum N);
                ("offset", JNum (Z.min o N));
                ("count", JNum (Z.of_nat (length page)));
                ("limit", JNum L)]
               ++ (match k_module k with
                   | Some _ => [("module", JStr (a_Module args'))]
                   | None => []
                   end)
               ++ [("regex", JStr (a_Regex args'))])))
     /\ 0 < L
     /\ (L = a_Limit args' \/ (a_Limit args' <= 0 /\ L = 1000))
     /\ Z.of_nat (length page) <= L
     /\ (0 <= o -> Z.of_nat (length page) = Z.min (o + L) N - Z.min o N)
     /\ (forall i, (i < Z.to_nat L)%nat -> page !! i = E !! (Z.to_nat o + i)%nat))
  /\ (forall e, a_Regex args <> "" -> regexp_Compile (regex_source args) = Err e ->
      forall args', same_selection args args' ->
        snd (listTool regexp_Compile strings_ToLower k s args' loader now) = ToolErr e).
Proof.
  intros HGet Hderef Hclient Henum.
  assert (Hhead : forall args', same_selection args args' ->
            exists s2 hit,
              listTool regexp_Compile strings_ToLower k s args' loader now
              = (let s3 := if hit : bool
                           then emitProgress s2 (k_tool k) (ID sess) (k_tool k) (k_hit k) 1 1 now
                           else s2 in
                 match filterItems regexp_Compile strings_ToLower k args' data with
                 | Err e => (s3, ToolErr e)
                 | Ok None => (s3, ToolPanics)
                 | Ok (Some filtered) => (s3, pageResponse k args' filtered)
                 end)).
  { intros args' (Hsid & _). unfold listTool. rewrite Hsid, HGet. simpl.
    rewrite (deref_Touch _ _ _ _ Hderef). simpl. rewrite Hclient.
    destruct (getSessionCache_load k (set_mem s (Touch (mem s) p now)) (ID sess) loader now
                data Henum) as (s2 & c' & hit & Hload).
    destruct (getSessionCache (set_mem s (Touch (mem s) p now)) (ID sess)) as [c s1].
    rewrite Hload. eexists _, hit. reflexivity. }
  split.
  - intros re Hre args' Hsame E N o L page.
    assert (HL : 0 < L).
    { subst L. unfold effective_limit, defaultPageLimit.
      destruct (Z.leb_spec (a_Limit args') 0); lia. }
    assert (Hre' : a_Regex args' <> "" -> regexp_Compile (regex_source args') = Ok re).
    { destruct Hsame as (_ & Hr & Hc & _). unfold regex_source in *. rewrite Hr, Hc. exact Hre. }
    destruct (filterItems_selected k args' data re Hre') as (filtered & Hf & HE).
    rewrite (selected_same_selection k args args' re (elems data) Hsame) in HE.
    split; [|split; [exact HL|split; [|split; [|split]]]].
    + destruct (Hhead args' Hsame) as (s2 & hit & ->). rewrite Hf. cbn [snd].
      destruct hit; cbn [snd]; rewrite pageResponse_law, HE; reflexivity.
    + subst L. unfold effective_limit, defaultPageLimit.
      destruct (Z.leb_spec (a_Limit args') 0); [right|left]; auto.
    + subst page. rewrite length_take. lia.
    + intros Ho. subst page. rewrite length_take, length_drop. subst N. lia.
    + intros i Hi. subst page. rewrite lookup_take_lt by done. by rewrite lookup_drop.
  - intros e Hgiven Herr args' Hsame.
    destruct (Hhead args' Hsame) as (s2 & hit & ->).
    destruct Hsame as (_ & Hr & Hc & _).
    assert (Hf : filterItems regexp_Compile strings_ToLower k args' data = Err e).
    { unfold filterItems, compileRegex. rewrite Hr, Hc.
      destruct (String.eqb_spec (a_Regex args) "") as [|_]; [contradiction|]. simpl.
      assert (Hcomp : (if a_CaseSens args then regexp_Compile (a_Regex args)
                       else regexp_Compile (String.append "(?i)" (a_Regex args))) = Err e).
      { rewrite <- Herr. unfold regex_source. by destruct (a_CaseSens args). }
      by rewrite Hcomp. }
    rewrite Hf. by destruct hit.
Qed.

End list_tools.

Lemma list_tools_pagination_law_witness :
  snd (getStrings sample_regexp websocket.lower opened_server alpha_page 1
         (paging_worker three_strings) 101)
  = ToolJson (JObj [("strings", JArr [JObj [("address", JNum 256); ("value", JStr "alpha_http")]]);
                    ("total", JNum 1); ("offset", JNum 0); ("count", JNum 1);
                    ("limit", JNum 1000); ("regex", JStr "alpha")])
  /\ snd (getImports sample_regexp websocket.lower opened_server kernel_page (Ok two_imports) 101)
     = ToolJson (JObj [("imports", JArr [JObj [("module", JStr "KERNEL32.dll");
                                               ("address", JNum 4096);
                                               ("name", JStr "CreateFileW");
                                               ("ordinal", JNum 0)]]);
                       ("total", JNum 1); ("offset", JNum 0); ("count", JNum 1);
                       ("limit", JNum 10); ("module", JStr "kernel32"); ("regex", JStr "")]).
Proof.
  assert (HGet : Get (registry opened_server) "1f0c9a2e" = Some 0%nat)
    by (vm_compute; reflexivity).
  assert (Hderef : deref (mem opened_server) 0
                   = Some {| ID := "1f0c9a2e"; BinaryPath := "/tmp/x"; CreatedAt := 100;
                             LastActivity := 100; Timeout := 60;
                             SocketPath := "/tmp/ida-worker-1f0c9a2e.sock"; WorkerPID := 4242 |})
    by (vm_compute; reflexivity).
  assert (Hclient : GetClient (workers opened_server) "1f0c9a2e"
                    = Ok {| cmd := 4242; ctx := 1%nat; w_session := 0%nat; binaryPath := "/tmp/x" |})
    by (vm_compute; reflexivity).
  split.
  - assert (Henum : enumeration strings_kind opened_server "1f0c9a2e"
                      (fetchAllStrings 1 (paging_worker three_strings)) = Some (Some three_strings))
      by (vm_compute; reflexivity).
    pose proof (proj1 (list_tools_pagination_law sample_regexp websocket.lower strings_kind
                         opened_server alpha_page (fetchAllStrings 1 (paging_worker three_strings))
                         101 0%nat _ _ (Some three_strings) HGet Hderef Hclient Henum)
                  (fun s => Contains (websocket.lower s) "alpha") (fun _ => eq_refl)
                  alpha_page (conj eq_refl (conj eq_refl (conj eq_refl eq_refl)))) as (H & _).
    etransitivity; [exact H|]. vm_compute. reflexivity.
  - assert (Henum : enumeration imports_kind opened_server "1f0c9a2e"
                      (Some (fetchAllImports (Ok two_imports)))
                    = Some (Some (gi_Imports two_imports)))
      by (vm_compute; reflexivity).
    pose proof (proj1 (list_tools_pagination_law sample_regexp websocket.lower imports_kind
                         opened_server kernel_page (Some (fetchAllImports (Ok two_imports)))
                         101 0%nat _ _ (Some (gi_Imports two_imports)) HGet Hderef Hclient Henum)
                  (fun _ => true) (fun H => False_ind _ (H eq_refl))
                  kernel_page (conj eq_refl (conj eq_refl (conj eq_refl eq_refl)))) as (H & _).
    etransitivity; [exact H|]. vm_compute. reflexivity.
Defined.

(** C3 as stated fails on the order of the steps.  Pagination is not
    normalized first: a request for a page at offset -1 is refused only
    after the worker has been asked and its answer stored in the cache (the
    log shows the MISS), and when the expression is malformed as well, the
    answer is the regex error.  A limit above 10000 is refused, not cut
    down to 10000. *)
Lemma invalid_page_is_refused_after_the_load :
  snd (getFunctions sample_regexp websocket.lower opened_server negative_page
         (Ok two_functions) 101) = ToolErr "offset must be >= 0"
  /\ cache opened_server !! "1f0c9a2e" = None
  /\ c_functions <$> cache (fst (getFunctions sample_regexp websocket.lower opened_server
                                   negative_page (Ok two_functions) 101)) !! "1f0c9a2e"
     = Some (Some (gf_Functions two_functions))
  /\ logger (fst (getFunctions sample_regexp websocket.lower opened_server negative_page
                    (Ok two_functions) 101))
     = logger opened_server ++ [CacheMISS "functions" "1f0c9a2e"]
  /\ snd (getFunctions sample_regexp websocket.lower opened_server negative_page_bad_regex
            (Ok two_functions) 101) = ToolErr "error parsing regexp"
  /\ snd (getFunctions sample_regexp websocket.lower opened_server oversized_page
            (Ok two_functions) 101) = ToolErr "limit must be <= 10000".
Proof. repeat split; vm_compute; reflexivity. Qed.


(** ** The strings loader *)

Lemma append_repeated {A} (a b : list A) : append (repeated a) b = repeated (a ++ b).
Proof. destruct a, b; simpl; rewrite ?app_nil_r; reflexivity. Qed.

Lemma len_repeated {A} (l : list A) : len (repeated l) = Z.of_nat (length l).
Proof. by destruct l. Qed.

Lemma elems_repeated {A} (l : list A) : elems (repeated l) = l.
Proof. by destruct l. Qed.

Lemma int32_small (x : Z) : 0 <= x < 2147483648 -> int32 x = x.
Proof. intros H. unfold int32. rewrite Z.mod_small by lia. lia. Qed.

Lemma fetchAllStrings_from_complete data W :
  pages_correctly data W ->
  Z.of_nat (length data) < 2147483648 ->
  forall fuel off total,
    (off <= length data)%nat ->
    Z.of_nat (length data) - Z.of_nat off < 1000 * Z.of_nat fuel ->
    exists em,
      fetchAllStrings_from fuel W (repeated (take off data)) (Z.of_nat off) total
      = Some (Ok (repeated data), em).
Proof.
  intros HW Hsize. induction fuel as [|fuel IH]; intros off total Hoff Hfuel; [lia|].
  simpl. rewrite (int32_small (Z.of_nat off)) by lia.
  change (int32 chunkSize) with 1000.
  destruct (HW (Z.of_nat off) 1000 ltac:(lia) ltac:(lia)) as (resp & -> & Herr & Hchunk).
  rewrite Herr. simpl. rewrite Hchunk, elems_repeated, len_repeated, append_repeated.
  rewrite Nat2Z.id. change (Z.to_nat 1000) with 1000%nat.
  unfold chunkSize, defaultPageLimit.
  destruct (Z.ltb_spec (Z.of_nat (length (take 1000 (drop off data)))) 1000) as [Hshort | Hfull].
  - eexists. do 3 f_equal.
    rewrite length_take in Hshort.
    rewrite (take_ge (drop off data)) by lia. by rewrite take_drop.
  - rewrite length_take, length_drop in Hfull.
    rewrite take_take_drop.
    replace (Z.of_nat off + Z.of_nat (length (take 1000 (drop off data))))
      with (Z.of_nat (off + 1000)).
    2:{ rewrite length_take, length_drop. lia. }
    apply IH; lia.
Qed.

(** C6.  Against a worker whose GetStrings pages correctly over an
    enumeration [data] (of a size an [int32] offset can address), the chunk
    loop ends within [length data / 1000 + 1] requests and returns [data]
    itself, whole and in order, as one slice (the nil slice when [data] is
    empty). *)
Theorem fetchAllStrings_materializes (data : list StringItem)
    (GetStrings : Z -> Z -> result GetStringsResponse) (fuel : nat) :
  pages_correctly data GetStrings ->
  Z.of_nat (length data) < 2147483648 ->
  (length data / 1000 < fuel)%nat ->
  exists all em,
    fetchAllStrings fuel GetStrings = Some (Ok all, em) /\
    all = repeated data /\ elems all = data.
Proof.
  intros HW Hsize Hfuel.
  destruct (fetchAllStrings_from_complete data GetStrings HW Hsize fuel 0%nat 0) as [em Hem].
  - lia.
  - pose proof (Nat.div_mod_eq (length data) 1000).
    pose proof (Nat.mod_upper_bound (length data) 1000). lia.
  - exists (repeated data), em. split; [exact Hem|]. split; [reflexivity|apply elems_repeated].
Qed.

Lemma paging_worker_pages_correctly data : pages_correctly data (paging_worker data).
Proof. intros o l _ _. eexists. split; [reflexivity|]. split; reflexivity. Qed.

Lemma fetchAllStrings_materializes_witness :
  exists all em,
    fetchAllStrings 1 (paging_worker three_strings) = Some (Ok all, em) /\
    all = repeated three_strings /\ elems all = three_strings.
Proof.
  apply (fetchAllStrings_materializes three_strings (paging_worker three_strings) 1).
  - apply paging_worker_pages_correctly.
  - simpl. lia.
  - simpl. lia.
Defined.


(** ** The WebSocket envelope *)

(** C7.  Serialising an envelope and parsing the result gives the envelope
    back: whatever the type tag (so in particular for request, response,
    error and notification), whatever the correlation id (the empty id is
    left out and read back as empty), and whichever payloads are present. *)
Theorem envelope_round_trip (e : websocket.WebSocketMessageEnvelopeForModelContextProtocol) :
  websocket.decode (websocket.Marshal e) = Ok e.
Proof.
  destruct e as [t i rq rs er nt].
  unfold websocket.decode, websocket.Marshal. simpl.
  destruct (String.eqb_spec i ""); subst;
    destruct rq, rs, er, nt; reflexivity.
Qed.

Example request_envelope_survives :
  websocket.decode (websocket.Marshal request_envelope) = Ok request_envelope.
Proof. reflexivity. Qed.

Lemma parse_error_text_differs (detail : string) :
  String.append "Failed to parse message JSON: " detail <> "Failed to parse message JSON".
Proof. simpl. intros H. discriminate H. Qed.

Section malformed_frames.

Variable json_text : string -> result json.

(** C8, as the code has it.  A frame the JSON decoder rejects with error
    text [detail], arriving on a connection that is not cancelled and whose
    outbound queue has room, makes the server queue one envelope of type
    error whose message is "Failed to parse message JSON: " followed by
    [detail], count one error, and hand nothing to the MCP server. *)
Theorem malformed_frame_gets_error_envelope
    (c : websocket.WebSocketClientConnection) (m : websocket.McpServer)
    (frame detail : string) :
  json_text frame = Err detail ->
  websocket.cancelled c = false ->
  (length (websocket.messageChannelForOutgoingMessagesToClient c) < websocket.queueCapacity)%nat ->
  let '(c', m') := websocket.processReceivedMessageAndSendResponse json_text c m frame in
  websocket.messageChannelForOutgoingMessagesToClient c' =
    websocket.messageChannelForOutgoingMessagesToClient c ++ [parse_error_envelope detail]
  /\ websocket.totalNumberOfErrorsEncounteredDuringConnectionLifetime c' =
     websocket.totalNumberOfErrorsEncounteredDuringConnectionLifetime c + 1
  /\ websocket.handed m' = websocket.handed m.
Proof.
  intros Hbad Hlive Hroom.
  unfold websocket.processReceivedMessageAndSendResponse, websocket.Unmarshal.
  rewrite Hbad.
  unfold websocket.sendErrorResponseToClient, websocket.enqueueMessageForTransmissionToClient.
  rewrite Hlive.
  apply Nat.ltb_lt in Hroom. rewrite Hroom. simpl.
  repeat split; reflexivity.
Qed.

End malformed_frames.

Lemma malformed_frame_gets_error_envelope_witness :
  let '(c', m') := websocket.processReceivedMessageAndSendResponse
                     truncated_object_decoder open_connection echo_mcp "{" in
  websocket.messageChannelForOutgoingMessagesToClient c' =
    [parse_error_envelope "unexpected end of JSON input"]
  /\ websocket.totalNumberOfErrorsEncounteredDuringConnectionLifetime c' = 1
  /\ websocket.handed m' = [].
Proof.
  apply (malformed_frame_gets_error_envelope truncated_object_decoder open_connection echo_mcp
           "{" "unexpected end of JSON input").
  - reflexivity.
  - reflexivity.
  - unfold websocket.queueCapacity. simpl. lia.
Defined.

(** C8 as stated fails: the message of the queued envelope is not the bare
    text "Failed to parse message JSON"; the decoder's error follows it. *)
Lemma malformed_frame_message_not_bare :
  websocket.messageChannelForOutgoingMessagesToClient
    (fst (websocket.processReceivedMessageAndSendResponse
            truncated_object_decoder open_connection echo_mcp "{"))
  = [parse_error_envelope "unexpected end of JSON input"]
  /\ parse_error_envelope "unexpected end of JSON input" <> quoted_parse_error_envelope.
Proof.
  split; [reflexivity|]. intros H. discriminate H.
Qed.


(** ** Frame facts: what the bookkeeping operations leave alone *)

Lemma same_sessions_refl s : same_sessions s s.
Proof. by repeat split. Qed.

Lemma same_sessions_trans s1 s2 s3 :
  same_sessions s1 s2 -> same_sessions s2 s3 -> same_sessions s1 s3.
Proof. intros (?&?&?&?) (?&?&?&?). repeat split; congruence. Qed.

Lemma recordProgress_frame s sid st msg a b now :
  same_sessions s (recordProgress s sid st msg a b now)
  /\ logger (recordProgress s sid st msg a b now) = logger s
  /\ cache (recordProgress s sid st msg a b now) = cache s
  /\ store (recordProgress s sid st msg a b now) = store s.
Proof. unfold recordProgress. destruct (String.eqb sid ""); by repeat split. Qed.

Lemma emitProgress_frame s rs sid st msg a b now :
  same_sessions s (emitProgress s rs sid st msg a b now)
  /\ logger (emitProgress s rs sid st msg a b now) = logger s
  /\ cache (emitProgress s rs sid st msg a b now) = cache s
  /\ store (emitProgress s rs sid st msg a b now) = store s.
Proof. unfold emitProgress. apply recordProgress_frame. Qed.

Lemma clearProgress_frame s sid :
  same_sessions s (clearProgress s sid)
  /\ logger (clearProgress s sid) = logger s
  /\ cache (clearProgress s sid) = cache s
  /\ store (clearProgress s sid) = store s.
Proof. unfold clearProgress. destruct (String.eqb sid ""); by repeat split. Qed.

Lemma clearProgress_gone s sid : sid <> "" -> progress (clearProgress s sid) !! sid = None.
Proof.
  intros H. unfold clearProgress. destruct (String.eqb_spec sid ""); [done|].
  simpl. apply lookup_delete_eq.
Qed.

Lemma deleteSessionCache_frame s sid :
  same_sessions s (deleteSessionCache s sid)
  /\ cache (deleteSessionCache s sid) = delete sid (cache s)
  /\ store (deleteSessionCache s sid) = store s
  /\ progress (deleteSessionCache s sid) = progress s.
Proof. unfold deleteSessionCache. case_bool_decide; by repeat split. Qed.

Lemma deleteSessionCache_gone s sid : cache (deleteSessionCache s sid) !! sid = None.
Proof.
  destruct (deleteSessionCache_frame s sid) as (_ & -> & _). apply lookup_delete_eq.
Qed.

(** ** Cache reads *)

(** A read of an entry that is not populated logs a MISS, whatever the
    loader then does. *)
Lemma listTool_logs_miss {A} (k : ListKind A) R L s args loader now p sess w :
  Get (registry s) (a_SessionID args) = Some p ->
  deref (mem s) p = Some sess ->
  GetClient (workers s) (ID sess) = Ok w ->
  k_get k (default empty_cache (cache s !! ID sess)) = None ->
  logger (fst (listTool R L k s args loader now)) = logger s ++ [CacheMISS (k_kind k) (ID sess)].
Proof.
  intros HGet Hderef Hclient Hnil.
  unfold listTool. rewrite HGet. simpl.
  rewrite (deref_Touch _ _ _ _ Hderef). simpl. rewrite Hclient.
  unfold getSessionCache. simpl.
  destruct (cache s !! ID sess) as [c|]; simpl in Hnil;
    unfold load; rewrite Hnil; simpl;
    (destruct loader as [[[e|d] em]|]; simpl;
     [ | destruct (filterItems R L k args d) as [e|[f|]]; simpl | ]);
    unfold recordProgress; destruct (String.eqb (ID sess) ""); reflexivity.
Qed.

Lemma list_kind_empty {A} (k : ListKind A) : list_kind A k -> k_get k empty_cache = None.
Proof. by destruct 1. Qed.




(** ** Invalidation by the mutating tools *)

Lemma makeFunction_success s sid addr rpc now s1 :
  makeFunction s sid addr rpc now = (s1, ToolJson (JObj [("success", JBool true)])) ->
  exists p sess w,
    Get (registry s) sid = Some p /\ deref (mem s) p = Some sess /\
    GetClient (workers s) (ID sess) = Ok w /\
    s1 = deleteSessionCache (set_mem s (Touch (mem s) p now)) (ID sess).
Proof.
  unfold makeFunction.
  destruct (Get (registry s) sid) as [p|] eqn:HGet; [|discriminate].
  simpl. destruct (deref (mem s) p) as [sess|] eqn:Hderef.
  2:{ unfold deref, Touch in *. simpl. rewrite lookup_alter_eq. unfold deref in Hderef.
      rewrite Hderef. discriminate. }
  rewrite (deref_Touch _ _ _ _ Hderef). simpl.
  destruct (GetClient (workers s) (ID sess)) as [e|w] eqn:Hclient; [discriminate|].
  destruct rpc as [e|resp]; [discriminate|].
  destruct (String.eqb (mf_Error resp) ""); simpl; [|discriminate].
  destruct (mf_Success resp); intros H; [|discriminate].
  injection H as <-. eauto 10.
Qed.

Lemma fetchInfo_frame sid start st t :
  same_sessions (al_server st) (al_server (fetchInfo sid start st t)).
Proof.
  unfold fetchInfo. destruct (t_info t); simpl.
  - apply emitProgress_frame.
  - apply same_sessions_refl.
Qed.

Lemma fetchInfo_fold_frame sid start ticks st :
  same_sessions (al_server st) (al_server (fold_left (fetchInfo sid start) ticks st)).
Proof.
  revert st. induction ticks as [|t ticks IH]; intros st; simpl.
  - apply same_sessions_refl.
  - eapply same_sessions_trans; [apply (fetchInfo_frame sid start st t) | apply IH].
Qed.

Lemma runAutoAnalysis_completes s sid e s1 j :
  runAutoAnalysis s sid e = (s1, ToolJson j) ->
  exists p sess w s0,
    Get (registry s) sid = Some p /\ deref (mem s) p = Some sess /\
    GetClient (workers s) (ID sess) = Ok w /\
    same_sessions (set_mem s (Touch (mem s) p (ra_now e))) s0 /\
    s1 = deleteSessionCache s0 (ID sess).
Proof.
  unfold runAutoAnalysis.
  destruct (Get (registry s) sid) as [p|] eqn:HGet; [|discriminate].
  simpl. destruct (deref (mem s) p) as [sess|] eqn:Hderef.
  2:{ unfold deref, Touch in *. simpl. rewrite lookup_alter_eq. unfold deref in Hderef.
      rewrite Hderef. discriminate. }
  rewrite (deref_Touch _ _ _ _ Hderef). simpl.
  destruct (GetClient (workers s) (ID sess)) as [err|w] eqn:Hclient; [discriminate|].
  destruct (ra_end e) as [|err|resp last]; [discriminate|discriminate|].
  intros H. injection H as <- _.
  eexists p, sess, w, _.
  split; [first [reflexivity | assumption]|].
  split; [first [reflexivity | assumption]|].
  split; [first [reflexivity | assumption]|].
  split; cycle 1. { reflexivity. }
  eapply same_sessions_trans; [|apply emitProgress_frame].
  eapply same_sessions_trans; [|apply fetchInfo_frame].
  eapply same_sessions_trans; [|apply fetchInfo_fold_frame].
  simpl. apply emitProgress_frame.
Qed.

(** After the cache of a live session has been dropped, the next read of
    any of its four entries is a miss. *)
Lemma miss_after_deleteSessionCache {A} (k : ListKind A) R L s0 p sess w args loader now :
  list_kind A k ->
  Get (registry s0) (a_SessionID args) = Some p ->
  deref (mem s0) p = Some sess ->
  GetClient (workers s0) (ID sess) = Ok w ->
  let s1 := deleteSessionCache s0 (ID sess) in
  logger (fst (listTool R L k s1 args loader now)) = logger s1 ++ [CacheMISS (k_kind k) (ID sess)].
Proof.
  intros Hk HGet Hderef Hclient s1.
  destruct (deleteSessionCache_frame s0 (ID sess)) as ((Hm & Hr & Hw & _) & _).
  apply (listTool_logs_miss k R L s1 args loader now p sess w).
  - subst s1. rewrite Hr. exact HGet.
  - subst s1. rewrite Hm. exact Hderef.
  - subst s1. rewrite Hw. exact Hclient.
  - subst s1. rewrite deleteSessionCache_gone. simpl. by apply list_kind_empty.
Qed.

Section cache_consistency.

Variable regexp_Compile : string -> result (string -> bool).
Variable strings_ToLower : string -> string.

(** C2.  When [make_function] on session [sid] answers success, the next
    [get_functions] on that session logs a cache MISS (and no HIT); when
    [run_auto_analysis] on [sid] completes, the next read of each of the
    four entries (strings, functions, imports, exports) logs a MISS. *)
Theorem cache_consistency (s : Server) (sid : string) :
  (forall addr rpc now s1,
      makeFunction s sid addr rpc now = (s1, ToolJson (JObj [("success", JBool true)])) ->
      exists p sess,
        Get (registry s) sid = Some p /\ deref (mem s) p = Some sess /\
        forall args rpc2 now2, a_SessionID args = sid ->
          logger (fst (getFunctions regexp_Compile strings_ToLower s1 args rpc2 now2))
          = logger s1 ++ [CacheMISS "functions" (ID sess)])
  /\
  (forall e s1 j,
      runAutoAnalysis s sid e = (s1, ToolJson j) ->
      exists p sess,
        Get (registry s) sid = Some p /\ deref (mem s) p = Some sess /\
        forall A (k : ListKind A), list_kind A k ->
        forall args loader now2, a_SessionID args = sid ->
          logger (fst (listTool regexp_Compile strings_ToLower k s1 args loader now2))
          = logger s1 ++ [CacheMISS (k_kind k) (ID sess)]).
Proof.
  split.
  - intros addr rpc now s1 Hmf.
    destruct (makeFunction_success _ _ _ _ _ _ Hmf) as (p & sess & w & HGet & Hderef & Hclient & ->).
    exists p, sess. split; [exact HGet|]. split; [exact Hderef|].
    intros args rpc2 now2 <-. unfold getFunctions.
    apply (miss_after_deleteSessionCache functions_kind _ _ _ p (with_LastActivity now sess) w).
    + constructor.
    + exact HGet.
    + simpl. by apply deref_Touch.
    + exact Hclient.
  - intros e s1 j Hrun.
    destruct (runAutoAnalysis_completes _ _ _ _ _ Hrun)
      as (p & sess & w & s0 & HGet & Hderef & Hclient & (Hm & Hr & Hw & _) & ->).
    exists p, sess. split; [exact HGet|]. split; [exact Hderef|].
    intros A k Hk args loader now2 <-.
    apply (miss_after_deleteSessionCache k _ _ _ p (with_LastActivity (ra_now e) sess) w).
    + exact Hk.
    + rewrite Hr. exact HGet.
    + rewrite Hm. simpl. by apply deref_Touch.
    + rewrite Hw. exact Hclient.
Qed.

End cache_consistency.

Example second_read_hits :
  logger (fst (getFunctions no_regexp (fun x => x) cached_server first_page (Ok two_functions) 130))
  = [CacheMISS "functions" "1f0c9a2e"; CacheHIT "functions" "1f0c9a2e"].
Proof. reflexivity. Qed.

Lemma cache_consistency_witness :
  logger (fst (getFunctions no_regexp (fun x => x)
                 (fst (makeFunction cached_server "1f0c9a2e" 12288 (Ok made_function) 140))
                 first_page (Ok two_functions) 150))
  = [CacheMISS "functions" "1f0c9a2e"; CacheClear "1f0c9a2e"; CacheMISS "functions" "1f0c9a2e"]
  /\
  logger (fst (getStrings no_regexp (fun x => x)
                 (fst (runAutoAnalysis cached_server "1f0c9a2e" plan_done))
                 first_page 1 (paging_worker three_strings) 210))
  = [CacheMISS "functions" "1f0c9a2e"; CacheClear "1f0c9a2e"; CacheMISS "strings" "1f0c9a2e"].
Proof.
  split.
  - destruct (proj1 (cache_consistency no_regexp (fun x => x) cached_server "1f0c9a2e")
                12288 (Ok made_function) 140 _ eq_refl)
      as (p & sess & HGet & Hderef & H).
    vm_compute in HGet. injection HGet as <-.
    vm_compute in Hderef. injection Hderef as <-.
    exact (H first_page (Ok two_functions) 150 eq_refl).
  - destruct (proj2 (cache_consistency no_regexp (fun x => x) cached_server "1f0c9a2e")
                plan_done _ _ eq_refl)
      as (p & sess & HGet & Hderef & H).
    vm_compute in HGet. injection HGet as <-.
    vm_compute in Hderef. injection Hderef as <-.
    exact (H _ strings_kind kind_strings first_page
             (fetchAllStrings 1 (paging_worker three_strings)) 210 eq_refl).
Defined.

(** ** Empty enumerations *)

Section empty_enumerations.

Variable regexp_Compile : string -> result (string -> bool).
Variable strings_ToLower : string -> string.


End empty_enumerations.


(** ** The reuse path of open_binary *)

(** The reuse branch of [openBinary], spelled out. *)
Lemma openBinary_reuse (s : Server) (rctx : nat) (path : string)
    (e : OpenEnv) (p : nat) (existing : Session) :
  FindByBinaryPath (registry s) path = Some p ->
  deref (mem s) p = Some existing ->
  openBinary s rctx path e =
    (recordProgress s (ID existing) "open_binary" "Session reused" 1 1 (o_now e),
     ToolJson (JObj [("session_id", JStr (ID existing));
                     ("binary_path", JStr (BinaryPath existing));
                     ("has_decompiler", JBool true);
                     ("created_at", JNum (CreatedAt existing));
                     ("reused", JBool true)])).
Proof. intros Hfind Hderef. unfold openBinary. by rewrite Hfind, Hderef. Qed.

(** C10.  When the path already has a live session, [open_binary] answers
    with that session, [has_decompiler] is the constant [true] (nothing the
    worker reported enters the answer), and no session object is written:
    the session's last-activity time is what it was. *)
Theorem reused_open_is_constant_and_silent (s : Server) (rctx : nat) (path : string)
    (e : OpenEnv) (p : nat) (existing : Session) :
  FindByBinaryPath (registry s) path = Some p ->
  deref (mem s) p = Some existing ->
  snd (openBinary s rctx path e) =
    ToolJson (JObj [("session_id", JStr (ID existing));
                    ("binary_path", JStr (BinaryPath existing));
                    ("has_decompiler", JBool true);
                    ("created_at", JNum (CreatedAt existing));
                    ("reused", JBool true)])
  /\ mem (fst (openBinary s rctx path e)) = mem s
  /\ LastActivity <$> deref (mem (fst (openBinary s rctx path e))) p = Some (LastActivity existing)
  /\ same_sessions s (fst (openBinary s rctx path e)).
Proof.
  intros Hfind Hderef. rewrite (openBinary_reuse s rctx path e p existing Hfind Hderef). simpl.
  destruct (recordProgress_frame s (ID existing) "open_binary" "Session reused" 1 1 (o_now e))
    as (Hsame & _).
  pose proof Hsame as (Hm & _).
  split; [reflexivity|]. split; [exact Hm|]. split; [|exact Hsame].
  rewrite Hm, Hderef. reflexivity.
Qed.

(** The session of [opened_server] was opened by a worker that reported no
    decompiler, at time 100; a second open at time 500 says otherwise and
    leaves the time alone. *)
Lemma reused_open_is_constant_and_silent_witness :
  snd (openBinary opened_server 2 "/tmp//x/" (sample_open "7b1d44c0" 4243 false)) =
    ToolJson (JObj [("session_id", JStr "1f0c9a2e");
                    ("binary_path", JStr "/tmp/x");
                    ("has_decompiler", JBool true);
                    ("created_at", JNum 100);
                    ("reused", JBool true)])
  /\ LastActivity <$> deref (mem (fst (openBinary opened_server 2 "/tmp//x/"
                                         (sample_open "7b1d44c0" 4243 false)))) 0%nat
     = Some 100.
Proof.
  destruct (reused_open_is_constant_and_silent opened_server 2 "/tmp//x/"
              (sample_open "7b1d44c0" 4243 false) 0%nat
              {| ID := "1f0c9a2e"; BinaryPath := "/tmp/x"; CreatedAt := 100;
                 LastActivity := 100; Timeout := 60;
                 SocketPath := "/tmp/ida-worker-1f0c9a2e.sock"; WorkerPID := 4242 |}
              eq_refl eq_refl) as (Hans & _ & Hact & _).
  split; [exact Hans | exact Hact].
Defined.

(** ** close_binary *)

Lemma Delete_Get h r sess p :
  session.sessions r !! ID sess = Some p -> deref h p = Some sess ->
  Get (Delete h r (ID sess)) (ID sess) = None.
Proof.
  intros Hs Hd. unfold Get, Delete. rewrite Hs, Hd. simpl. apply lookup_delete_eq.
Qed.

(** X18.  Closing a live session whose worker handle is present:
    everything the session owned is removed, and a second close no longer
    finds it. *)
Lemma closeBinary_live (s : Server) (p : nat) (sess : Session) (w : WorkerClient) :
  Get (registry s) (ID sess) = Some p ->
  deref (mem s) p = Some sess ->
  worker.sessions (workers s) !! ID sess = Some w ->
  ID sess <> "" ->
  let s1 := fst (closeBinary s (ID sess) None) in
  snd (closeBinary s (ID sess) None) = ToolJson (JObj [("success", JBool true)])
  /\ Get (registry s1) (ID sess) = None
  /\ worker.sessions (workers s1) !! ID sess = None
  /\ alive (os s1) (cmd w) = false
  /\ (forall files, store s = Some files ->
        exists files1, store s1 = Some files1 /\ files1 !! ID sess = None)
  /\ cache s1 !! ID sess = None
  /\ progress s1 !! ID sess = None
  /\ forall k, closeBinary s1 (ID sess) k
              = (s1, ToolErr (String.append "session not found: " (ID sess))).
Proof.
  intros HGet Hderef Hw Hid s1.
  assert (Hclose : closeBinary s (ID sess) None =
    (clearProgress (deleteSessionCache (deleteSessionState
       (set_registry (set_workers (set_os s
          {| ctxs := cancel (ctxs (os s)) (ctx w);
             procs := alter mark_dead (cmd w) (procs (os s)) |})
          (with_sessions (workers s) (delete (ID sess) (worker.sessions (workers s)))))
          (Delete (mem s) (registry s) (ID sess))) (ID sess)) (ID sess)) (ID sess),
     ToolJson (JObj [("success", JBool true)]))).
  { unfold closeBinary, Stop. rewrite HGet, Hderef, Hw.
    destruct (alive (os s) (cmd w)); reflexivity. }
  subst s1. rewrite Hclose. simpl.
  set (s0 := set_registry _ _).
  destruct (clearProgress_frame (deleteSessionCache (deleteSessionState s0 (ID sess)) (ID sess)) (ID sess))
    as ((Hm3 & Hr3 & Hw3 & Ho3) & _ & Hc3 & Hs3).
  destruct (deleteSessionCache_frame (deleteSessionState s0 (ID sess)) (ID sess))
    as ((Hm2 & Hr2 & Hw2 & Ho2) & Hc2 & Hs2 & _).
  assert (Hreg : registry (deleteSessionState s0 (ID sess)) = Delete (mem s) (registry s) (ID sess)).
  { unfold deleteSessionState. by destruct (store s0). }
  assert (Hwk : workers (deleteSessionState s0 (ID sess))
                = with_sessions (workers s) (delete (ID sess) (worker.sessions (workers s)))).
  { unfold deleteSessionState. by destruct (store s0). }
  assert (Hos : os (deleteSessionState s0 (ID sess))
                = {| ctxs := cancel (ctxs (os s)) (ctx w);
                     procs := alter mark_dead (cmd w) (procs (os s)) |}).
  { unfold deleteSessionState. by destruct (store s0). }
  assert (Hgone : Get (Delete (mem s) (registry s) (ID sess)) (ID sess) = None).
  { by apply (Delete_Get _ _ _ p). }
  split; [reflexivity|].
  split; [by rewrite Hr3, Hr2, Hreg|].
  split; [rewrite Hw3, Hw2, Hwk; simpl; apply lookup_delete_eq|].
  split.
  { rewrite Ho3, Ho2, Hos. unfold alive. simpl. rewrite lookup_alter_eq.
    by destruct (procs (os s) !! cmd w). }
  split.
  { intros files Hfiles. exists (delete (ID sess) files). split; [|apply lookup_delete_eq].
    rewrite Hs3, Hs2. unfold deleteSessionState.
    replace (store s0) with (Some files) by (symmetry; exact Hfiles). reflexivity. }
  split; [rewrite Hc3; apply deleteSessionCache_gone|].
  split; [by apply clearProgress_gone|].
  intros k. unfold closeBinary. rewrite Hr3, Hr2, Hreg, Hgone. reflexivity.
Qed.

(** Once the handle is gone, [Stop] reports "no worker" and [closeBinary]
    returns before any cleanup: the state is left exactly as it was. *)
Lemma closeBinary_without_handle (s : Server) (sid : string) (p : nat) (sess : Session)
    (k : option string) :
  Get (registry s) sid = Some p ->
  deref (mem s) p = Some sess ->
  worker.sessions (workers s) !! ID sess = None ->
  closeBinary s sid k = (s, ToolErr "close_binary worker stop failed").
Proof.
  intros HGet Hderef Hw. unfold closeBinary, Stop. rewrite HGet, Hderef, Hw.
  destruct s as [m o r wk t st c pr lg]. destruct o, wk. reflexivity.
Qed.

(** C4 at the failing input.  The session of [orphaned_server] is live but
    its worker has died.  [close_binary] is refused with the worker-stop
    error and changes nothing: the session, its metadata file, its cache and
    its progress snapshot are all still there, and a second [close_binary]
    gets the same error, not "session not found".  The watchdog's sweep, on
    the same state, does clean up. *)
Theorem close_after_worker_death_cleans_nothing :
  closeBinary orphaned_server "1f0c9a2e" None
    = (orphaned_server, ToolErr "close_binary worker stop failed")
  /\ snd (closeBinary (fst (closeBinary orphaned_server "1f0c9a2e" None)) "1f0c9a2e" None)
     = ToolErr "close_binary worker stop failed"
  /\ Get (registry orphaned_server) "1f0c9a2e" = Some 0%nat
  /\ (exists files, store orphaned_server = Some files /\ is_Some (files !! "1f0c9a2e"))
  /\ is_Some (cache orphaned_server !! "1f0c9a2e")
  /\ is_Some (progress orphaned_server !! "1f0c9a2e")
  /\ GetClient (workers orphaned_server) "1f0c9a2e" = Err "no worker for session 1f0c9a2e"
  /\ Get (registry (Watchdog_tick orphaned_server 1000 None)) "1f0c9a2e" = None.
Proof.
  assert (H : closeBinary orphaned_server "1f0c9a2e" None
              = (orphaned_server, ToolErr "close_binary worker stop failed")).
  { apply (closeBinary_without_handle orphaned_server "1f0c9a2e" 0%nat
             {| ID := "1f0c9a2e"; BinaryPath := "/tmp/x"; CreatedAt := 100;
                LastActivity := 120; Timeout := 60;
                SocketPath := "/tmp/ida-worker-1f0c9a2e.sock"; WorkerPID := 4242 |});
      reflexivity. }
  split; [exact H|]. rewrite H. simpl. split; [by rewrite H|].
  split; [reflexivity|].
  split; [eexists; split; [reflexivity|]; vm_compute; eauto|].
  split; [vm_compute; eauto|]. split; [vm_compute; eauto|].
  split; reflexivity.
Qed.

Example close_live_session_twice :
  snd (closeBinary cached_server "1f0c9a2e" None) = ToolJson (JObj [("success", JBool true)])
  /\ snd (closeBinary (fst (closeBinary cached_server "1f0c9a2e" None)) "1f0c9a2e" None)
     = ToolErr "session not found: 1f0c9a2e".
Proof. split; reflexivity. Qed.

(** ** Worker lifetime *)

Lemma no_contexts_wf : contexts_wf no_contexts.
Proof.
  unfold contexts_wf, no_contexts. simpl. split; [lia|]. split.
  - intros id H. set_solver.
  - intros id par H. by rewrite lookup_empty in H.
Qed.

Lemma WithCancel_wf c par : contexts_wf c -> contexts_wf (snd (WithCancel c par)).
Proof.
  intros (Hn & Hc & Hp). unfold contexts_wf, WithCancel. simpl. split; [lia|]. split.
  - intros id H. specialize (Hc id H). lia.
  - intros id q H. destruct (decide (id = next_ctx c)) as [->|Hne]; [lia|].
    rewrite lookup_insert_ne in H by done. eauto.
Qed.

Lemma cancel_wf c id : contexts_wf c -> (id < next_ctx c)%nat -> contexts_wf (cancel c id).
Proof.
  intros (Hn & Hc & Hp) Hid. unfold cancel.
  case_bool_decide as Hb; [exact (conj Hn (conj Hc Hp))|].
  unfold contexts_wf. simpl. split; [lia|]. split; [|exact Hp].
  intros j Hj. apply elem_of_union in Hj as [Hj|Hj]; [|by apply Hc].
  apply elem_of_singleton in Hj as ->. unfold Background in Hb. lia.
Qed.



(** ** The registry *)

Lemma same_identity_refl h : same_identity h h.
Proof. by split. Qed.

Lemma same_identity_trans h1 h2 h3 :
  same_identity h1 h2 -> same_identity h2 h3 -> same_identity h1 h3.
Proof. intros [? H1] [? H2]. split; [congruence|]. intros p. by rewrite H2, H1. Qed.

Lemma same_identity_deref h h' p sess :
  same_identity h h' -> deref h p = Some sess ->
  exists sess', deref h' p = Some sess' /\ ID sess' = ID sess /\
                BinaryPath sess' = BinaryPath sess /\ CreatedAt sess' = CreatedAt sess.
Proof.
  intros [_ H] Hd. specialize (H p). rewrite Hd in H.
  destruct (deref h' p) as [sess'|]; [|discriminate].
  exists sess'. simpl in H. unfold identity_of in H. injection H as ? ? ?. by repeat split.
Qed.

Lemma same_identity_sym h h' : same_identity h h' -> same_identity h' h.
Proof. intros [? H]. split; [congruence|]. intros p. by rewrite H. Qed.

Lemma alter_same_identity h f p :
  (forall s, identity_of (f s) = identity_of s) ->
  same_identity h {| objs := alter f p (objs h); next_addr := next_addr h |}.
Proof.
  intros Hf. split; [reflexivity|]. intros q. unfold deref. simpl.
  destruct (decide (p = q)) as [->|Hne].
  - rewrite lookup_alter_eq. destruct (objs h !! q); simpl; [by rewrite Hf|done].
  - by rewrite lookup_alter_ne.
Qed.

Lemma Touch_same_identity h p now : same_identity h (Touch h p now).
Proof. by apply alter_same_identity. Qed.

Lemma reg_inv_same_identity h h' r : same_identity h h' -> reg_inv h r -> reg_inv h' r.
Proof.
  intros Hsame (H1 & H2 & H3). split; [|split].
  - intros id p Hp. destruct (H1 id p Hp) as (sess & Hd & Hid & Hb).
    destruct (same_identity_deref _ _ _ _ Hsame Hd) as (sess' & Hd' & Hid' & Hb' & _).
    exists sess'. rewrite Hid', Hb'. by repeat split.
  - intros path p Hp. destruct (H2 path p Hp) as (sess & Hd & Hb & Hid).
    destruct (same_identity_deref _ _ _ _ Hsame Hd) as (sess' & Hd' & Hid' & Hb' & _).
    exists sess'. rewrite Hid', Hb'. by repeat split.
  - intros p [sess' Hd'].
    destruct (same_identity_deref _ _ _ _ (same_identity_sym _ _ Hsame) Hd') as (sess & Hd & _).
    destruct Hsame as [-> _]. apply H3. eauto.
Qed.

Lemma reg_inv_empty n : reg_inv empty_heap (NewRegistry n).
Proof.
  split; [|split].
  - intros id p H. simpl in H. by rewrite lookup_empty in H.
  - intros path p H. simpl in H. by rewrite lookup_empty in H.
  - intros p [sess H]. unfold deref, empty_heap in H. simpl in H. by rewrite lookup_empty in H.
Qed.

Lemma reg_inv_unique h r : reg_inv h r -> one_session_per_path h r.
Proof.
  intros (H1 & H2 & _) id1 id2 p1 p2 s1 s2 Hs1 Hs2 Hd1 Hd2 Hpath.
  destruct (H1 _ _ Hs1) as (s1' & Hd1' & Hid1 & Hb1).
  destruct (H1 _ _ Hs2) as (s2' & Hd2' & Hid2 & Hb2).
  rewrite Hd1 in Hd1'. injection Hd1' as <-.
  rewrite Hd2 in Hd2'. injection Hd2' as <-.
  rewrite Hpath, Hb2 in Hb1. injection Hb1 as ->.
  rewrite Hd1 in Hd2. injection Hd2 as ->. congruence.
Qed.

Lemma reg_inv_Delete h r id : reg_inv h r -> reg_inv h (Delete h r id).
Proof.
  intros Hinv. pose proof Hinv as (H1 & H2 & H3). unfold Delete.
  destruct (session.sessions r !! id) as [p|] eqn:Hp; [|exact Hinv].
  destruct (deref h p) as [sess|] eqn:Hd; [|exact Hinv].
  destruct (H1 _ _ Hp) as (sess' & Hd' & Hid & Hb).
  rewrite Hd in Hd'. injection Hd' as <-.
  split; [|split; [|exact H3]]; simpl.
  - intros id' p' Hp'.
    destruct (decide (id = id')) as [->|Hne]; [by rewrite lookup_delete_eq in Hp'|].
    rewrite lookup_delete_ne in Hp' by done.
    destruct (H1 _ _ Hp') as (s' & Hd' & Hid' & Hb').
    exists s'. split; [done|]. split; [done|].
    rewrite lookup_delete_ne; [done|].
    intros Heq. rewrite <- Heq, Hb in Hb'. injection Hb' as <-.
    rewrite Hd in Hd'. injection Hd' as <-. congruence.
  - intros path p' Hp'.
    destruct (decide (BinaryPath sess = path)) as [<-|Hne]; [by rewrite lookup_delete_eq in Hp'|].
    rewrite lookup_delete_ne in Hp' by done.
    destruct (H2 _ _ Hp') as (s' & Hd' & Hb' & Hid').
    exists s'. split; [done|]. split; [done|].
    rewrite lookup_delete_ne; [done|].
    intros Heq. rewrite <- Heq, Hp in Hid'. injection Hid' as <-.
    rewrite Hd in Hd'. injection Hd' as <-. congruence.
Qed.

(** Registering a freshly allocated session under an id and a path that are
    both unused keeps the indices consistent. *)
Lemma reg_inv_register h r sess :
  reg_inv h r ->
  session.sessions r !! ID sess = None ->
  binaryIndex r !! BinaryPath sess = None ->
  reg_inv (snd (alloc h sess))
          {| session.sessions := <[ID sess := next_addr h]> (session.sessions r);
             binaryIndex := <[BinaryPath sess := next_addr h]> (binaryIndex r);
             maxSessions := maxSessions r |}.
Proof.
  intros (H1 & H2 & H3) Hid Hpath.
  assert (Hnew : deref h (next_addr h) = None).
  { destruct (deref h (next_addr h)) eqn:E; [|done].
    assert (next_addr h < next_addr h)%nat by (apply H3; eauto). lia. }
  assert (Hold : forall p s0, deref h p = Some s0 -> deref (snd (alloc h sess)) p = Some s0).
  { intros p s0 Hd. unfold deref, alloc. simpl. rewrite lookup_insert_ne; [exact Hd|].
    intros <-. rewrite Hd in Hnew. discriminate. }
  split; [|split]; simpl.
  - intros id p Hp. destruct (decide (ID sess = id)) as [<-|Hne].
    + rewrite lookup_insert_eq in Hp. injection Hp as <-.
      exists sess. unfold deref. simpl. by rewrite !lookup_insert_eq.
    + rewrite lookup_insert_ne in Hp by done.
      destruct (H1 _ _ Hp) as (s0 & Hd & Hid0 & Hb0).
      exists s0. split; [by apply Hold|]. split; [done|].
      rewrite lookup_insert_ne; [done|]. intros Heq. rewrite Heq in Hpath. congruence.
  - intros path p Hp. destruct (decide (BinaryPath sess = path)) as [<-|Hne].
    + rewrite lookup_insert_eq in Hp. injection Hp as <-.
      exists sess. unfold deref. simpl. by rewrite !lookup_insert_eq.
    + rewrite lookup_insert_ne in Hp by done.
      destruct (H2 _ _ Hp) as (s0 & Hd & Hb0 & Hid0).
      exists s0. split; [by apply Hold|]. split; [done|].
      rewrite lookup_insert_ne; [done|]. intros Heq. rewrite Heq in Hid. congruence.
  - intros p [s0 Hd]. unfold deref in Hd. simpl in Hd.
    destruct (decide (next_addr h = p)) as [<-|Hne]; [lia|].
    rewrite lookup_insert_ne in Hd by done.
    assert (p < next_addr h)%nat by (apply H3; eauto). lia.
Qed.

Lemma reg_inv_Create h r path t f :
  reg_inv h r ->
  FindByBinaryPath r path = None ->
  session.sessions r !! uuid_id f = None ->
  reg_inv (snd (fst (Create h r path t f))) (snd (Create h r path t f)).
Proof.
  intros Hinv Hfind Hid. unfold Create.
  destruct (Z.of_nat (size (session.sessions r)) >=? maxSessions r); [exact Hinv|].
  simpl. by apply (reg_inv_register h r
    {| ID := uuid_id f; BinaryPath := filepath.Clean path; CreatedAt := now_created f;
       LastActivity := now_activity f; Timeout := t;
       SocketPath := socket_path (uuid_sock f); WorkerPID := 0 |}).
Qed.

Lemma reg_inv_Restore h r meta sock :
  reg_inv h r ->
  FindByBinaryPath r (m_BinaryPath meta) = None ->
  reg_inv (snd (fst (Restore h r meta sock))) (snd (Restore h r meta sock)).
Proof.
  intros Hinv Hfind. unfold Restore.
  destruct (Z.of_nat (size (session.sessions r)) >=? maxSessions r); [exact Hinv|].
  case_bool_decide as Hex; [exact Hinv|].
  simpl. apply (reg_inv_register h r
    {| ID := m_ID meta; BinaryPath := filepath.Clean (m_BinaryPath meta);
       CreatedAt := m_CreatedAt meta; LastActivity := m_LastActivity meta;
       Timeout := m_Timeout meta; SocketPath := socket_path sock; WorkerPID := 0 |});
    [exact Hinv | | exact Hfind].
  simpl. destruct (session.sessions r !! m_ID meta) eqn:E; [|done].
  exfalso. apply Hex. eauto.
Qed.

(** ** Projections through the bookkeeping operations *)

Lemma persistSession_frame s sess :
  same_sessions s (persistSession s sess)
  /\ logger (persistSession s sess) = logger s
  /\ cache (persistSession s sess) = cache s.
Proof. unfold persistSession. destruct (store s); by repeat split. Qed.

Lemma deleteSessionState_frame s sid :
  same_sessions s (deleteSessionState s sid)
  /\ logger (deleteSessionState s sid) = logger s
  /\ cache (deleteSessionState s sid) = cache s.
Proof. unfold deleteSessionState. destruct (store s); by repeat split. Qed.

Lemma recordProgress_mem s sid st msg a b now : mem (recordProgress s sid st msg a b now) = mem s.
Proof. by destruct (recordProgress_frame s sid st msg a b now) as ((H & _ & _ & _) & _). Qed.

Lemma recordProgress_registry s sid st msg a b now : registry (recordProgress s sid st msg a b now) = registry s.
Proof. by destruct (recordProgress_frame s sid st msg a b now) as ((_ & H & _ & _) & _). Qed.

Lemma recordProgress_workers s sid st msg a b now : workers (recordProgress s sid st msg a b now) = workers s.
Proof. by destruct (recordProgress_frame s sid st msg a b now) as ((_ & _ & H & _) & _). Qed.

Lemma recordProgress_os s sid st msg a b now : os (recordProgress s sid st msg a b now) = os s.
Proof. by destruct (recordProgress_frame s sid st msg a b now) as ((_ & _ & _ & H) & _). Qed.

Lemma emitProgress_mem s rs sid st msg a b now : mem (emitProgress s rs sid st msg a b now) = mem s.
Proof. by destruct (emitProgress_frame s rs sid st msg a b now) as ((H & _ & _ & _) & _). Qed.

Lemma emitProgress_registry s rs sid st msg a b now : registry (emitProgress s rs sid st msg a b now) = registry s.
Proof. by destruct (emitProgress_frame s rs sid st msg a b now) as ((_ & H & _ & _) & _). Qed.

Lemma emitProgress_workers s rs sid st msg a b now : workers (emitProgress s rs sid st msg a b now) = workers s.
Proof. by destruct (emitProgress_frame s rs sid st msg a b now) as ((_ & _ & H & _) & _). Qed.

Lemma emitProgress_os s rs sid st msg a b now : os (emitProgress s rs sid st msg a b now) = os s.
Proof. by destruct (emitProgress_frame s rs sid st msg a b now) as ((_ & _ & _ & H) & _). Qed.

Lemma clearProgress_mem s sid : mem (clearProgress s sid) = mem s.
Proof. by destruct (clearProgress_frame s sid) as ((H & _ & _ & _) & _). Qed.

Lemma clearProgress_registry s sid : registry (clearProgress s sid) = registry s.
Proof. by destruct (clearProgress_frame s sid) as ((_ & H & _ & _) & _). Qed.

Lemma clearProgress_workers s sid : workers (clearProgress s sid) = workers s.
Proof. by destruct (clearProgress_frame s sid) as ((_ & _ & H & _) & _). Qed.

Lemma clearProgress_os s sid : os (clearProgress s sid) = os s.
Proof. by destruct (clearProgress_frame s sid) as ((_ & _ & _ & H) & _). Qed.

Lemma deleteSessionCache_mem s sid : mem (deleteSessionCache s sid) = mem s.
Proof. by destruct (deleteSessionCache_frame s sid) as ((H & _ & _ & _) & _). Qed.

Lemma deleteSessionCache_registry s sid : registry (deleteSessionCache s sid) = registry s.
Proof. by destruct (deleteSessionCache_frame s sid) as ((_ & H & _ & _) & _). Qed.

Lemma deleteSessionCache_workers s sid : workers (deleteSessionCache s sid) = workers s.
Proof. by destruct (deleteSessionCache_frame s sid) as ((_ & _ & H & _) & _). Qed.

Lemma deleteSessionCache_os s sid : os (deleteSessionCache s sid) = os s.
Proof. by destruct (deleteSessionCache_frame s sid) as ((_ & _ & _ & H) & _). Qed.

Lemma persistSession_mem s sess : mem (persistSession s sess) = mem s.
Proof. by destruct (persistSession_frame s sess) as ((H & _ & _ & _) & _). Qed.

Lemma persistSession_registry s sess : registry (persistSession s sess) = registry s.
Proof. by destruct (persistSession_frame s sess) as ((_ & H & _ & _) & _). Qed.

Lemma persistSession_workers s sess : workers (persistSession s sess) = workers s.
Proof. by destruct (persistSession_frame s sess) as ((_ & _ & H & _) & _). Qed.

Lemma persistSession_os s sess : os (persistSession s sess) = os s.
Proof. by destruct (persistSession_frame s sess) as ((_ & _ & _ & H) & _). Qed.

Lemma deleteSessionState_mem s sid : mem (deleteSessionState s sid) = mem s.
Proof. by destruct (deleteSessionState_frame s sid) as ((H & _ & _ & _) & _). Qed.

Lemma deleteSessionState_registry s sid : registry (deleteSessionState s sid) = registry s.
Proof. by destruct (deleteSessionState_frame s sid) as ((_ & H & _ & _) & _). Qed.

Lemma deleteSessionState_workers s sid : workers (deleteSessionState s sid) = workers s.
Proof. by destruct (deleteSessionState_frame s sid) as ((_ & _ & H & _) & _). Qed.

Lemma deleteSessionState_os s sid : os (deleteSessionState s sid) = os s.
Proof. by destruct (deleteSessionState_frame s sid) as ((_ & _ & _ & H) & _). Qed.

Create Rewrite HintDb frame.

#[local] Hint Rewrite
  recordProgress_mem
  recordProgress_registry
  recordProgress_workers
  recordProgress_os
  emitProgress_mem
  emitProgress_registry
  emitProgress_workers
  emitProgress_os
  clearProgress_mem
  clearProgress_registry
  clearProgress_workers
  clearProgress_os
  deleteSessionCache_mem
  deleteSessionCache_registry
  deleteSessionCache_workers
  deleteSessionCache_os
  persistSession_mem
  persistSession_registry
  persistSession_workers
  persistSession_os
  deleteSessionState_mem
  deleteSessionState_registry
  deleteSessionState_workers
  deleteSessionState_os
  : frame.

#[local] Arguments recordProgress : simpl never.
#[local] Arguments emitProgress : simpl never.
#[local] Arguments clearProgress : simpl never.
#[local] Arguments deleteSessionCache : simpl never.
#[local] Arguments persistSession : simpl never.
#[local] Arguments deleteSessionState : simpl never.
#[local] Arguments fetchInfo : simpl never.

Ltac frame_simpl :=
  repeat progress
    (cbn [fst snd]; autorewrite with frame;
     cbn [fst snd mem registry workers os cache store progress logger sessionTimeout al_server
          worker.starts worker.sessions with_sessions count_start objs next_addr
          set_mem set_os set_registry set_workers set_store set_cache set_progress printf]).

Ltac quiet_finish :=
  unfold quiet; frame_simpl;
  repeat split; try reflexivity;
  first [ apply same_identity_refl | apply Touch_same_identity ].

Lemma fetchInfo_fold_mem sid start ticks st :
  mem (al_server (fold_left (fetchInfo sid start) ticks st)) = mem (al_server st).
Proof. by destruct (fetchInfo_fold_frame sid start ticks st) as (H & _). Qed.

Lemma fetchInfo_fold_registry sid start ticks st :
  registry (al_server (fold_left (fetchInfo sid start) ticks st)) = registry (al_server st).
Proof. by destruct (fetchInfo_fold_frame sid start ticks st) as (_ & H & _). Qed.

Lemma fetchInfo_fold_workers sid start ticks st :
  workers (al_server (fold_left (fetchInfo sid start) ticks st)) = workers (al_server st).
Proof. by destruct (fetchInfo_fold_frame sid start ticks st) as (_ & _ & H & _). Qed.

Lemma fetchInfo_mem sid start st t : mem (al_server (fetchInfo sid start st t)) = mem (al_server st).
Proof. by destruct (fetchInfo_frame sid start st t) as (H & _). Qed.

Lemma fetchInfo_registry sid start st t :
  registry (al_server (fetchInfo sid start st t)) = registry (al_server st).
Proof. by destruct (fetchInfo_frame sid start st t) as (_ & H & _). Qed.

Lemma fetchInfo_workers sid start st t :
  workers (al_server (fetchInfo sid start st t)) = workers (al_server st).
Proof. by destruct (fetchInfo_frame sid start st t) as (_ & _ & H & _). Qed.

#[local] Hint Rewrite
  fetchInfo_fold_mem fetchInfo_fold_registry fetchInfo_fold_workers
  fetchInfo_mem fetchInfo_registry fetchInfo_workers
  : frame.

(** ** Tools that leave the sessions alone *)

Lemma listSessions_quiet s since : quiet s (fst (listSessions s since)).
Proof. unfold listSessions. simpl. quiet_finish. Qed.

Lemma saveDatabase_quiet s sid rpc now : quiet s (fst (saveDatabase s sid rpc now)).
Proof.
  unfold saveDatabase.
  destruct (Get (registry s) sid) as [p|]; [|quiet_finish]. simpl.
  destruct (deref (Touch (mem s) p now) p) as [sess|]; [|quiet_finish].
  destruct (GetClient (workers s) (ID sess)); [quiet_finish|].
  destruct rpc; quiet_finish.
Qed.

Lemma makeFunction_quiet s sid addr rpc now : quiet s (fst (makeFunction s sid addr rpc now)).
Proof.
  unfold makeFunction.
  destruct (Get (registry s) sid) as [p|]; [|quiet_finish]. simpl.
  destruct (deref (Touch (mem s) p now) p) as [sess|]; [|quiet_finish].
  destruct (GetClient (workers s) (ID sess)); [quiet_finish|].
  destruct rpc as [e|resp]; [quiet_finish|].
  destruct (negb (String.eqb (mf_Error resp) "")); [quiet_finish|].
  destruct (mf_Success resp); quiet_finish.
Qed.

Lemma runAutoAnalysis_quiet s sid e : quiet s (fst (runAutoAnalysis s sid e)).
Proof.
  unfold runAutoAnalysis.
  destruct (Get (registry s) sid) as [p|]; [|quiet_finish]. simpl.
  destruct (deref (Touch (mem s) p (ra_now e)) p) as [sess|]; [|quiet_finish].
  destruct (GetClient (workers s) (ID sess)); [quiet_finish|].
  destruct (ra_end e); quiet_finish.
Qed.

Lemma listTool_quiet {A} (k : ListKind A) R L s args loader now :
  quiet s (fst (listTool R L k s args loader now)).
Proof.
  unfold listTool.
  destruct (Get (registry s) (a_SessionID args)) as [p|]; [|quiet_finish]. simpl.
  destruct (deref (Touch (mem s) p now) p) as [sess|]; [|quiet_finish].
  destruct (GetClient (workers s) (ID sess)); [quiet_finish|].
  unfold getSessionCache. simpl.
  destruct (cache s !! ID sess) as [c|]; unfold load;
    (destruct (negb (is_nil (k_get k _))); simpl;
     [ destruct (filterItems R L k args _) as [?|[?|]]; quiet_finish
     | destruct loader as [[[?|d] em]|]; simpl;
       [ quiet_finish
       | destruct (filterItems R L k args d) as [?|[?|]]; quiet_finish
       | quiet_finish ] ]).
Qed.

(** ** open_binary and close_binary on the registry *)

Lemma closeBinary_reg_inv s sid k :
  reg_inv (mem s) (registry s) ->
  reg_inv (mem (fst (closeBinary s sid k))) (registry (fst (closeBinary s sid k))).
Proof.
  intros Hinv. unfold closeBinary.
  destruct (Get (registry s) sid) as [p|]; [|exact Hinv].
  destruct (deref (mem s) p) as [sess|]; [|exact Hinv].
  unfold Stop.
  destruct (worker.sessions (workers s) !! ID sess) as [w|]; [|exact Hinv].
  destruct (if alive (os s) (cmd w) then k else None); frame_simpl; [exact Hinv|].
  by apply reg_inv_Delete.
Qed.

Lemma openBinary_reuse_quiet s rctx path e p :
  FindByBinaryPath (registry s) path = Some p ->
  quiet s (fst (openBinary s rctx path e)).
Proof.
  intros Hfind. unfold openBinary. rewrite Hfind.
  destruct (deref (mem s) p); quiet_finish.
Qed.

Lemma deref_insert m n p v : deref {| objs := <[p:=v]> m; next_addr := n |} p = Some v.
Proof. unfold deref. simpl. apply lookup_insert_eq. Qed.

Lemma deref_alter_insert m n p v f :
  deref {| objs := alter f p (<[p:=v]> m); next_addr := n |} p = Some (f v).
Proof. unfold deref. simpl. by rewrite lookup_alter_eq, lookup_insert_eq. Qed.

Lemma with_WorkerPID_identity pid sess : identity_of (with_WorkerPID pid sess) = identity_of sess.
Proof. reflexivity. Qed.

(** A first [open_binary] of a path: either the registry is full and
    nothing changes, or a session is created and a worker start is counted;
    the session then stays registered exactly when the call succeeds. *)
Lemma openBinary_new_effect s rctx path e :
  FindByBinaryPath (registry s) path = None ->
  let sess := created_session path (sessionTimeout s) (o_fresh e) in
  let p := next_addr (mem s) in
  let s' := fst (openBinary s rctx path e) in
  let r := snd (openBinary s rctx path e) in
  (s' = s /\ exists msg, r = ToolErr msg)
  \/ (same_identity (snd (alloc (mem s) sess)) (mem s')
      /\ worker.starts (workers s')
         = <[path := S (StartCount (workers s) path)]> (worker.starts (workers s))
      /\ ((registry s' = registered (registry s) p sess /\ exists j, r = ToolJson j)
          \/ (registry s' = Delete (mem s') (registered (registry s) p sess) (ID sess)
              /\ exists msg, r = ToolErr msg))).
Proof.
  intros Hfind sess p s' r. subst s' r.
  unfold openBinary. rewrite Hfind. unfold Create.
  destruct (Z.of_nat (size (session.sessions (registry s))) >=? maxSessions (registry s)).
  { left. split; [reflexivity|eauto]. }
  right. cbn [alloc fst snd]. fold sess. fold p.
  unfold Start. frame_simpl. rewrite !deref_insert.
  destruct (remove_ok (o_start e)); cbn [negb].
  2:{ unfold abandon. frame_simpl.
      split; [apply same_identity_refl|]. split; [reflexivity|]. right. split; [reflexivity|eauto]. }
  cbn [WithCancel].
  destruct (spawn (o_start e)) as [pid|].
  2:{ unfold abandon. frame_simpl.
      split; [apply same_identity_refl|]. split; [reflexivity|]. right. split; [reflexivity|eauto]. }
  destruct (socket_ready (o_start e)); cbn [negb].
  2:{ unfold abandon. frame_simpl.
      split; [apply alter_same_identity, with_WorkerPID_identity|].
      split; [reflexivity|]. right. split; [reflexivity|eauto]. }
  frame_simpl. unfold GetClient. cbn [worker.sessions with_sessions ID sess created_session].
  rewrite lookup_insert_eq.
  assert (Hab : forall s0 k,
            mem s0 = {| objs := alter (with_WorkerPID pid) p (<[p:=sess]> (objs (mem s)));
                        next_addr := S p |} ->
            registry s0 = registered (registry s) p sess ->
            worker.starts (workers s0)
              = <[path := S (StartCount (workers s) path)]> (worker.starts (workers s)) ->
            same_identity {| objs := <[p:=sess]> (objs (mem s)); next_addr := S p |}
                          (mem (abandon s0 (uuid_id (o_fresh e)) true k))
            /\ worker.starts (workers (abandon s0 (uuid_id (o_fresh e)) true k))
               = <[path := S (StartCount (workers s) path)]> (worker.starts (workers s))
            /\ registry (abandon s0 (uuid_id (o_fresh e)) true k)
               = Delete (mem (abandon s0 (uuid_id (o_fresh e)) true k))
                        (registered (registry s) p sess) (uuid_id (o_fresh e))).
  { intros s0 k Hm Hr Hs. unfold abandon, Stop.
    destruct (worker.sessions (workers s0) !! uuid_id (o_fresh e)) as [w|];
      [destruct (if alive (os s0) (cmd w) then k else None)|];
      frame_simpl; rewrite ?Hm, ?Hr, ?Hs;
      (split; [apply alter_same_identity, with_WorkerPID_identity|]);
      split; reflexivity. }
  destruct (o_open e) as [err|resp].
  { edestruct Hab as (H1 & H2 & H3); [| | |split; [exact H1|split; [exact H2|right; split; [exact H3|eauto]]]];
      frame_simpl; reflexivity. }
  destruct (ob_Success resp); cbn [negb].
  2:{ edestruct Hab as (H1 & H2 & H3); [| | |split; [exact H1|split; [exact H2|right; split; [exact H3|eauto]]]];
      frame_simpl; reflexivity. }
  frame_simpl. rewrite !deref_alter_insert. frame_simpl.
  split; [apply alter_same_identity, with_WorkerPID_identity|].
  split; [reflexivity|]. left. split; [reflexivity|eauto].
Qed.

(** ** One session per binary *)

Lemma quiet_reg_inv s s' :
  quiet s s' -> reg_inv (mem s) (registry s) -> reg_inv (mem s') (registry s').
Proof. intros (-> & _ & Hm). by apply reg_inv_same_identity. Qed.

Lemma non_open_quiet R L s c :
  is_close c = false -> (forall rctx path e, c <> open_binary rctx path e) ->
  quiet s (fst (callTool R L s c)).
Proof.
  intros Hc Ho. destruct c; try discriminate; cbn [callTool].
  - by destruct (Ho rctx path e).
  - apply listSessions_quiet.
  - apply saveDatabase_quiet.
  - apply runAutoAnalysis_quiet.
  - apply makeFunction_quiet.
  - apply listTool_quiet.
  - apply listTool_quiet.
  - apply listTool_quiet.
  - apply listTool_quiet.
Qed.

Lemma openBinary_reg_inv s rctx path e :
  reg_inv (mem s) (registry s) ->
  session.sessions (registry s) !! uuid_id (o_fresh e) = None ->
  reg_inv (mem (fst (openBinary s rctx path e))) (registry (fst (openBinary s rctx path e))).
Proof.
  intros Hinv Hfresh.
  destruct (FindByBinaryPath (registry s) path) as [p|] eqn:Hfind.
  { eapply quiet_reg_inv; [by eapply openBinary_reuse_quiet | exact Hinv]. }
  destruct (openBinary_new_effect s rctx path e Hfind) as [[-> _] | (Hm & _ & Hr)]; [exact Hinv|].
  assert (Hreg : reg_inv (mem (fst (openBinary s rctx path e)))
                   (registered (registry s) (next_addr (mem s))
                      (created_session path (sessionTimeout s) (o_fresh e)))).
  { eapply reg_inv_same_identity; [exact Hm|].
    by apply (reg_inv_register (mem s) (registry s)
                (created_session path (sessionTimeout s) (o_fresh e))). }
  destruct Hr as [[-> _] | [-> _]]; [exact Hreg | by apply reg_inv_Delete].
Qed.

Lemma callTool_reg_inv R L s c :
  reg_inv (mem s) (registry s) -> uuid_fresh s c ->
  reg_inv (mem (fst (callTool R L s c))) (registry (fst (callTool R L s c))).
Proof.
  intros Hinv Hfresh. destruct c; cbn [callTool].
  - by apply openBinary_reg_inv.
  - by apply closeBinary_reg_inv.
  - eapply quiet_reg_inv; [apply listSessions_quiet | exact Hinv].
  - eapply quiet_reg_inv; [apply saveDatabase_quiet | exact Hinv].
  - eapply quiet_reg_inv; [apply runAutoAnalysis_quiet | exact Hinv].
  - eapply quiet_reg_inv; [apply makeFunction_quiet | exact Hinv].
  - eapply quiet_reg_inv; [apply listTool_quiet | exact Hinv].
  - eapply quiet_reg_inv; [apply listTool_quiet | exact Hinv].
  - eapply quiet_reg_inv; [apply listTool_quiet | exact Hinv].
  - eapply quiet_reg_inv; [apply listTool_quiet | exact Hinv].
Qed.

Lemma tracks_quiet s s' P id created n :
  quiet s s' -> tracks s P id created n -> tracks s' P id created n.
Proof.
  intros (Hr & Hw & Hm) ((p & sess & Hfind & Hd & Hid & Hc) & Hn).
  destruct (same_identity_deref _ _ _ _ Hm Hd) as (sess' & Hd' & Hid' & _ & Hc').
  split; [|by rewrite Hw].
  exists p, sess'. rewrite Hr. repeat split; [done | done | congruence | congruence].
Qed.

Lemma StartCount_insert_ne m path P n :
  path <> P ->
  default 0%nat (<[path := n]> (worker.starts m) !! P) = StartCount m P.
Proof. intros H. unfold StartCount. by rewrite lookup_insert_ne. Qed.

(** An [open_binary] of whatever path leaves the session serving [P], and
    the starts counted for [P], as they are. *)
Lemma tracks_openBinary s rctx path e P id created n :
  reg_inv (mem s) (registry s) ->
  tracks s P id created n ->
  tracks (fst (openBinary s rctx path e)) P id created n.
Proof.
  intros Hinv Ht.
  destruct (FindByBinaryPath (registry s) path) as [q|] eqn:Hfind.
  { eapply tracks_quiet; [by eapply openBinary_reuse_quiet | exact Ht]. }
  destruct (openBinary_new_effect s rctx path e Hfind) as [[-> _] | (Hm & Hs & Hr)]; [exact Ht|].
  destruct Ht as ((p & sess & HfindP & Hd & Hid & Hc) & Hn).
  assert (Hclean : filepath.Clean path <> filepath.Clean P).
  { intros Heq. unfold FindByBinaryPath in *. rewrite Heq in Hfind. congruence. }
  assert (Hpath : path <> P) by congruence.
  destruct Hinv as (_ & _ & H3).
  assert (Hp : p <> next_addr (mem s)).
  { assert (p < next_addr (mem s))%nat by (apply H3; eauto). lia. }
  assert (Hd1 : deref (snd (alloc (mem s) (created_session path (sessionTimeout s) (o_fresh e)))) p
                = Some sess).
  { unfold deref, alloc. simpl. rewrite lookup_insert_ne by done. exact Hd. }
  destruct (same_identity_deref _ _ _ _ Hm Hd1) as (sess' & Hd' & Hid' & _ & Hc').
  assert (Hnew : exists sn, deref (mem (fst (openBinary s rctx path e))) (next_addr (mem s)) = Some sn
                            /\ ID sn = uuid_id (o_fresh e)
                            /\ BinaryPath sn = filepath.Clean path).
  { destruct (same_identity_deref _ _ (next_addr (mem s))
                (created_session path (sessionTimeout s) (o_fresh e)) Hm)
      as (sn & Hsn & Hidn & Hbn & _).
    - unfold deref, alloc. simpl. apply lookup_insert_eq.
    - eauto. }
  split.
  - exists p, sess'. split; [|repeat split; [done | congruence | congruence]].
    unfold FindByBinaryPath in *.
    destruct Hr as [[-> _] | [-> _]].
    + simpl. by rewrite lookup_insert_ne.
    + destruct Hnew as (sn & Hsn & Hidn & Hbn).
      unfold Delete. simpl. rewrite lookup_insert_eq, Hsn. simpl.
      rewrite Hbn, lookup_delete_ne, lookup_insert_ne by done. exact HfindP.
  - unfold StartCount at 1. rewrite Hs. by rewrite StartCount_insert_ne.
Qed.

(** The first successful [open_binary] of [P] makes its new session the one
    serving [P] and counts one start. *)
Lemma tracks_first_open s rctx P e s1 j :
  FindByBinaryPath (registry s) P = None ->
  openBinary s rctx P e = (s1, ToolJson j) ->
  tracks s1 P (uuid_id (o_fresh e)) (now_created (o_fresh e)) (S (StartCount (workers s) P)).
Proof.
  intros Hfind Hopen.
  destruct (openBinary_new_effect s rctx P e Hfind) as [[_ (msg & Hr)] | (Hm & Hs & Hr)].
  { rewrite Hopen in Hr. discriminate. }
  rewrite Hopen in Hm, Hs, Hr. simpl in Hm, Hs, Hr.
  destruct Hr as [[Hr _] | [_ (msg & Hr)]]; [|discriminate].
  destruct (same_identity_deref _ _ (next_addr (mem s))
              (created_session P (sessionTimeout s) (o_fresh e)) Hm)
    as (sn & Hsn & Hidn & _ & Hcn).
  { unfold deref, alloc. simpl. apply lookup_insert_eq. }
  split.
  - exists (next_addr (mem s)), sn. split; [|by repeat split].
    unfold FindByBinaryPath. rewrite Hr. simpl. apply lookup_insert_eq.
  - unfold StartCount at 1. rewrite Hs. by rewrite lookup_insert_eq.
Qed.

Lemma serve_tracks R L cs : forall s P id created n,
  reg_inv (mem s) (registry s) ->
  tracks s P id created n ->
  Forall (fun c => is_close c = false) cs ->
  uuids_fresh R L s cs ->
  reg_inv (mem (fst (serve R L s cs))) (registry (fst (serve R L s cs)))
  /\ tracks (fst (serve R L s cs)) P id created n.
Proof.
  induction cs as [|c cs IH]; intros s P id created n Hinv Ht Hnc Hfr; simpl.
  - by split.
  - inversion Hnc as [|? ? Hc Hcs]; subst. destruct Hfr as [Hf Hfr].
    destruct (callTool R L s c) as [s1 r1] eqn:Hcall.
    destruct (serve R L s1 cs) as [s2 rs] eqn:Hserve. simpl.
    assert (Hinv1 : reg_inv (mem s1) (registry s1)).
    { pose proof (callTool_reg_inv R L s c Hinv Hf) as H. by rewrite Hcall in H. }
    assert (Ht1 : tracks s1 P id created n).
    { destruct c; try discriminate;
        try (eapply tracks_quiet; [|exact Ht];
             pose proof (non_open_quiet R L s _ Hc) as Hq; rewrite Hcall in Hq;
             apply Hq; intros; discriminate).
      simpl in Hcall. pose proof (tracks_openBinary s rctx path e P id created n Hinv Ht) as H.
      by rewrite Hcall in H. }
    simpl in Hfr. rewrite ?Hcall in Hfr. simpl in Hfr.
    specialize (IH s1 P id created n Hinv1 Ht1 Hcs Hfr).
    by rewrite Hserve in IH.
Qed.

Lemma filter_none {A} (P : A -> Prop) `{forall x, Decision (P x)} (l : list A) :
  (forall x, x ∈ l -> ~ P x) -> filter P l = [].
Proof.
  induction l as [|x l IH]; intros Hl; [reflexivity|].
  rewrite filter_cons_False by (apply Hl; left).
  apply IH. intros y Hy. apply Hl. by right.
Qed.

(** Under the registry invariant, [List] holds exactly one session for
    every indexed path. *)
Lemma List_one_for_path h r path p :
  reg_inv h r -> binaryIndex r !! path = Some p ->
  length (filter (fun x => BinaryPath x = path) (List h r)) = 1%nat.
Proof.
  intros Hinv Hidx. pose proof (reg_inv_unique h r Hinv) as Huniq.
  destruct Hinv as (H1 & H2 & _).
  destruct (H2 _ _ Hidx) as (sess & Hd & Hb & Hs).
  unfold List.
  rewrite <- (map_to_list_delete _ _ _ Hs). simpl. rewrite Hd.
  rewrite filter_cons_True by done. simpl. f_equal.
  rewrite filter_none; [reflexivity|].
  intros x Hx Hpx.
  apply list_elem_of_omap in Hx as ([id q] & Hin & Hfx). simpl in Hfx.
  apply elem_of_map_to_list in Hin.
  apply lookup_delete_Some in Hin as [Hne Hq].
  apply Hne. apply (Huniq _ _ _ _ _ _ Hs Hq Hd Hfx). congruence.
Qed.

Section one_session_per_binary.

Variable regexp_Compile : string -> result (string -> bool).
Variable strings_ToLower : string -> string.

(** C1, as the code has it.  The registry's two indices stay consistent,
    and so at most one live session exists per normalized path, from the
    empty registry on, under [Delete], under [Create] and [Restore] when
    they are called for a path that has no live session (neither consults
    the path index itself), and under every tool call that draws a fresh
    uuid.  And once an [open_binary] of a path P without a session has
    succeeded, then after any calls other than [close_binary] (fresh uuids
    again) the session list holds exactly one session for P, every further
    [open_binary] of P answers with the first session's id and
    [reused: true], and one worker start has been counted for P. *)
Theorem open_binary_keeps_one_session_per_binary :
  (forall n, reg_inv empty_heap (NewRegistry n))
  /\ (forall h r, reg_inv h r -> one_session_per_path h r)
  /\ (forall h r id, reg_inv h r -> reg_inv h (Delete h r id))
  /\ (forall h r path t f,
        reg_inv h r -> FindByBinaryPath r path = None ->
        session.sessions r !! uuid_id f = None ->
        reg_inv (snd (fst (Create h r path t f))) (snd (Create h r path t f)))
  /\ (forall h r meta sock,
        reg_inv h r -> FindByBinaryPath r (m_BinaryPath meta) = None ->
        reg_inv (snd (fst (Restore h r meta sock))) (snd (Restore h r meta sock)))
  /\ (forall s c,
        reg_inv (mem s) (registry s) -> uuid_fresh s c ->
        let s' := fst (callTool regexp_Compile strings_ToLower s c) in
        reg_inv (mem s') (registry s'))
  /\ (forall s rctx P e s1 j cs,
        reg_inv (mem s) (registry s) ->
        FindByBinaryPath (registry s) P = None ->
        session.sessions (registry s) !! uuid_id (o_fresh e) = None ->
        openBinary s rctx P e = (s1, ToolJson j) ->
        Forall (fun c => is_close c = false) cs ->
        uuids_fresh regexp_Compile strings_ToLower s1 cs ->
        let s2 := fst (serve regexp_Compile strings_ToLower s1 cs) in
        length (filter (fun x => BinaryPath x = filepath.Clean P)
                       (List (mem s2) (registry s2))) = 1%nat
        /\ (forall rctx2 e2,
              snd (openBinary s2 rctx2 P e2) =
                ToolJson (JObj [("session_id", JStr (uuid_id (o_fresh e)));
                                ("binary_path", JStr (filepath.Clean P));
                                ("has_decompiler", JBool true);
                                ("created_at", JNum (now_created (o_fresh e)));
                                ("reused", JBool true)]))
        /\ StartCount (workers s2) P = S (StartCount (workers s) P)).
Proof.
  split; [exact reg_inv_empty|]. split; [exact reg_inv_unique|].
  split; [exact reg_inv_Delete|]. split; [exact reg_inv_Create|].
  split; [exact reg_inv_Restore|].
  split; [intros s c Hinv Hf; by apply callTool_reg_inv|].
  intros s rctx P e s1 j cs Hinv Hfind Hfresh Hopen Hnc Hfr s2.
  assert (Hinv1 : reg_inv (mem s1) (registry s1)).
  { pose proof (openBinary_reg_inv s rctx P e Hinv Hfresh) as H. by rewrite Hopen in H. }
  pose proof (tracks_first_open s rctx P e s1 j Hfind Hopen) as Ht1.
  destruct (serve_tracks regexp_Compile strings_ToLower cs s1 P _ _ _ Hinv1 Ht1 Hnc Hfr)
    as (Hinv2 & (p & sess & Hf2 & Hd2 & Hid2 & Hc2) & Hn2).
  fold s2 in Hinv2, Hf2, Hd2, Hn2.
  assert (Hpath : BinaryPath sess = filepath.Clean P).
  { destruct Hinv2 as (_ & H2 & _). destruct (H2 _ _ Hf2) as (sess' & Hd' & Hb' & _).
    rewrite Hd2 in Hd'. by injection Hd' as <-. }
  split; [by apply (List_one_for_path _ _ _ p)|]. split; [|exact Hn2].
  intros rctx2 e2. rewrite (openBinary_reuse s2 rctx2 P e2 p sess Hf2 Hd2). simpl.
  by rewrite Hid2, Hpath, Hc2.
Qed.

End one_session_per_binary.

Lemma open_binary_keeps_one_session_per_binary_witness :
  let s2 := fst (serve no_regexp (fun x => x) opened_server busy_calls) in
  length (filter (fun x => BinaryPath x = "/tmp/x") (List (mem s2) (registry s2))) = 1%nat
  /\ snd (openBinary s2 5 "/tmp/x" (sample_open "9d2e7a10" 4245 false)) =
       ToolJson (JObj [("session_id", JStr "1f0c9a2e");
                       ("binary_path", JStr "/tmp/x");
                       ("has_decompiler", JBool true);
                       ("created_at", JNum 100);
                       ("reused", JBool true)])
  /\ StartCount (workers s2) "/tmp/x" = 1%nat.
Proof.
  pose proof (open_binary_keeps_one_session_per_binary no_regexp (fun x => x))
    as (Hempty & _ & _ & _ & _ & _ & Hrun).
  assert (Hopen : exists j,
             openBinary fresh_server 1%nat "/tmp/x" (sample_open "1f0c9a2e" 4242 false)
             = (opened_server, ToolJson j)).
  { eexists. vm_compute. reflexivity. }
  destruct Hopen as [j Hopen].
  assert (Hfind : FindByBinaryPath (registry fresh_server) "/tmp/x" = None)
    by (vm_compute; reflexivity).
  assert (Hid : session.sessions (registry fresh_server)
                  !! uuid_id (o_fresh (sample_open "1f0c9a2e" 4242 false)) = None)
    by (vm_compute; reflexivity).
  assert (Hnc : Forall (fun c => is_close c = false) busy_calls) by (repeat constructor).
  assert (Hfr : uuids_fresh no_regexp (fun x => x) opened_server busy_calls)
    by (vm_compute; repeat split).
  destruct (Hrun fresh_server 1%nat "/tmp/x" (sample_open "1f0c9a2e" 4242 false)
              opened_server j busy_calls (Hempty 4) Hfind Hid Hopen Hnc Hfr)
    as (Hone & Hagain & Hcount).
  split; [exact Hone|]. split; [exact (Hagain 5%nat _)|exact Hcount].
Defined.

(** C1 as stated fails for [Create]: called twice for one path it registers
    two live sessions with that path. *)
Lemma Create_twice_registers_two_sessions :
  length (filter (fun x => BinaryPath x = "/tmp/x")
                 (List (fst created_twice) (snd created_twice))) = 2%nat
  /\ ~ one_session_per_path (fst created_twice) (snd created_twice).
Proof.
  split; [vm_compute; reflexivity|].
  intros H.
  assert (H1 : session.sessions (snd created_twice) !! "1f0c9a2e" = Some 0%nat)
    by (vm_compute; reflexivity).
  assert (H2 : session.sessions (snd created_twice) !! "7b1d44c0" = Some 1%nat)
    by (vm_compute; reflexivity).
  assert (H3 : deref (fst created_twice) 0 = Some (created_session "/tmp/x" 60 first_uuid))
    by (vm_compute; reflexivity).
  assert (H4 : deref (fst created_twice) 1 = Some (created_session "/tmp/x" 60 second_uuid))
    by (vm_compute; reflexivity).
  specialize (H _ _ _ _ _ _ H1 H2 H3 H4 eq_refl).
  discriminate H.
Qed.

(** ** The registry: capacity, lookup, removal

    X1.  A registry that holds at most [maxSessions] sessions still does
    after [Create] and after [Restore]; when it is full, both return an
    error and leave heap and registry as they were. *)
Theorem registry_stays_within_capacity h r :
  Z.of_nat (size (session.sessions r)) <= maxSessions r ->
  (forall path t f,
      Z.of_nat (size (session.sessions (snd (Create h r path t f)))) <= maxSessions r
      /\ maxSessions (snd (Create h r path t f)) = maxSessions r)
  /\ (forall meta sock,
      Z.of_nat (size (session.sessions (snd (Restore h r meta sock)))) <= maxSessions r
      /\ maxSessions (snd (Restore h r meta sock)) = maxSessions r)
  /\ (maxSessions r <= Z.of_nat (size (session.sessions r)) ->
      (forall path t f, exists e, Create h r path t f = (Err e, h, r))
      /\ (forall meta sock, exists e, Restore h r meta sock = (Err e, h, r))).
Proof.
  intros Hle.
  assert (Hins : forall id p, Z.of_nat (size (session.sessions r)) < maxSessions r ->
             Z.of_nat (size (<[id := p]> (session.sessions r))) <= maxSessions r).
  { intros id p Hlt. destruct (session.sessions r !! id) as [q|] eqn:Hq.
    - rewrite map_size_insert_Some by eauto. lia.
    - rewrite map_size_insert_None by done. lia. }
  split; [|split].
  - intros path t f. unfold Create.
    destruct (Z.geb_spec (Z.of_nat (size (session.sessions r))) (maxSessions r)); simpl.
    + done.
    + split; [apply Hins; lia|done].
  - intros meta sock. unfold Restore.
    destruct (Z.geb_spec (Z.of_nat (size (session.sessions r))) (maxSessions r)); simpl.
    + done.
    + case_bool_decide; simpl; [done|]. split; [apply Hins; lia|done].
  - intros Hfull. split.
    + intros path t f. unfold Create.
      destruct (Z.geb_spec (Z.of_nat (size (session.sessions r))) (maxSessions r)); [by eexists|lia].
    + intros meta sock. unfold Restore.
      destruct (Z.geb_spec (Z.of_nat (size (session.sessions r))) (maxSessions r)); [by eexists|lia].
Qed.

Lemma registry_stays_within_capacity_witness :
  Z.of_nat (size (session.sessions (snd (Create empty_heap (NewRegistry 1) "/tmp/x" 60 first_uuid)))) <= 1
  /\ exists e, Create (snd (fst one_created)) (NewRegistry 0) "/tmp/y" 60 second_uuid
     = (Err e, snd (fst one_created), NewRegistry 0).
Proof.
  assert (H1 : Z.of_nat (size (session.sessions (NewRegistry 1))) <= maxSessions (NewRegistry 1))
    by (vm_compute; discriminate).
  assert (H0 : Z.of_nat (size (session.sessions (NewRegistry 0))) <= maxSessions (NewRegistry 0))
    by (vm_compute; discriminate).
  assert (Hfull : maxSessions (NewRegistry 0) <= Z.of_nat (size (session.sessions (NewRegistry 0))))
    by (vm_compute; discriminate).
  split.
  - exact (proj1 (proj1 (registry_stays_within_capacity empty_heap (NewRegistry 1) H1)
                    "/tmp/x" 60 first_uuid)).
  - exact (proj1 (proj2 (proj2 (registry_stays_within_capacity (snd (fst one_created))
                                  (NewRegistry 0) H0)) Hfull) "/tmp/y" 60 second_uuid).
Defined.

(** X2.  After a successful [Create] the new session is found by [Get]
    under its id and by [FindByBinaryPath] under every spelling of the path
    that [filepath.Clean] maps to the same normalized path; the sessions
    registered before are found as before. *)
Theorem Create_then_lookup h r path t f p h' r' :
  Create h r path t f = (Ok p, h', r') ->
  Get r' (uuid_id f) = Some p
  /\ (forall path', filepath.Clean path' = filepath.Clean path ->
        FindByBinaryPath r' path' = Some p)
  /\ deref h' p = Some (created_session path t f)
  /\ (forall q, q <> p -> deref h' q = deref h q)
  /\ (forall id, id <> uuid_id f -> Get r' id = Get r id)
  /\ (forall path', filepath.Clean path' <> filepath.Clean path ->
        FindByBinaryPath r' path' = FindByBinaryPath r path').
Proof.
  unfold Create.
  destruct (Z.of_nat (size (session.sessions r)) >=? maxSessions r); [discriminate|].
  simpl. intros H. injection H as <- <- <-.
  unfold Get, FindByBinaryPath, deref. simpl. repeat split.
  - by rewrite lookup_insert_eq.
  - intros path' ->. by rewrite lookup_insert_eq.
  - by rewrite lookup_insert_eq.
  - intros q Hq. by rewrite lookup_insert_ne.
  - intros id Hid. by rewrite lookup_insert_ne.
  - intros path' Hp. by rewrite lookup_insert_ne.
Qed.

Lemma Create_then_lookup_witness :
  Get (snd one_created) "1f0c9a2e" = Some 0%nat
  /\ FindByBinaryPath (snd one_created) "/tmp/./x" = Some 0%nat.
Proof.
  assert (H : Create empty_heap (NewRegistry 4) "/tmp/x" 60 first_uuid
              = (Ok 0%nat, snd (fst one_created), snd one_created))
    by (vm_compute; reflexivity).
  destruct (Create_then_lookup _ _ _ _ _ _ _ _ H) as (Hg & Hf & _).
  split; [exact Hg|]. apply Hf. vm_compute. reflexivity.
Defined.

(** X3.  [Delete] removes a registered session from both indices: [Get]
    no longer finds its id, [FindByBinaryPath] no longer finds its path,
    every other session is found as before, and deleting again changes
    nothing. *)
Theorem Delete_forgets_session h r id p sess :
  reg_inv h r -> Get r id = Some p -> deref h p = Some sess ->
  Get (Delete h r id) id = None
  /\ (forall path, filepath.Clean path = BinaryPath sess ->
        FindByBinaryPath (Delete h r id) path = None)
  /\ (forall id', id' <> id -> Get (Delete h r id) id' = Get r id')
  /\ (forall path q, FindByBinaryPath r path = Some q -> q <> p ->
        FindByBinaryPath (Delete h r id) path = Some q)
  /\ Delete h (Delete h r id) id = Delete h r id.
Proof.
  intros (H1 & H2 & _) Hg Hd. unfold Get in Hg.
  assert (HD : Delete h r id = {| session.sessions := delete id (session.sessions r);
                                  binaryIndex := delete (BinaryPath sess) (binaryIndex r);
                                  maxSessions := maxSessions r |}).
  { unfold Delete. by rewrite Hg, Hd. }
  rewrite HD. unfold Get, FindByBinaryPath. simpl. repeat split.
  - by rewrite lookup_delete_eq.
  - intros path ->. by rewrite lookup_delete_eq.
  - intros id' Hne. by rewrite lookup_delete_ne.
  - intros path q Hq Hne. rewrite lookup_delete_ne; [done|].
    intros Heq. destruct (H1 id p Hg) as (sess' & Hd' & _ & Hb).
    rewrite Hd in Hd'. injection Hd' as <-. rewrite Heq, Hq in Hb. by injection Hb.
  - unfold Delete at 1. simpl. by rewrite lookup_delete_eq.
Qed.

Lemma Delete_forgets_session_witness :
  Get (Delete (snd (fst one_created)) (snd one_created) "1f0c9a2e") "1f0c9a2e" = None
  /\ FindByBinaryPath (Delete (snd (fst one_created)) (snd one_created) "1f0c9a2e") "/tmp/x/" = None.
Proof.
  assert (Hc : Create empty_heap (NewRegistry 4) "/tmp/x" 60 first_uuid
               = (Ok 0%nat, snd (fst one_created), snd one_created))
    by (vm_compute; reflexivity).
  assert (Hinv : reg_inv (snd (fst one_created)) (snd one_created)).
  { pose proof (reg_inv_Create empty_heap (NewRegistry 4) "/tmp/x" 60 first_uuid) as H.
    rewrite Hc in H. apply H; [apply reg_inv_empty|vm_compute; reflexivity..]. }
  assert (Hg : Get (snd one_created) "1f0c9a2e" = Some 0%nat) by (vm_compute; reflexivity).
  assert (Hd : deref (snd (fst one_created)) 0 = Some (created_session "/tmp/x" 60 first_uuid))
    by (vm_compute; reflexivity).
  destruct (Delete_forgets_session _ _ _ _ _ Hinv Hg Hd) as (H1 & H2 & _).
  split; [exact H1|]. apply H2. vm_compute. reflexivity.
Defined.

(** X4.  [Restore] refuses metadata whose id is already registered and
    leaves the registry as it was; when it succeeds the id was free, the
    session is found by id and by path, and it carries the id, the creation
    time, the last activity and the timeout of the metadata, the normalized
    path, a new socket path and no worker pid. *)
Theorem Restore_refuses_duplicate_and_keeps_metadata h r meta sock :
  (is_Some (Get r (m_ID meta)) ->
     exists e, Restore h r meta sock = (Err e, h, r))
  /\ (forall p h' r', Restore h r meta sock = (Ok p, h', r') ->
        Get r (m_ID meta) = None
        /\ Get r' (m_ID meta) = Some p
        /\ FindByBinaryPath r' (m_BinaryPath meta) = Some p
        /\ exists sess, deref h' p = Some sess
             /\ ID sess = m_ID meta
             /\ BinaryPath sess = filepath.Clean (m_BinaryPath meta)
             /\ CreatedAt sess = m_CreatedAt meta
             /\ LastActivity sess = m_LastActivity meta
             /\ Timeout sess = m_Timeout meta
             /\ SocketPath sess = socket_path sock
             /\ WorkerPID sess = 0).
Proof.
  unfold Restore, Get. split.
  - intros Hdup. destruct (_ >=? _); [by eexists|].
    rewrite bool_decide_eq_true_2 by done. by eexists.
  - intros p h' r'. destruct (_ >=? _); [discriminate|].
    case_bool_decide as Hdup; [discriminate|]. simpl.
    intros H. injection H as <- <- <-. unfold FindByBinaryPath, deref. simpl.
    split. { destruct (session.sessions r !! m_ID meta) eqn:E; [|done]. destruct Hdup. eauto. }
    split. { by rewrite lookup_insert_eq. }
    split. { by rewrite lookup_insert_eq. }
    eexists. split; [by rewrite lookup_insert_eq|]. by repeat split.
Qed.

Lemma Restore_refuses_duplicate_and_keeps_metadata_witness :
  (exists e, Restore (snd (fst one_created)) (snd one_created) sample_metadata "52cc0d11"
             = (Err e, snd (fst one_created), snd one_created))
  /\ Get (snd (Restore empty_heap (NewRegistry 4) sample_metadata "52cc0d11")) "1f0c9a2e" = Some 0%nat.
Proof.
  pose proof (Restore_refuses_duplicate_and_keeps_metadata) as H.
  split.
  - apply (proj1 (H (snd (fst one_created)) (snd one_created) sample_metadata "52cc0d11")).
    exists 0%nat. vm_compute. reflexivity.
  - assert (Hr : Restore empty_heap (NewRegistry 4) sample_metadata "52cc0d11"
                 = (Ok 0%nat, snd (fst (Restore empty_heap (NewRegistry 4) sample_metadata "52cc0d11")),
                    snd (Restore empty_heap (NewRegistry 4) sample_metadata "52cc0d11")))
      by (vm_compute; reflexivity).
    exact (proj1 (proj2 (proj2 (H empty_heap (NewRegistry 4) sample_metadata "52cc0d11") _ _ _ Hr))).
Defined.

(** ** The watchdog *)

Lemma List_elem h r sess :
  sess ∈ List h r <-> exists id p, session.sessions r !! id = Some p /\ deref h p = Some sess.
Proof.
  unfold List. rewrite list_elem_of_omap. split.
  - intros ([id p] & Hin & Hd). apply elem_of_map_to_list in Hin. eauto.
  - intros (id & p & Hs & Hd). exists (id, p). split; [by apply elem_of_map_to_list|done].
Qed.

Lemma Expired_elem h r now sess :
  sess ∈ Expired h r now <-> sess ∈ List h r /\ IsExpired sess now = true.
Proof. unfold Expired. rewrite list_elem_of_filter. tauto. Qed.

Lemma Watchdog_tick_reaps s now k :
  Watchdog_tick s now k = fold_left (reap k) (Expired (mem s) (registry s) now) s.
Proof. reflexivity. Qed.

Lemma reap_effect k s sess :
  mem (reap k s sess) = mem s
  /\ registry (reap k s sess) = Delete (mem s) (registry s) (ID sess)
  /\ worker.sessions (workers (reap k s sess)) = delete (ID sess) (worker.sessions (workers s))
  /\ cache (reap k s sess) = delete (ID sess) (cache s)
  /\ progress (reap k s sess)
     = (if String.eqb (ID sess) "" then progress s else delete (ID sess) (progress s))
  /\ store (reap k s sess) = delete (ID sess) <$> store s.
Proof.
  unfold reap, Stop.
  destruct (worker.sessions (workers s) !! ID sess) as [w|] eqn:Hw.
  - destruct (if alive (os s) (cmd w) then k else None);
      unfold clearProgress, deleteSessionCache, deleteSessionState; simpl;
      destruct (store s) eqn:Hst; simpl; case_bool_decide; simpl;
      destruct (String.eqb (ID sess) ""); simpl; rewrite ?Hst; by repeat split.
  - unfold clearProgress, deleteSessionCache, deleteSessionState; simpl;
      destruct (store s) eqn:Hst; simpl; case_bool_decide; simpl;
      destruct (String.eqb (ID sess) ""); simpl; rewrite ?Hst; repeat split;
      by rewrite ?delete_id.
Qed.

Lemma Delete_sessions h r id :
  reg_inv h r -> session.sessions (Delete h r id) = delete id (session.sessions r).
Proof.
  intros (H1 & _). unfold Delete.
  destruct (session.sessions r !! id) as [p|] eqn:Hp.
  - destruct (H1 id p Hp) as (sess & -> & _). done.
  - by rewrite delete_id.
Qed.

Lemma reap_fold k L : forall s,
  reg_inv (mem s) (registry s) ->
  mem (fold_left (reap k) L s) = mem s
  /\ reg_inv (mem s) (registry (fold_left (reap k) L s))
  /\ (forall id, id ∈ map ID L -> forgotten (fold_left (reap k) L s) id)
  /\ (forall id, id ∉ map ID L ->
        Get (registry (fold_left (reap k) L s)) id = Get (registry s) id
        /\ worker.sessions (workers (fold_left (reap k) L s)) !! id
           = worker.sessions (workers s) !! id
        /\ cache (fold_left (reap k) L s) !! id = cache s !! id
        /\ progress (fold_left (reap k) L s) !! id = progress s !! id)
  /\ (forall id, forgotten s id -> forgotten (fold_left (reap k) L s) id).
Proof.
  induction L as [|sess L IH]; intros s Hinv.
  - simpl. split; [done|]. split; [done|]. split; [|done].
    intros id Hin. by apply elem_of_nil in Hin.
  - simpl. destruct (reap_effect k s sess) as (Hm & Hr & Hw & Hc & Hp & Hs).
    assert (Hinv1 : reg_inv (mem (reap k s sess)) (registry (reap k s sess))).
    { rewrite Hm, Hr. by apply reg_inv_Delete. }
    assert (Hforget : forgotten (reap k s sess) (ID sess)).
    { unfold forgotten, Get. rewrite Hr, Hw, Hc, Hp, Delete_sessions by done.
      rewrite !lookup_delete_eq. split; [done|]. split; [done|]. split; [done|].
      intros Hne. apply String.eqb_neq in Hne. rewrite Hne. by rewrite lookup_delete_eq. }
    assert (Hkeep : forall id, forgotten s id -> forgotten (reap k s sess) id).
    { intros id (F1 & F2 & F3 & F4).
      destruct (decide (id = ID sess)) as [->|Hne]; [exact Hforget|].
      unfold forgotten, Get. unfold Get in F1.
      rewrite Hr, Hw, Hc, Hp, Delete_sessions by done.
      rewrite !lookup_delete_ne by done. split; [done|]. split; [done|]. split; [done|].
      intros Hn. destruct (String.eqb (ID sess) ""); [by apply F4|].
      rewrite lookup_delete_ne by done. by apply F4. }
    destruct (IH _ Hinv1) as (IHm & IHinv & IHin & IHout & IHk).
    split; [by rewrite IHm|]. split; [by rewrite <- Hm|]. split; [|split].
    + intros id Hin. apply elem_of_cons in Hin as [->|Hin]; [by apply IHk|by apply IHin].
    + intros id Hout. apply not_elem_of_cons in Hout as [Hne Hout].
      destruct (IHout id Hout) as (G1 & G2 & G3 & G4).
      rewrite G1, G2, G3, G4. unfold Get. rewrite Hr, Hw, Hc, Hp, Delete_sessions by done.
      rewrite !lookup_delete_ne by done. split; [done|]. split; [done|]. split; [done|].
      destruct (String.eqb (ID sess) ""); [done|]. by rewrite lookup_delete_ne.
    + intros id Hf. apply IHk. by apply Hkeep.
Qed.

(** X5.  One watchdog tick removes exactly the expired sessions.  A
    registered session that is expired at [now] is afterwards unknown to the
    registry and has no worker handle, no cache entry and no progress
    snapshot; a session that is not expired keeps its registry entry, its
    handle, its cache entry and its snapshot.  Session objects are not
    written. *)
Theorem Watchdog_tick_removes_exactly_the_expired s now k id p sess :
  reg_inv (mem s) (registry s) ->
  Get (registry s) id = Some p -> deref (mem s) p = Some sess ->
  mem (Watchdog_tick s now k) = mem s
  /\ if IsExpired sess now
     then forgotten (Watchdog_tick s now k) id
     else Get (registry (Watchdog_tick s now k)) id = Some p
          /\ worker.sessions (workers (Watchdog_tick s now k)) !! id
             = worker.sessions (workers s) !! id
          /\ cache (Watchdog_tick s now k) !! id = cache s !! id
          /\ progress (Watchdog_tick s now k) !! id = progress s !! id.
Proof.
  intros Hinv Hg Hd. rewrite Watchdog_tick_reaps.
  destruct (reap_fold k (Expired (mem s) (registry s) now) s Hinv) as (Hm & _ & Hin & Hout & _).
  split; [exact Hm|].
  assert (Hid : ID sess = id).
  { destruct Hinv as (H1 & _). destruct (H1 id p Hg) as (sess' & Hd' & Hid & _).
    rewrite Hd in Hd'. by injection Hd' as <-. }
  destruct (IsExpired sess now) eqn:Hexp.
  - apply Hin. apply list_elem_of_fmap. exists sess. split; [done|].
    apply Expired_elem. split; [|done]. apply List_elem. eauto.
  - rewrite <- Hg. apply Hout. intros Hmem.
    apply list_elem_of_fmap in Hmem as (sess' & Hid' & Hmem).
    apply Expired_elem in Hmem as (Hl & Hexp').
    apply List_elem in Hl as (id' & p' & Hs' & Hd').
    destruct Hinv as (H1 & _). destruct (H1 id' p' Hs') as (sess2 & Hd2 & Hid2 & _).
    rewrite Hd' in Hd2. injection Hd2 as <-.
    assert (E : id' = id) by congruence. rewrite E in Hs'.
    unfold Get in Hg. rewrite Hg in Hs'. injection Hs' as <-.
    rewrite Hd in Hd'. injection Hd' as <-. congruence.
Qed.

Lemma Watchdog_tick_removes_exactly_the_expired_witness :
  forgotten (Watchdog_tick opened_server 1000 None) "1f0c9a2e"
  /\ Get (registry (Watchdog_tick opened_server 130 None)) "1f0c9a2e" = Some 0%nat.
Proof.
  assert (Hfresh : session.sessions (registry fresh_server)
                     !! uuid_id (o_fresh (sample_open "1f0c9a2e" 4242 false)) = None)
    by (vm_compute; reflexivity).
  assert (Hinv : reg_inv (mem opened_server) (registry opened_server)).
  { exact (openBinary_reg_inv fresh_server 1%nat "/tmp/x" (sample_open "1f0c9a2e" 4242 false)
             (reg_inv_empty 4) Hfresh). }
  assert (Hg : Get (registry opened_server) "1f0c9a2e" = Some 0%nat) by (vm_compute; reflexivity).
  assert (Hd : deref (mem opened_server) 0
               = Some {| ID := "1f0c9a2e"; BinaryPath := "/tmp/x"; CreatedAt := 100;
                         LastActivity := 100; Timeout := 60;
                         SocketPath := "/tmp/ida-worker-1f0c9a2e.sock"; WorkerPID := 4242 |})
    by (vm_compute; reflexivity).
  split.
  - exact (proj2 (Watchdog_tick_removes_exactly_the_expired opened_server 1000 None _ _ _ Hinv Hg Hd)).
  - exact (proj1 (proj2 (Watchdog_tick_removes_exactly_the_expired opened_server 130 None _ _ _
                           Hinv Hg Hd))).
Defined.

(** ** list_sessions *)

Lemma List_length h r : reg_inv h r -> length (List h r) = size (session.sessions r).
Proof.
  intros (H1 & _). unfold List. rewrite <- length_map_to_list.
  assert (Hall : forall kv, kv ∈ map_to_list (session.sessions r) -> is_Some (deref h (snd kv))).
  { intros [id p] Hin. apply elem_of_map_to_list in Hin.
    destruct (H1 id p Hin) as (sess & Hd & _). simpl. eauto. }
  induction (map_to_list (session.sessions r)) as [|kv l IH]; [reflexivity|].
  simpl. destruct (Hall kv) as [sess Hs]; [by left|]. rewrite Hs. simpl.
  f_equal. apply IH. intros kv' Hin. apply Hall. by right.
Qed.

(** X6.  [list_sessions] changes nothing and reports every registered
    session: [count] is the number of registry entries, the array has that
    many items, and every registered session has an item that carries its
    id, its path, its creation time and its last activity, next to the two
    elapsed times read from the clock in that round of the loop. *)
Theorem listSessions_reports_every_session s since :
  reg_inv (mem s) (registry s) ->
  fst (listSessions s since) = s
  /\ exists items,
       snd (listSessions s since)
       = ToolJson (JObj [("sessions", JArr items);
                         ("count", JNum (Z.of_nat (size (session.sessions (registry s)))))])
       /\ length items = size (session.sessions (registry s))
       /\ forall id p sess, Get (registry s) id = Some p -> deref (mem s) p = Some sess ->
            exists i,
              items !! i
              = Some (JObj [("session_id", JStr id);
                            ("binary_path", JStr (BinaryPath sess));
                            ("created_at", JNum (CreatedAt sess));
                            ("last_activity", JNum (LastActivity sess));
                            ("age_seconds", age_seconds (since i));
                            ("idle_seconds", idle_seconds (since i))]).
Proof.
  intros Hinv. split; [reflexivity|]. unfold listSessions. simpl.
  eexists. split; [|split].
  - rewrite length_imap, List_length by done. reflexivity.
  - by rewrite length_imap, List_length.
  - intros id p sess Hg Hd.
    assert (Hid : ID sess = id).
    { destruct Hinv as (H1 & _). destruct (H1 id p Hg) as (sess' & Hd' & Hid & _).
      rewrite Hd in Hd'. by injection Hd' as <-. }
    assert (Hin : sess ∈ List (mem s) (registry s)) by (apply List_elem; eauto).
    apply list_elem_of_lookup in Hin as [i Hi].
    exists i. rewrite list_lookup_imap, Hi. simpl. by rewrite Hid.
Qed.

Lemma listSessions_reports_every_session_witness :
  exists items,
    snd (listSessions opened_server
           (fun _ => {| age_seconds := JNum 30; idle_seconds := JNum 30 |}))
    = ToolJson (JObj [("sessions", JArr items); ("count", JNum 1)])
    /\ length items = 1%nat.
Proof.
  assert (Hfresh : session.sessions (registry fresh_server)
                     !! uuid_id (o_fresh (sample_open "1f0c9a2e" 4242 false)) = None)
    by (vm_compute; reflexivity).
  assert (Hinv : reg_inv (mem opened_server) (registry opened_server)).
  { exact (openBinary_reg_inv fresh_server 1%nat "/tmp/x" (sample_open "1f0c9a2e" 4242 false)
             (reg_inv_empty 4) Hfresh). }
  assert (Hsize : size (session.sessions (registry opened_server)) = 1%nat)
    by (vm_compute; reflexivity).
  destruct (listSessions_reports_every_session opened_server
              (fun _ => {| age_seconds := JNum 30; idle_seconds := JNum 30 |}) Hinv)
    as (_ & items & Hr & Hl & _).
  exists items. rewrite Hsize in Hr, Hl. split; [exact Hr|exact Hl].
Defined.

(** ** open_binary: failure and success *)

Lemma emitProgress_cache s rs sid st msg a b now :
  cache (emitProgress s rs sid st msg a b now) = cache s.
Proof. by destruct (emitProgress_frame s rs sid st msg a b now) as (_ & _ & H & _). Qed.

Lemma emitProgress_store s rs sid st msg a b now :
  store (emitProgress s rs sid st msg a b now) = store s.
Proof. by destruct (emitProgress_frame s rs sid st msg a b now) as (_ & _ & _ & H). Qed.

Lemma emitProgress_logger s rs sid st msg a b now :
  logger (emitProgress s rs sid st msg a b now) = logger s.
Proof. by destruct (emitProgress_frame s rs sid st msg a b now) as (_ & H & _ & _). Qed.

Lemma emitProgress_progress_delete s rs sid st msg a b now :
  delete sid (progress (emitProgress s rs sid st msg a b now)) = delete sid (progress s).
Proof.
  unfold emitProgress, recordProgress. destruct (String.eqb sid ""); [done|].
  simpl. apply delete_insert_eq.
Qed.

Lemma abandon_effect s id stop k :
  mem (abandon s id stop k) = mem s
  /\ registry (abandon s id stop k) = Delete (mem s) (registry s) id
  /\ worker.sessions (workers (abandon s id stop k))
     = (if stop then delete id (worker.sessions (workers s)) else worker.sessions (workers s))
  /\ cache (abandon s id stop k) = delete id (cache s)
  /\ progress (abandon s id stop k)
     = (if String.eqb id "" then progress s else delete id (progress s))
  /\ store (abandon s id stop k) = store s
  /\ logger (abandon s id stop k)
     = (if bool_decide (is_Some (cache s !! id)) then logger s ++ [CacheClear id] else logger s)
  /\ (forall pid, alive (os (abandon s id stop k)) pid = true ->
        alive (os s) pid = true
        /\ (stop = true -> forall w, worker.sessions (workers s) !! id = Some w -> cmd w <> pid)).
Proof.
  unfold abandon, clearProgress, deleteSessionCache.
  destruct stop.
  - unfold Stop. destruct (worker.sessions (workers s) !! id) as [w|] eqn:Hw.
    + assert (Hal : forall pid,
                alive {| ctxs := cancel (ctxs (os s)) (ctx w);
                         procs := alter mark_dead (cmd w) (procs (os s)) |} pid = true ->
                alive (os s) pid = true
                /\ (true = true -> forall w0, Some w = Some w0 -> cmd w0 <> pid)).
      { intros pid. unfold alive. simpl.
        destruct (decide (pid = cmd w)) as [->|Hne].
        - rewrite lookup_alter_eq. by destruct (procs (os s) !! cmd w).
        - rewrite lookup_alter_ne by done. intros H. split; [exact H|].
          intros _ w0 [= <-]. congruence. }
      destruct (if alive (os s) (cmd w) then k else None); simpl;
        case_bool_decide; simpl; destruct (String.eqb id ""); simpl;
        repeat split; try reflexivity; try (by apply Hal); try (by eapply Hal).
    + simpl. case_bool_decide; simpl; destruct (String.eqb id ""); simpl;
        rewrite (delete_id _ _ Hw); repeat split; try reflexivity; auto; discriminate.
  - simpl. case_bool_decide; simpl; destruct (String.eqb id ""); simpl;
      repeat split; try reflexivity; auto; discriminate.
Qed.

Lemma Delete_registered r h p sess :
  session.sessions r !! ID sess = None ->
  binaryIndex r !! BinaryPath sess = None ->
  forall sess', deref h p = Some sess' -> ID sess' = ID sess -> BinaryPath sess' = BinaryPath sess ->
  Delete h (registered r p sess) (ID sess) = r.
Proof.
  intros Hs Hb sess' Hd Hid Hpath. unfold Delete, registered. simpl.
  rewrite lookup_insert_eq, Hd, Hpath, !delete_insert_id by done. by destruct r.
Qed.


Ltac open_simpl :=
  repeat progress
    (frame_simpl;
     rewrite ?emitProgress_cache, ?emitProgress_store, ?emitProgress_logger,
       ?emitProgress_progress_delete).

(** X7.  An [open_binary] of a new path that fails, at whatever step,
    leaves nothing behind.  When the id it drew was unused, the registry,
    the worker table, the cache, the progress table, the store and the
    cache lines of the log are exactly as before the call, and no process
    is running that was not running before. *)
Theorem failed_open_leaves_no_trace s rctx path e msg s' :
  FindByBinaryPath (registry s) path = None ->
  forgotten s (uuid_id (o_fresh e)) ->
  uuid_id (o_fresh e) <> "" ->
  openBinary s rctx path e = (s', ToolErr msg) ->
  registry s' = registry s
  /\ worker.sessions (workers s') = worker.sessions (workers s)
  /\ cache s' = cache s
  /\ progress s' = progress s
  /\ store s' = store s
  /\ logger s' = logger s
  /\ (forall pid, alive (os s') pid = true -> alive (os s) pid = true).
Proof.
  intros Hfind (F1 & F2 & F3 & F4) Hid. specialize (F4 Hid).
  unfold Get in F1. unfold FindByBinaryPath in Hfind.
  unfold openBinary, FindByBinaryPath. rewrite Hfind. unfold Create.
  destruct (Z.of_nat (size (session.sessions (registry s))) >=? maxSessions (registry s)).
  { intros H. injection H as <- _. by repeat split. }
  cbn [alloc fst snd].
  set (sess := {| ID := uuid_id (o_fresh e); BinaryPath := filepath.Clean path;
                  CreatedAt := now_created (o_fresh e); LastActivity := now_activity (o_fresh e);
                  Timeout := sessionTimeout s; SocketPath := socket_path (uuid_sock (o_fresh e));
                  WorkerPID := 0 |}).
  set (p := next_addr (mem s)).
  assert (Hfin : forall s0 halt k m0,
            registry s0 = registered (registry s) p sess ->
            (exists sess', deref (mem s0) p = Some sess' /\ ID sess' = ID sess
                           /\ BinaryPath sess' = BinaryPath sess) ->
            (if halt : bool then delete (uuid_id (o_fresh e)) (worker.sessions (workers s0))
             else worker.sessions (workers s0)) = worker.sessions (workers s) ->
            cache s0 = cache s ->
            delete (uuid_id (o_fresh e)) (progress s0) = delete (uuid_id (o_fresh e)) (progress s) ->
            store s0 = store s -> logger s0 = logger s ->
            (forall pid, alive (os s0) pid = true ->
               alive (os s) pid = true \/
               (halt = true /\ exists w, worker.sessions (workers s0) !! uuid_id (o_fresh e) = Some w
                                         /\ cmd w = pid)) ->
            (abandon s0 (uuid_id (o_fresh e)) halt k, ToolErr m0) = (s', ToolErr msg) ->
            registry s' = registry s
            /\ worker.sessions (workers s') = worker.sessions (workers s)
            /\ cache s' = cache s
            /\ progress s' = progress s
            /\ store s' = store s
            /\ logger s' = logger s
            /\ (forall pid, alive (os s') pid = true -> alive (os s) pid = true)).
  { intros s0 halt k m0 Hr (sess' & Hd & Hi & Hb) Hw Hc Hp Hst Hl Hal H.
    injection H as <- _.
    destruct (abandon_effect s0 (uuid_id (o_fresh e)) halt k)
      as (Em & Er & Ew & Ec & Ep & Es & El & Ea).
    split. { rewrite Er, Hr. by apply (Delete_registered _ _ _ sess F1 Hfind sess'). }
    split. { by rewrite Ew. }
    split. { rewrite Ec, Hc. by apply delete_id. }
    split. { rewrite Ep. destruct (String.eqb_spec (uuid_id (o_fresh e)) ""); [done|].
             rewrite Hp. by apply delete_id. }
    split. { by rewrite Es. }
    split. { rewrite El, Hc. rewrite bool_decide_eq_false_2; [by rewrite Hl|].
             rewrite F3. by intros [? ?]. }
    intros pid Hpid. destruct (Ea pid Hpid) as (Ha1 & Ha2).
    destruct (Hal pid Ha1) as [?|(-> & w & Hw1 & Hw2)]; [done|].
    exfalso. by apply (Ha2 eq_refl w Hw1). }
  unfold Start. frame_simpl. rewrite !deref_insert.
  destruct (remove_ok (o_start e)); cbn [negb].
  2:{ apply Hfin; open_simpl; try reflexivity.
      - exists sess. by rewrite deref_insert.
      - intros pid ?. by left. }
  cbn [WithCancel].
  destruct (spawn (o_start e)) as [pid|].
  2:{ apply Hfin; open_simpl; try reflexivity.
      - exists sess. by rewrite deref_insert.
      - intros pid ?. by left. }
  destruct (socket_ready (o_start e)); cbn [negb].
  2:{ apply Hfin; open_simpl; try reflexivity.
      - eexists. rewrite deref_alter_insert. by repeat split.
      - intros pid'. unfold alive. simpl. destruct (decide (pid' = pid)) as [->|Hne].
        + by rewrite lookup_alter_eq, lookup_insert_eq.
        + rewrite lookup_alter_ne, lookup_insert_ne by done. by left. }
  frame_simpl. unfold GetClient. cbn [worker.sessions with_sessions ID sess].
  rewrite lookup_insert_eq.
  assert (Hstop : forall s0 m0,
            mem s0 = {| objs := alter (with_WorkerPID pid) p (<[p:=sess]> (objs (mem s)));
                        next_addr := Datatypes.S p |} ->
            registry s0 = registered (registry s) p sess ->
            worker.sessions (workers s0)
              = <[uuid_id (o_fresh e) := {| cmd := pid; ctx := next_ctx (ctxs (os s));
                                            w_session := p; binaryPath := path |}]>
                  (worker.sessions (workers s)) ->
            procs (os s0) = <[pid := {| proc_ctx := next_ctx (ctxs (os s)); proc_alive := true |}]>
                              (procs (os s)) ->
            cache s0 = cache s ->
            delete (uuid_id (o_fresh e)) (progress s0) = delete (uuid_id (o_fresh e)) (progress s) ->
            store s0 = store s -> logger s0 = logger s ->
            (abandon s0 (uuid_id (o_fresh e)) true (o_kill_fails e), ToolErr m0) = (s', ToolErr msg) ->
            registry s' = registry s
            /\ worker.sessions (workers s') = worker.sessions (workers s)
            /\ cache s' = cache s
            /\ progress s' = progress s
            /\ store s' = store s
            /\ logger s' = logger s
            /\ (forall pid, alive (os s') pid = true -> alive (os s) pid = true)).
  { intros s0 m0 Hm Hr Hw Hpr Hc Hp Hst Hl. apply Hfin; try done.
    - rewrite Hm. eexists. rewrite deref_alter_insert. by repeat split.
    - rewrite Hw. by apply delete_insert_id.
    - intros pid'. unfold alive. rewrite Hpr. destruct (decide (pid' = pid)) as [->|Hne].
      + intros _. right. split; [done|]. eexists. rewrite Hw, lookup_insert_eq. by split.
      + rewrite lookup_insert_ne by done. by left. }
  destruct (o_open e) as [err|resp].
  { apply Hstop; open_simpl; reflexivity. }
  destruct (ob_Success resp); cbn [negb].
  2:{ apply Hstop; open_simpl; reflexivity. }
  frame_simpl. rewrite !deref_alter_insert. discriminate.
Qed.

Lemma failed_open_leaves_no_trace_witness :
  snd (openBinary fresh_server 1 "/tmp/x" socket_never_ready)
  = ToolErr "open_binary worker start failed"
  /\ registry (fst (openBinary fresh_server 1 "/tmp/x" socket_never_ready)) = registry fresh_server
  /\ progress (fst (openBinary fresh_server 1 "/tmp/x" socket_never_ready)) = progress fresh_server
  /\ (forall pid, alive (os (fst (openBinary fresh_server 1 "/tmp/x" socket_never_ready))) pid = true ->
        alive (os fresh_server) pid = true).
Proof.
  assert (Hfind : FindByBinaryPath (registry fresh_server) "/tmp/x" = None)
    by (vm_compute; reflexivity).
  assert (Hforg : forgotten fresh_server (uuid_id (o_fresh socket_never_ready))).
  { unfold forgotten. split; [vm_compute; reflexivity|]. split; [vm_compute; reflexivity|].
    split; [vm_compute; reflexivity|]. intros _. vm_compute. reflexivity. }
  assert (Hid : uuid_id (o_fresh socket_never_ready) <> "") by (vm_compute; discriminate).
  assert (Hopen : openBinary fresh_server 1%nat "/tmp/x" socket_never_ready
                  = (fst (openBinary fresh_server 1%nat "/tmp/x" socket_never_ready),
                     ToolErr "open_binary worker start failed"))
    by (vm_compute; reflexivity).
  destruct (failed_open_leaves_no_trace _ _ _ _ _ _ Hfind Hforg Hid Hopen)
    as (Hr & _ & _ & Hp & _ & _ & Ha).
  split; [by rewrite Hopen|]. split; [exact Hr|]. split; [exact Hp|exact Ha].
Defined.






(** ** The worker manager: start, stop, lookup *)

(** X9.  After a successful [Start] the handle is found by [GetClient],
    the process runs and the session carries its pid.  [Stop] then cancels
    the worker's context, ends the process and removes the handle, also
    when the kill reports an error; [GetClient] fails afterwards and a
    second [Stop] reports that there is no worker and changes nothing. *)
Theorem Start_then_Stop os0 h m rctx p path e sess os1 h1 m1 :
  contexts_wf (ctxs os0) ->
  deref h p = Some sess ->
  Start os0 h m rctx p path e = (None, os1, h1, m1) ->
  exists w,
    GetClient m1 (ID sess) = Ok w
    /\ w_session w = p /\ binaryPath w = path
    /\ alive os1 (cmd w) = true
    /\ deref h1 p = Some (with_WorkerPID (cmd w) sess)
    /\ forall k,
         let r := Stop os1 m1 (ID sess) k in
         (fst (fst r) = None \/ (is_Some (fst (fst r)) /\ is_Some k))
         /\ alive (snd (fst r)) (cmd w) = false
         /\ Done (ctxs (snd (fst r))) (ctx w) = true
         /\ worker.sessions (snd r) = delete (ID sess) (worker.sessions m)
         /\ GetClient (snd r) (ID sess) = Err (String.append "no worker for session " (ID sess))
         /\ forall k', Stop (snd (fst r)) (snd r) (ID sess) k'
                       = (Some (String.append "no worker for session " (ID sess)),
                          snd (fst r), snd r).
Proof.
  intros Hwf Hderef HStart.
  unfold Start in HStart. rewrite Hderef in HStart.
  destruct (remove_ok e); simpl in HStart; [|discriminate].
  destruct (spawn e) as [pid|]; [|discriminate].
  destruct (socket_ready e); simpl in HStart; [|discriminate].
  injection HStart as <- <- <-.
  set (w := {| cmd := pid; ctx := next_ctx (ctxs os0); w_session := p; binaryPath := path |}).
  exists w. unfold GetClient. simpl. rewrite lookup_insert_eq.
  split; [reflexivity|]. split; [reflexivity|]. split; [reflexivity|].
  split. { unfold alive. simpl. by rewrite lookup_insert_eq. }
  split. { unfold deref. simpl. unfold deref in Hderef. by rewrite lookup_alter_eq, Hderef. }
  intros k. unfold Stop. simpl. rewrite lookup_insert_eq.
  assert (Hal : alive {| ctxs := {| parent := <[next_ctx (ctxs os0):=Background]> (parent (ctxs os0));
                                    cancelled := cancelled (ctxs os0);
                                    next_ctx := S (next_ctx (ctxs os0)) |};
                         procs := <[pid:={| proc_ctx := next_ctx (ctxs os0); proc_alive := true |}]>
                                    (procs os0) |} (cmd w) = true).
  { unfold alive. simpl. by rewrite lookup_insert_eq. }
  rewrite Hal.
  assert (Hne : next_ctx (ctxs os0) <> Background).
  { destruct Hwf as (Hn & _). unfold Background. lia. }
  assert (Hrest :
    alive {| ctxs := cancel {| parent := <[next_ctx (ctxs os0):=Background]> (parent (ctxs os0));
                               cancelled := cancelled (ctxs os0);
                               next_ctx := S (next_ctx (ctxs os0)) |} (ctx w);
             procs := alter mark_dead (cmd w)
                        (<[pid:={| proc_ctx := next_ctx (ctxs os0); proc_alive := true |}]>
                           (procs os0)) |} (cmd w) = false
    /\ Done (cancel {| parent := <[next_ctx (ctxs os0):=Background]> (parent (ctxs os0));
                       cancelled := cancelled (ctxs os0);
                       next_ctx := S (next_ctx (ctxs os0)) |} (ctx w)) (ctx w) = true
    /\ delete (ID sess) (<[ID sess:=w]> (worker.sessions m))
       = delete (ID sess) (worker.sessions m)).
  { split; [|split].
    - unfold alive. simpl. by rewrite lookup_alter_eq, lookup_insert_eq.
    - unfold Done, cancel. simpl. rewrite bool_decide_eq_false_2 by done. simpl.
      rewrite bool_decide_eq_true_2; [done|]. apply elem_of_union_l. by apply elem_of_singleton.
    - apply delete_insert_eq. }
  destruct Hrest as (R1 & R2 & R3).
  destruct k as [kerr|]; simpl; rewrite R3, lookup_delete_eq;
    (split; [eauto|]); (split; [exact R1|]); (split; [exact R2|]);
    (split; [reflexivity|]); (split; [reflexivity|]); intros k'; reflexivity.
Qed.

Lemma Start_then_Stop_witness :
  let '(_, os1, _, m1) :=
    Start one_request (snd (alloc empty_heap sample_session)) (NewManager "fake_worker.py")
          1 0 "/bin/ls" start_ok in
  exists w, GetClient m1 "test-session" = Ok w
            /\ alive os1 (cmd w) = true
            /\ alive (snd (fst (Stop os1 m1 "test-session" None))) (cmd w) = false
            /\ GetClient (snd (Stop os1 m1 "test-session" None)) "test-session"
               = Err "no worker for session test-session".
Proof.
  destruct (Start_then_Stop one_request (snd (alloc empty_heap sample_session))
              (NewManager "fake_worker.py") 1%nat 0%nat "/bin/ls" start_ok sample_session
              _ _ _ (WithCancel_wf _ _ no_contexts_wf) eq_refl eq_refl)
    as (w & Hc & _ & _ & Ha & _ & Hstop).
  exists w. split; [exact Hc|]. split; [exact Ha|].
  destruct (Hstop None) as (_ & Hdead & _ & _ & Hg & _). split; [exact Hdead|exact Hg].
Defined.

(** X10.  A [Start] that fails registers no handle and leaves no process
    running that was not running before; the context it created for the
    worker, if any, is cancelled, and no other session object is written. *)
Theorem failed_Start_leaves_no_worker os0 h m rctx p path e err os1 h1 m1 :
  Start os0 h m rctx p path e = (Some err, os1, h1, m1) ->
  worker.sessions m1 = worker.sessions m
  /\ StartCount m1 path = S (StartCount m path)
  /\ (forall pid, alive os1 pid = true -> alive os0 pid = true)
  /\ (forall q, q <> p -> deref h1 q = deref h q)
  /\ (contexts_wf (ctxs os0) ->
      forall c, (next_ctx (ctxs os0) <= c < next_ctx (ctxs os1))%nat -> Done (ctxs os1) c = true).
Proof.
  unfold Start. destruct (deref h p) as [sess|] eqn:Hd.
  2:{ intros H. injection H as _ <- <- <-. repeat split; try done.
      - unfold StartCount. simpl. by rewrite lookup_insert_eq.
      - intros _ c Hc. lia. }
  destruct (remove_ok e); simpl.
  2:{ intros H. injection H as _ <- <- <-. repeat split; try done.
      - unfold StartCount. simpl. by rewrite lookup_insert_eq.
      - intros _ c Hc. lia. }
  destruct (spawn e) as [pid|].
  2:{ intros H. injection H as _ <- <- <-. simpl. repeat split; try done.
      - unfold StartCount. simpl. by rewrite lookup_insert_eq.
      - intros (Hn & _) c. unfold cancel.
        rewrite bool_decide_eq_false_2 by (unfold Background; lia). simpl. intros Hc.
        assert (c = next_ctx (ctxs os0)) as -> by lia.
        unfold Done. simpl. rewrite bool_decide_eq_true_2; [done|]. apply elem_of_union_l. by apply elem_of_singleton. }
  destruct (socket_ready e); simpl; [discriminate|].
  intros H. injection H as _ <- <- <-. simpl. repeat split; try done.
  - unfold StartCount. simpl. by rewrite lookup_insert_eq.
  - intros pid'. unfold alive. simpl. destruct (decide (pid' = pid)) as [->|Hne].
    + by rewrite lookup_alter_eq, lookup_insert_eq.
    + by rewrite lookup_alter_ne, lookup_insert_ne.
  - intros q Hq. unfold deref. simpl. by rewrite lookup_alter_ne.
  - intros (Hn & _) c. unfold cancel.
    rewrite bool_decide_eq_false_2 by (unfold Background; lia). simpl. intros Hc.
    assert (c = next_ctx (ctxs os0)) as -> by lia.
    unfold Done. simpl. rewrite bool_decide_eq_true_2; [done|]. apply elem_of_union_l. by apply elem_of_singleton.
Qed.

Lemma failed_Start_leaves_no_worker_witness :
  let '(err, os1, _, m1) :=
    Start one_request (snd (alloc empty_heap sample_session)) (NewManager "fake_worker.py")
          1 0 "/bin/ls" {| remove_ok := true; spawn := Some 4242; socket_ready := false |} in
  err = Some "worker socket not ready"
  /\ worker.sessions m1 = ∅
  /\ (forall pid, alive os1 pid = true -> alive one_request pid = true).
Proof.
  pose proof (failed_Start_leaves_no_worker one_request (snd (alloc empty_heap sample_session))
                (NewManager "fake_worker.py") 1%nat 0%nat "/bin/ls"
                {| remove_ok := true; spawn := Some 4242; socket_ready := false |}
                "worker socket not ready") as H.
  destruct (Start one_request _ _ 1%nat 0%nat "/bin/ls" _) as [[[err os1] h1] m1] eqn:E.
  assert (Herr : err = Some "worker socket not ready").
  { vm_compute in E. by injection E as <- _ _ _. }
  subst err. destruct (H os1 h1 m1 eq_refl) as (Hw & _ & Ha & _).
  split; [reflexivity|]. split; [exact Hw|exact Ha].
Defined.

(** ** Worker lifetime and request cancellation *)





(** ** The cache between calls *)

(** X11.  An entry that is populated is served as it is.  On a live
    session whose cache holds a non-nil enumeration of the kind, a list
    tool answers from it without consulting the worker: the call and its
    effect are the same whatever the loader would deliver (even a loader
    that fails or never returns), the log gains one HIT line, the entry is
    left as it was, and the answer is the page of the cached data. *)
Theorem populated_entry_is_served_from_cache {A} (k : ListKind A) R L s args now p sess w c d :
  Get (registry s) (a_SessionID args) = Some p ->
  deref (mem s) p = Some sess ->
  GetClient (workers s) (ID sess) = Ok w ->
  cache s !! ID sess = Some c ->
  k_get k c = Some d ->
  (forall loader, listTool R L k s args loader now = listTool R L k s args None now)
  /\ logger (fst (listTool R L k s args None now)) = logger s ++ [CacheHIT (k_kind k) (ID sess)]
  /\ cache (fst (listTool R L k s args None now)) !! ID sess = Some c
  /\ snd (listTool R L k s args None now)
     = match filterItems R L k args (Some d) with
       | Err e => ToolErr e
       | Ok None => ToolPanics
       | Ok (Some filtered) => pageResponse k args filtered
       end.
Proof.
  intros HGet Hderef Hclient Hc Hd.
  assert (Hall : forall loader,
            listTool R L k s args loader now
            = (let s3 := emitProgress
                           (set_cache (printf (set_mem s (Touch (mem s) p now))
                                         (CacheHIT (k_kind k) (ID sess)))
                              (<[ID sess := c]> (cache s)))
                           (k_tool k) (ID sess) (k_tool k) (k_hit k) 1 1 now in
               match filterItems R L k args (Some d) with
               | Err e => (s3, ToolErr e)
               | Ok None => (s3, ToolPanics)
               | Ok (Some filtered) => (s3, pageResponse k args filtered)
               end)).
  { intros loader. unfold listTool. rewrite HGet. simpl.
    rewrite (deref_Touch _ _ _ _ Hderef). simpl. rewrite Hclient.
    unfold getSessionCache. simpl. rewrite Hc. unfold load. rewrite Hd. reflexivity. }
  split; [|split; [|split]].
  - intros loader. by rewrite !Hall.
  - rewrite Hall. cbv zeta.
    destruct (filterItems R L k args (Some d)) as [e|[f|]]; cbn [fst];
      by rewrite emitProgress_logger.
  - rewrite Hall. cbv zeta.
    destruct (filterItems R L k args (Some d)) as [e|[f|]]; cbn [fst];
      rewrite emitProgress_cache; apply lookup_insert_eq.
  - rewrite Hall. cbv zeta. by destruct (filterItems R L k args (Some d)) as [e|[f|]].
Qed.

Lemma populated_entry_is_served_from_cache_witness :
  getFunctions sample_regexp websocket.lower cached_server first_page (Err "worker gone") 130
  = getFunctions sample_regexp websocket.lower cached_server first_page (Ok two_functions) 130
  /\ logger (fst (listTool sample_regexp websocket.lower functions_kind cached_server first_page
                    None 130))
     = logger cached_server ++ [CacheHIT "functions" "1f0c9a2e"].
Proof.
  assert (HGet : Get (registry cached_server) (a_SessionID first_page) = Some 0%nat)
    by (vm_compute; reflexivity).
  assert (Hderef : deref (mem cached_server) 0
                   = Some {| ID := "1f0c9a2e"; BinaryPath := "/tmp/x"; CreatedAt := 100;
                             LastActivity := 120; Timeout := 60;
                             SocketPath := "/tmp/ida-worker-1f0c9a2e.sock"; WorkerPID := 4242 |})
    by (vm_compute; reflexivity).
  assert (Hclient : GetClient (workers cached_server) "1f0c9a2e"
                    = Ok {| cmd := 4242; ctx := 1%nat; w_session := 0%nat; binaryPath := "/tmp/x" |})
    by (vm_compute; reflexivity).
  assert (Hc : cache cached_server !! "1f0c9a2e"
               = Some {| c_strings := None; c_functions := Some (gf_Functions two_functions);
                         c_imports := None; c_exports := None |})
    by (vm_compute; reflexivity).
  destruct (populated_entry_is_served_from_cache functions_kind sample_regexp websocket.lower
              cached_server first_page 130 0%nat _ _ _ (gf_Functions two_functions)
              HGet Hderef Hclient Hc eq_refl) as (Hany & Hlog & _).
  split; [|exact Hlog].
  unfold getFunctions. rewrite (Hany (Some (fetchAllFunctions (Err "worker gone")))).
  by rewrite (Hany (Some (fetchAllFunctions (Ok two_functions)))).
Defined.

(** X12.  A load that fails is not remembered.  When the entry is not
    populated and the loader returns an error, the tool answers with the
    sanitized error "<tool> cache load failed" (the loader's own text does
    not reach the caller), the entry stays nil, and the next call on the
    session enters the loader again: its log line is a MISS. *)
Theorem failed_load_is_retried {A} (k : ListKind A) R L s args e em now p sess w :
  list_kind A k ->
  Get (registry s) (a_SessionID args) = Some p ->
  deref (mem s) p = Some sess ->
  GetClient (workers s) (ID sess) = Ok w ->
  k_get k (default empty_cache (cache s !! ID sess)) = None ->
  snd (listTool R L k s args (Some (Err e, em)) now)
  = ToolErr (logAndSanitizeError (String.append (k_tool k) " cache load"))
  /\ k_get k <$> cache (fst (listTool R L k s args (Some (Err e, em)) now)) !! ID sess = Some None
  /\ forall args' loader now', a_SessionID args' = a_SessionID args ->
       logger (fst (listTool R L k (fst (listTool R L k s args (Some (Err e, em)) now))
                      args' loader now'))
       = logger (fst (listTool R L k s args (Some (Err e, em)) now))
         ++ [CacheMISS (k_kind k) (ID sess)].
Proof.
  intros Hk HGet Hderef Hclient Hnil.
  assert (Hcall : exists s1,
            listTool R L k s args (Some (Err e, em)) now
            = (s1, ToolErr (logAndSanitizeError (String.append (k_tool k) " cache load")))
            /\ registry s1 = registry s /\ mem s1 = Touch (mem s) p now
            /\ workers s1 = workers s
            /\ exists c1, cache s1 !! ID sess = Some c1 /\ k_get k c1 = None).
  { unfold listTool. rewrite HGet. simpl.
    rewrite (deref_Touch _ _ _ _ Hderef). simpl. rewrite Hclient.
    unfold getSessionCache. simpl.
    destruct (cache s !! ID sess) as [c|] eqn:Hc; simpl in Hnil;
      unfold load; rewrite Hnil; simpl;
      (eexists; split; [reflexivity|]);
      unfold recordProgress; destruct (String.eqb (ID sess) ""); simpl;
      (split; [reflexivity|]); (split; [reflexivity|]); (split; [reflexivity|]);
      eexists; (split; [apply lookup_insert_eq|exact Hnil]). }
  destruct Hcall as (s1 & Hcall & Hr & Hm & Hw & c1 & Hc1 & Hn1).
  rewrite Hcall. cbn [fst snd]. split; [reflexivity|].
  split; [by rewrite Hc1; simpl; rewrite Hn1|].
  intros args' loader now' Hsid.
  apply (listTool_logs_miss k R L s1 args' loader now' p (with_LastActivity now sess) w).
  - by rewrite Hr, Hsid.
  - rewrite Hm. by apply deref_Touch.
  - by rewrite Hw.
  - simpl. by rewrite Hc1.
Qed.

Lemma failed_load_is_retried_witness :
  snd (getFunctions sample_regexp websocket.lower opened_server first_page (Err "worker gone") 110)
  = ToolErr "get_functions cache load failed"
  /\ logger (fst (getFunctions sample_regexp websocket.lower
                    (fst (getFunctions sample_regexp websocket.lower opened_server first_page
                            (Err "worker gone") 110))
                    first_page (Ok two_functions) 120))
     = [CacheMISS "functions" "1f0c9a2e"; CacheMISS "functions" "1f0c9a2e"].
Proof.
  assert (HGet : Get (registry opened_server) (a_SessionID first_page) = Some 0%nat)
    by (vm_compute; reflexivity).
  assert (Hderef : deref (mem opened_server) 0
                   = Some {| ID := "1f0c9a2e"; BinaryPath := "/tmp/x"; CreatedAt := 100;
                             LastActivity := 100; Timeout := 60;
                             SocketPath := "/tmp/ida-worker-1f0c9a2e.sock"; WorkerPID := 4242 |})
    by (vm_compute; reflexivity).
  assert (Hclient : GetClient (workers opened_server) "1f0c9a2e"
                    = Ok {| cmd := 4242; ctx := 1%nat; w_session := 0%nat; binaryPath := "/tmp/x" |})
    by (vm_compute; reflexivity).
  assert (Hnil : c_functions (default empty_cache (cache opened_server !! "1f0c9a2e")) = None)
    by (vm_compute; reflexivity).
  destruct (failed_load_is_retried functions_kind sample_regexp websocket.lower opened_server
              first_page "worker gone"
              (fetch_failed "get_functions" "Failed to fetch functions: worker gone")
              110 0%nat _ _ kind_functions HGet Hderef Hclient Hnil) as (Herr & _ & Hretry).
  split; [exact Herr|].
  etransitivity; [exact (Hretry first_page (Some (fetchAllFunctions (Ok two_functions))) 120 eq_refl)|].
  vm_compute. reflexivity.
Defined.

(** ** The strings loader never stops by itself *)

Lemma fetchAllStrings_from_full_chunks W :
  (forall o l, exists resp, W o l = Ok resp /\ gs_Error resp = ""
                            /\ chunkSize <= Z.of_nat (length (gs_Strings resp))) ->
  forall fuel all offset total, fetchAllStrings_from fuel W all offset total = None.
Proof.
  intros HW. induction fuel as [|fuel IH]; intros all offset total; [reflexivity|].
  simpl. destruct (HW (int32 offset) (int32 chunkSize)) as (resp & -> & -> & Hlen).
  simpl. rewrite len_repeated.
  destruct (Z.ltb_spec (Z.of_nat (length (gs_Strings resp))) chunkSize); [lia|].
  apply IH.
Qed.

(** X13.  The chunk loop of the strings loader ends only on a chunk
    shorter than 1000 or on an error.  Against a worker that answers every
    request with a full chunk and no error the loop is still running after
    any number of iterations, and [get_strings] on an unpopulated entry
    does not return. *)
Theorem fetchAllStrings_needs_a_short_chunk W :
  (forall o l, exists resp, W o l = Ok resp /\ gs_Error resp = ""
                            /\ chunkSize <= Z.of_nat (length (gs_Strings resp))) ->
  (forall fuel, fetchAllStrings fuel W = None)
  /\ (forall R L s args fuel now p sess w,
        Get (registry s) (a_SessionID args) = Some p ->
        deref (mem s) p = Some sess ->
        GetClient (workers s) (ID sess) = Ok w ->
        c_strings (default empty_cache (cache s !! ID sess)) = None ->
        snd (getStrings R L s args fuel W now) = ToolHangs).
Proof.
  intros HW. split.
  - intros fuel. apply fetchAllStrings_from_full_chunks, HW.
  - intros R L s args fuel now p sess w HGet Hderef Hclient Hnil.
    unfold getStrings, fetchAllStrings. rewrite (fetchAllStrings_from_full_chunks W HW).
    unfold listTool. rewrite HGet. simpl.
    rewrite (deref_Touch _ _ _ _ Hderef). simpl. rewrite Hclient.
    unfold getSessionCache. simpl.
    destruct (cache s !! ID sess) as [c|]; simpl in Hnil; unfold load; simpl;
      [rewrite Hnil|]; reflexivity.
Qed.

Lemma fetchAllStrings_needs_a_short_chunk_witness :
  fetchAllStrings 50 endless_worker = None.
Proof.
  apply fetchAllStrings_needs_a_short_chunk.
  intros o l. eexists. split; [reflexivity|]. split; [reflexivity|].
  vm_compute. discriminate.
Defined.

(** ** Session-bound calls and the idle clock *)

Lemma listTool_mem {A} (k : ListKind A) R L s args loader now p :
  Get (registry s) (a_SessionID args) = Some p ->
  mem (fst (listTool R L k s args loader now)) = Touch (mem s) p now.
Proof.
  intros HGet. unfold listTool. rewrite HGet. simpl.
  destruct (deref (Touch (mem s) p now) p) as [sess|]; [|reflexivity].
  destruct (GetClient (workers s) (ID sess)); [reflexivity|].
  unfold getSessionCache. simpl.
  destruct (cache s !! ID sess) as [c|]; unfold load;
    (destruct (negb (is_nil (k_get k _))); simpl;
     [ destruct (filterItems R L k args _) as [?|[?|]]; frame_simpl; reflexivity
     | destruct loader as [[[?|d] em]|]; simpl;
       [ frame_simpl; reflexivity
       | destruct (filterItems R L k args d) as [?|[?|]]; frame_simpl; reflexivity
       | frame_simpl; reflexivity ] ]).
Qed.

(** X14.  Every session-bound tool ([save_database], [run_auto_analysis],
    [make_function] and the four list tools) touches the session before it
    looks for the worker.  Whatever the outcome of the call, also when the
    worker is gone, the session objects are those of before with the last
    activity of the addressed session set to the time of the call, so that
    the session is not expired at that time. *)
Theorem session_call_refreshes_activity R L s c id now p :
  call_session c = Some (id, now) ->
  Get (registry s) id = Some p ->
  mem (fst (callTool R L s c)) = Touch (mem s) p now
  /\ forall sess, deref (mem s) p = Some sess ->
       deref (mem (fst (callTool R L s c))) p = Some (with_LastActivity now sess)
       /\ (0 <= Timeout sess -> IsExpired (with_LastActivity now sess) now = false).
Proof.
  intros Hc HGet.
  assert (Hmem : mem (fst (callTool R L s c)) = Touch (mem s) p now).
  { destruct c; try discriminate; cbn [callTool call_session] in *;
      injection Hc as Hid Hnow; rewrite <- Hid in HGet; rewrite <- Hnow.
    - unfold saveDatabase. rewrite HGet. simpl.
      destruct (deref (Touch (mem s) p now0) p) as [sess|]; [|reflexivity].
      destruct (GetClient (workers s) (ID sess)); [reflexivity|].
      by destruct rpc.
    - unfold runAutoAnalysis. rewrite HGet. simpl.
      destruct (deref (Touch (mem s) p (ra_now e)) p) as [sess|]; [|reflexivity].
      destruct (GetClient (workers s) (ID sess)); [reflexivity|].
      destruct (ra_end e); frame_simpl; reflexivity.
    - unfold makeFunction. rewrite HGet. simpl.
      destruct (deref (Touch (mem s) p now0) p) as [sess|]; [|reflexivity].
      destruct (GetClient (workers s) (ID sess)); [reflexivity|].
      destruct rpc as [e|resp]; [reflexivity|].
      destruct (negb (String.eqb (mf_Error resp) "")); [reflexivity|].
      destruct (mf_Success resp); frame_simpl; reflexivity.
    - by apply listTool_mem.
    - by apply listTool_mem.
    - by apply listTool_mem.
    - by apply listTool_mem. }
  split; [exact Hmem|]. intros sess Hd. rewrite Hmem. split.
  - by apply deref_Touch.
  - intros Ht. unfold IsExpired. simpl. destruct (Z.gtb_spec (now - now) (Timeout sess)); [lia|done].
Qed.

Lemma session_call_refreshes_activity_witness :
  deref (mem (fst (callTool sample_regexp websocket.lower orphaned_server
                     (save_database "1f0c9a2e" (Err "unreachable") 500))) ) 0
  = Some {| ID := "1f0c9a2e"; BinaryPath := "/tmp/x"; CreatedAt := 100;
            LastActivity := 500; Timeout := 60;
            SocketPath := "/tmp/ida-worker-1f0c9a2e.sock"; WorkerPID := 4242 |}
  /\ snd (callTool sample_regexp websocket.lower orphaned_server
            (save_database "1f0c9a2e" (Err "unreachable") 500))
     = ToolErr "save_database worker client failed".
Proof.
  assert (HGet : Get (registry orphaned_server) "1f0c9a2e" = Some 0%nat)
    by (vm_compute; reflexivity).
  assert (Hd : deref (mem orphaned_server) 0
               = Some {| ID := "1f0c9a2e"; BinaryPath := "/tmp/x"; CreatedAt := 100;
                         LastActivity := 120; Timeout := 60;
                         SocketPath := "/tmp/ida-worker-1f0c9a2e.sock"; WorkerPID := 4242 |})
    by (vm_compute; reflexivity).
  destruct (session_call_refreshes_activity sample_regexp websocket.lower orphaned_server
              (save_database "1f0c9a2e" (Err "unreachable") 500) "1f0c9a2e" 500 0%nat
              eq_refl HGet) as (_ & H).
  destruct (H _ Hd) as (Hderef & _).
  split; [exact Hderef|]. vm_compute. reflexivity.
Defined.

(** ** Progress snapshots *)

(** X15.  A recorded progress snapshot is what [getProgress] returns for
    that session, other sessions' snapshots are not affected by recording
    or clearing, [clearProgress] removes the snapshot, and both do nothing
    for the empty session id. *)
Theorem progress_snapshot_round_trip s id stage msg a b now :
  id <> "" ->
  getProgress (recordProgress s id stage msg a b now) id
  = Some {| Stage := stage; Message := msg; Progress := a; Total := b; UpdatedAt := now |}
  /\ (forall id', id' <> id ->
        getProgress (recordProgress s id stage msg a b now) id' = getProgress s id')
  /\ getProgress (clearProgress (recordProgress s id stage msg a b now) id) id = None
  /\ (forall id', id' <> id ->
        getProgress (clearProgress s id) id' = getProgress s id')
  /\ recordProgress s "" stage msg a b now = s
  /\ clearProgress s "" = s.
Proof.
  intros Hid. unfold getProgress, recordProgress, clearProgress.
  destruct (String.eqb_spec id ""); [done|]. simpl.
  split; [apply lookup_insert_eq|].
  split; [intros id' Hne; by apply lookup_insert_ne|].
  split; [apply lookup_delete_eq|].
  split; [intros id' Hne; by apply lookup_delete_ne|].
  split; reflexivity.
Qed.

Lemma progress_snapshot_round_trip_witness :
  getProgress (recordProgress fresh_server "1f0c9a2e" "open_binary" "Session created" 0 5 100)
              "1f0c9a2e"
  = Some {| Stage := "open_binary"; Message := "Session created"; Progress := 0; Total := 5;
            UpdatedAt := 100 |}
  /\ getProgress (clearProgress
                    (recordProgress fresh_server "1f0c9a2e" "open_binary" "Session created" 0 5 100)
                    "1f0c9a2e") "1f0c9a2e" = None.
Proof.
  assert (Hid : "1f0c9a2e" <> "") by discriminate.
  destruct (progress_snapshot_round_trip fresh_server "1f0c9a2e" "open_binary" "Session created"
              0 5 100 Hid) as (H1 & _ & H2 & _).
  split; [exact H1|exact H2].
Defined.

(** ** Mutations that do not happen keep the cache *)

Lemma fetchInfo_fold_cache sid start ticks st :
  cache (al_server (fold_left (fetchInfo sid start) ticks st)) = cache (al_server st)
  /\ logger (al_server (fold_left (fetchInfo sid start) ticks st)) = logger (al_server st).
Proof.
  revert st. induction ticks as [|t ticks IH]; intros st; simpl; [done|].
  destruct (IH (fetchInfo sid start st t)) as (-> & ->).
  unfold fetchInfo. destruct (t_info t); simpl; [|done].
  by rewrite emitProgress_cache, emitProgress_logger.
Qed.

(** X16.  A mutation that did not happen leaves the cache alone.  Unless
    [make_function] answers success:true, and whenever
    [run_auto_analysis] returns an error, the cache and the cache lines of
    the log are as before the call. *)
Theorem cache_survives_failed_mutation s sid :
  (forall addr rpc now s1 r,
      makeFunction s sid addr rpc now = (s1, r) ->
      r <> ToolJson (JObj [("success", JBool true)]) ->
      cache s1 = cache s /\ logger s1 = logger s)
  /\ (forall e s1 msg,
        runAutoAnalysis s sid e = (s1, ToolErr msg) ->
        cache s1 = cache s /\ logger s1 = logger s).
Proof.
  split.
  - intros addr rpc now s1 r. unfold makeFunction.
    destruct (Get (registry s) sid) as [p|]; [|by intros [= <- <-]]. simpl.
    destruct (deref (Touch (mem s) p now) p) as [sess|]; [|by intros [= <- <-]].
    destruct (GetClient (workers s) (ID sess)); [by intros [= <- <-]|].
    destruct rpc as [e|resp]; [by intros [= <- <-]|].
    destruct (negb (String.eqb (mf_Error resp) "")); [by intros [= <- <-]|].
    destruct (mf_Success resp); intros [= <- <-]; [by intros []|done].
  - intros e s1 msg. unfold runAutoAnalysis.
    destruct (Get (registry s) sid) as [p|]; [|by intros [= <- _]]. simpl.
    destruct (deref (Touch (mem s) p (ra_now e)) p) as [sess|]; [|discriminate].
    destruct (GetClient (workers s) (ID sess)); [by intros [= <- _]|].
    destruct (ra_end e); [| |discriminate]; intros [= <- _];
      rewrite ?emitProgress_cache, ?emitProgress_logger;
      destruct (fetchInfo_fold_cache (ID sess) (ra_now e) (ra_ticks e)
                  {| al_server := emitProgress (set_mem s (Touch (mem s) p (ra_now e)))
                                    "auto_analysis" (ID sess) "auto_analysis"
                                    "Running plan_and_wait" 0 0 (ra_now e);
                     al_updates := []; al_lastState := ""; al_lastRunning := false |})
        as (-> & ->); simpl;
      by rewrite emitProgress_cache, emitProgress_logger.
Qed.

Lemma cache_survives_failed_mutation_witness :
  logger (fst (getFunctions sample_regexp websocket.lower
                 (fst (makeFunction cached_server "1f0c9a2e" 12288
                         (Ok {| mf_Success := false; mf_Error := "" |}) 140))
                 first_page (Ok two_functions) 150))
  = [CacheMISS "functions" "1f0c9a2e"; CacheHIT "functions" "1f0c9a2e"]
  /\ cache (fst (makeFunction cached_server "1f0c9a2e" 12288
                   (Ok {| mf_Success := false; mf_Error := "" |}) 140))
     = cache cached_server.
Proof.
  assert (Hcall : makeFunction cached_server "1f0c9a2e" 12288
                    (Ok {| mf_Success := false; mf_Error := "" |}) 140
                  = (fst (makeFunction cached_server "1f0c9a2e" 12288
                            (Ok {| mf_Success := false; mf_Error := "" |}) 140),
                     ToolJson (JObj [("success", JBool false)])))
    by (vm_compute; reflexivity).
  destruct (proj1 (cache_survives_failed_mutation cached_server "1f0c9a2e") _ _ _ _ _ Hcall)
    as (Hc & _); [discriminate|].
  split; [vm_compute; reflexivity|exact Hc].
Defined.

(** ** WebSocket requests and their replies *)

Section requests.

Variable json_text : string -> result json.

(** X17.  A frame that decodes to an envelope of a type other than
    "request" is ignored: nothing is queued, nothing is handed to the MCP
    server.  A request is handed to the MCP server once, with its payload;
    on a live connection with room in its queue the answer is queued as a
    "response" envelope and a failure as an "error" envelope with the
    message "MCP request processing error: ..." and one more counted
    error.  Either reply carries the request's id, and leaves the id out
    when the request had none. *)
Theorem request_is_answered_under_its_id (c : websocket.WebSocketClientConnection)
    (m : websocket.McpServer) (frame : string)
    (env : websocket.WebSocketMessageEnvelopeForModelContextProtocol) :
  websocket.Unmarshal json_text frame = Ok env ->
  websocket.cancelled c = false ->
  (length (websocket.messageChannelForOutgoingMessagesToClient c) < websocket.queueCapacity)%nat ->
  let id := websocket.MessageIdentifierForRequestResponseCorrelation env in
  let req := websocket.ModelContextProtocolRequestPayload env in
  let r := websocket.processReceivedMessageAndSendResponse json_text c m frame in
  let id_member := if String.eqb id "" then [] else [("id", JStr id)] in
  (websocket.MessageTypeIdentifierString env <> "request" -> r = (c, m))
  /\ (websocket.MessageTypeIdentifierString env = "request" ->
      websocket.handed (snd r) = websocket.handed m ++ [req]
      /\ (forall resp, websocket.HandleMessage m req = Ok resp ->
            websocket.messageChannelForOutgoingMessagesToClient (fst r)
            = websocket.messageChannelForOutgoingMessagesToClient c
              ++ [JObj ([("type", JStr "response")] ++ id_member
                        ++ websocket.omitempty_raw "response" resp)]
            /\ websocket.totalNumberOfErrorsEncounteredDuringConnectionLifetime (fst r)
               = websocket.totalNumberOfErrorsEncounteredDuringConnectionLifetime c)
      /\ (forall e, websocket.HandleMessage m req = Err e ->
            websocket.messageChannelForOutgoingMessagesToClient (fst r)
            = websocket.messageChannelForOutgoingMessagesToClient c
              ++ [JObj ([("type", JStr "error")] ++ id_member
                        ++ [("error",
                             JObj [("message",
                                    JStr (String.append "MCP request processing error: " e))])])]
            /\ websocket.totalNumberOfErrorsEncounteredDuringConnectionLifetime (fst r)
               = websocket.totalNumberOfErrorsEncounteredDuringConnectionLifetime c + 1)).
Proof.
  intros Hdec Hlive Hroom id req r id_member. subst r.
  unfold websocket.processReceivedMessageAndSendResponse. rewrite Hdec.
  apply Nat.ltb_lt in Hroom.
  split.
  - intros Hty. apply String.eqb_neq in Hty. by rewrite Hty.
  - intros Hty. rewrite Hty. simpl. fold req. split.
    + by destruct (websocket.HandleMessage m req).
    + split.
      * intros resp ->. simpl.
        unfold websocket.sendSuccessResponseToClient, websocket.enqueueMessageForTransmissionToClient.
        rewrite Hlive, Hroom. unfold websocket.Marshal. simpl. fold id. subst id_member.
        destruct (String.eqb id ""); destruct resp; done.
      * intros e ->. simpl.
        unfold websocket.sendErrorResponseToClient, websocket.enqueueMessageForTransmissionToClient.
        rewrite Hlive, Hroom. unfold websocket.Marshal. simpl. fold id. subst id_member.
        destruct (String.eqb id ""); done.
Qed.

End requests.

Lemma request_is_answered_under_its_id_witness :
  websocket.messageChannelForOutgoingMessagesToClient
    (fst (websocket.processReceivedMessageAndSendResponse request_frame_decoder open_connection
            echo_mcp "request-frame"))
  = [JObj [("type", JStr "response"); ("id", JStr "t1");
          ("response", JObj [("method", JStr "tools/list"); ("params", JObj [])])]]
  /\ websocket.handed
       (snd (websocket.processReceivedMessageAndSendResponse request_frame_decoder open_connection
               echo_mcp "request-frame"))
     = [Some (JObj [("method", JStr "tools/list"); ("params", JObj [])])].
Proof.
  assert (Hdec : websocket.Unmarshal request_frame_decoder "request-frame" = Ok request_envelope)
    by (vm_compute; reflexivity).
  assert (Hroom : (length (websocket.messageChannelForOutgoingMessagesToClient open_connection)
                   < websocket.queueCapacity)%nat) by (vm_compute; lia).
  destruct (request_is_answered_under_its_id request_frame_decoder open_connection echo_mcp
              "request-frame" request_envelope Hdec eq_refl Hroom) as (_ & H).
  destruct (H eq_refl) as (Hhanded & Hok & _).
  destruct (Hok _ eq_refl) as (Hq & _).
  split; [exact Hq|exact Hhanded].
Defined.

(** ** close_binary on a live session *)

Lemma closeBinary_live_witness :
  snd (closeBinary cached_server "1f0c9a2e" None) = ToolJson (JObj [("success", JBool true)])
  /\ Get (registry (fst (closeBinary cached_server "1f0c9a2e" None))) "1f0c9a2e" = None
  /\ alive (os (fst (closeBinary cached_server "1f0c9a2e" None))) 4242 = false
  /\ cache (fst (closeBinary cached_server "1f0c9a2e" None)) !! "1f0c9a2e" = None.
Proof.
  assert (HGet : Get (registry cached_server) "1f0c9a2e" = Some 0%nat)
    by (vm_compute; reflexivity).
  assert (Hd : deref (mem cached_server) 0
               = Some {| ID := "1f0c9a2e"; BinaryPath := "/tmp/x"; CreatedAt := 100;
                         LastActivity := 120; Timeout := 60;
                         SocketPath := "/tmp/ida-worker-1f0c9a2e.sock"; WorkerPID := 4242 |})
    by (vm_compute; reflexivity).
  assert (Hw : worker.sessions (workers cached_server) !! "1f0c9a2e"
               = Some {| cmd := 4242; ctx := 1%nat; w_session := 0%nat; binaryPath := "/tmp/x" |})
    by (vm_compute; reflexivity).
  assert (Hid : "1f0c9a2e" <> "") by discriminate.
  destruct (closeBinary_live cached_server 0%nat
              {| ID := "1f0c9a2e"; BinaryPath := "/tmp/x"; CreatedAt := 100;
                 LastActivity := 120; Timeout := 60;
                 SocketPath := "/tmp/ida-worker-1f0c9a2e.sock"; WorkerPID := 4242 |}
              {| cmd := 4242; ctx := 1%nat; w_session := 0%nat; binaryPath := "/tmp/x" |}
              HGet Hd Hw Hid)
    as (Hr & Hg & _ & Ha & _ & Hc & _).
  split; [exact Hr|]. split; [exact Hg|]. split; [exact Ha|exact Hc].
Defined.
